(** * soulstruct BND containers: a shallow embedding of
      [soulstruct/containers/bnd/core.py] and the properties of its
      archive codec (BND3 / BND4). *)

From stdpp Require Import base option list gmap strings numbers sorting.
From Stdlib Require Import ZArith Lia.
From Stdlib.Strings Require Import Byte.

Open Scope Z_scope.

(** ** Python values used by the module *)

(** A Python [str] is a sequence of code points; [ord] is the identity. *)
Definition pystr := list Z.

Definition ord (c : Z) : Z := c.

(** Literals: the code points of an 8-bit Rocq string. *)
Fixpoint str (s : string) : pystr :=
  match s with
  | EmptyString => []
  | String a s' => Z.of_N (Ascii.N_of_ascii a) :: str s'
  end.

Definition bytes := list byte.

(** Exceptions raised by the module and by the collaborators it calls. *)
Inductive exn : Type :=
  | BNDError (msg : string)
  | ValueError (msg : string)
  | TypeError (msg : string)
  | AttributeError (msg : string)
  | StructError (msg : string)
  | IndexError (msg : string)
  | KeyError
  | ZlibError
  | UnicodeError.

Inductive result (A : Type) : Type :=
  | Ok (a : A)
  | Raise (e : exn).
Arguments Ok {A} a.
Arguments Raise {A} e.

#[global] Instance result_ret : MRet result := λ A a, Ok a.
#[global] Instance result_bind : MBind result := λ A B k r,
  match r with
  | Ok a => k a
  | Raise e => Raise e
  end.

(** [range(start, stop, step)] for a positive step. *)
Fixpoint range_from (start step : Z) (n : nat) : list Z :=
  match n with
  | O => []
  | S n' => start :: range_from (start + step) step n'
  end.

Definition py_range (start stop step : Z) : list Z :=
  range_from start step (Z.to_nat ((stop - start + step - 1) `div` step)).

(** [enumerate(l)] *)
Fixpoint enumerate_from {A} (i : Z) (l : list A) : list (Z * A) :=
  match l with
  | [] => []
  | x :: l' => (i, x) :: enumerate_from (i + 1) l'
  end.

Definition enumerate {A} (l : list A) : list (Z * A) := enumerate_from 0 l.

(** ** [BND4.path_hash] *)

Definition backslash : Z := 92.
Definition slash : Z := 47.

(** [s.replace("\\", "/")] *)
Definition replace_backslashes (s : pystr) : pystr :=
  (λ c, if c =? backslash then slash else c) <$> s.

(** [s.startswith(c)] for a one-character prefix. *)
Definition startswith (s : pystr) (c : Z) : bool :=
  match s with
  | c0 :: _ => c0 =? c
  | [] => false
  end.

Definition path_hash (path_string : pystr) : Z :=
  let hashable := replace_backslashes path_string in
  let hashable := if negb (startswith hashable slash) then slash :: hashable else hashable in
  fold_left (λ h '(i, s), h + (i * 37 + ord s)) (enumerate hashable) 0.

(** The specification's wording of the hash: normalise, then sum
    [i * 37 + ord(char_i)] over the 0-based positions. *)
Definition spec_normalize (p : pystr) : pystr :=
  let q := replace_backslashes p in
  match q with
  | c :: _ => if c =? slash then q else slash :: q
  | [] => [slash]
  end.

Definition spec_hash_sum (s : pystr) : Z :=
  foldr Z.add 0 ((λ i : nat, Z.of_nat i * 37 + s !!! i) <$> seq 0 (length s)).

(** ** [BND4.is_prime] and the group count of [BND4.build_hash_table] *)

(** The [for i in range(3, p // 2, 2)] loop with its two early returns. *)
Fixpoint is_prime_loop (p : Z) (candidates : list Z) : bool :=
  match candidates with
  | [] => true
  | i :: rest =>
      if p `mod` i =? 0 then false
      else if i ^ 2 >? p then true
      else is_prime_loop p rest
  end.

Definition is_prime (p : Z) : bool :=
  if p <? 2 then false
  else if p =? 2 then true
  else if p `mod` 2 =? 0 then false
  else is_prime_loop p (py_range 3 (p `div` 2) 2).

(** [for p in range(n // 7, 100000): if is_prime(p): ... break / else: raise] *)
Definition hash_group_count (entry_count : Z) : result Z :=
  match list_find (λ p, is_prime p = true) (py_range (entry_count `div` 7) 100000 1) with
  | Some (_, p) => Ok p
  | None => Raise (ValueError "Hash group count could not be determined.")
  end.

(** Primality as the specification means it. *)
Definition Prime (p : Z) : Prop := 2 ≤ p ∧ ∀ d, 1 < d < p → ¬ (d | p).


(** ** Python's [struct] formats *)

#[global] Instance byte_eq_dec : EqDecision byte := Byte.byte_eq_dec.

(** Byte order of a field: ["<"] or [">"]. *)
Inductive byte_order : Type := LittleEndian | BigEndian.

Definition byte_of_Z (z : Z) : byte :=
  default x00 (Byte.of_N (Z.to_N (z `mod` 256))).

Definition Z_of_byte (b : byte) : Z := Z.of_N (Byte.to_N b).

Fixpoint le_bytes (width : nat) (z : Z) : bytes :=
  match width with
  | O => []
  | S w => byte_of_Z z :: le_bytes w (z `div` 256)
  end.

Fixpoint le_value (bs : bytes) : Z :=
  match bs with
  | [] => 0
  | b :: bs' => Z_of_byte b + 256 * le_value bs'
  end.

(** [int.to_bytes] / [int.from_bytes] for a non-negative value. *)
Definition int_to_bytes (bo : byte_order) (width : nat) (z : Z) : bytes :=
  match bo with
  | LittleEndian => le_bytes width z
  | BigEndian => reverse (le_bytes width z)
  end.

Definition int_from_bytes (bo : byte_order) (bs : bytes) : Z :=
  match bo with
  | LittleEndian => le_value bs
  | BigEndian => le_value (reverse bs)
  end.

(** The format characters the module uses: ["Ns"], ["b"], ["B"], ["i"],
    ["I"], ["q"] and ["?"]. *)
Inductive fmt : Type :=
  | Fmt_s (n : nat)
  | Fmt_b
  | Fmt_B
  | Fmt_i
  | Fmt_I
  | Fmt_q
  | Fmt_bool.

Definition calcsize (f : fmt) : nat :=
  match f with
  | Fmt_s n => n
  | Fmt_b | Fmt_B | Fmt_bool => 1
  | Fmt_i | Fmt_I => 4
  | Fmt_q => 8
  end.

(** Signedness of the integer formats ([None] for the others). *)
Definition int_signed (f : fmt) : option bool :=
  match f with
  | Fmt_b | Fmt_i | Fmt_q => Some true
  | Fmt_B | Fmt_I => Some false
  | Fmt_s _ | Fmt_bool => None
  end.

Definition int_min (f : fmt) : Z :=
  match int_signed f with
  | Some true => - 2 ^ (8 * Z.of_nat (calcsize f) - 1)
  | _ => 0
  end.

Definition int_max (f : fmt) : Z :=
  match int_signed f with
  | Some true => 2 ^ (8 * Z.of_nat (calcsize f) - 1) - 1
  | _ => 2 ^ (8 * Z.of_nat (calcsize f)) - 1
  end.

(** The Python values that travel through the structs. *)
Inductive pyvalue : Type :=
  | VNone
  | VBool (b : bool)
  | VInt (z : Z)
  | VBytes (b : bytes)
  | VStr (s : pystr).

#[global] Instance pyvalue_eq_dec : EqDecision pyvalue.
Proof. solve_decision. Defined.

(** A dict with string keys. *)
Abbreviation dict := (gmap string pyvalue).

(** Truth value of a Python object. *)
Definition truthy (v : pyvalue) : bool :=
  match v with
  | VNone => false
  | VBool b => b
  | VInt z => negb (z =? 0)
  | VBytes b => negb (bool_decide (b = []))
  | VStr s => negb (bool_decide (s = []))
  end.

(** The integer a value stands for where [struct] wants one ([bool] is a
    subclass of [int]). *)
Definition as_index (v : pyvalue) : option Z :=
  match v with
  | VInt z => Some z
  | VBool b => Some (if b then 1 else 0)
  | _ => None
  end.

(** Python equality between two values ([True == 1], [b"" != ""]). *)
Definition py_eq (v w : pyvalue) : bool :=
  match as_index v, as_index w with
  | Some a, Some b => a =? b
  | _, _ => bool_decide (v = w)
  end.

(** ** External collaborators

    The magic-flag rules ([soulstruct.containers.bnd.magic]), [zlib] and the
    text codecs are not part of this module; the code only calls them. *)

Class MagicRules : Type := {
  has_id : Z → bool;
  has_path : Z → bool;
  has_uncompressed_size : Z → bool;
  is_entry_compressed : Z → bool;
  is_big_endian : Z → bool;
  header_size : Z → Z;
}.

Class Zlib : Type := {
  (** [zlib.compress(data, level=7)] *)
  zlib_compress : bytes → bytes;
  (** [zlib.decompressobj().decompress(data)] *)
  zlib_decompress : bytes → result bytes;
}.

Class TextCodec : Type := {
  (** [s.encode(encoding)] *)
  str_encode : pystr → string → result bytes;
  (** [b.decode()] *)
  bytes_decode : bytes → result pystr;
  (** [read_chars_from_buffer(buffer, offset=offset, encoding=encoding)]
      on the buffer's content; the buffer position is left where it was. *)
  read_chars_from_buffer : bytes → Z → string → result pystr;
}.

(** ** [struct.pack] / [struct.unpack] of one value *)

Definition pack_value `{TextCodec} (f : fmt) (bo : byte_order) (v : pyvalue) : result bytes :=
  match f with
  | Fmt_s n =>
      b ← match v with
          | VBytes b => Ok b
          | VStr s => str_encode s "utf-8"
          | _ => Raise (StructError "argument for 's' must be a bytes object")
          end;
      Ok (take n b ++ replicate (n - length b) x00)
  | Fmt_bool => Ok [if truthy v then x01 else x00]
  | _ =>
      match as_index v with
      | None => Raise (StructError "required argument is not an integer")
      | Some z =>
          if bool_decide (int_min f ≤ z ≤ int_max f)
          then Ok (int_to_bytes bo (calcsize f) (z `mod` 2 ^ (8 * Z.of_nat (calcsize f))))
          else Raise (StructError "argument out of range")
      end
  end.

(** [bs] holds exactly [calcsize f] bytes. *)
Definition unpack_value (f : fmt) (bo : byte_order) (bs : bytes) : pyvalue :=
  match f with
  | Fmt_s _ => VBytes bs
  | Fmt_bool => VBool (negb (int_from_bytes bo bs =? 0))
  | _ =>
      let u := int_from_bytes bo bs in
      VInt (if bool_decide (int_max f < u) then u - 2 ^ (8 * Z.of_nat (calcsize f)) else u)
  end.

(** ** The BinaryStruct collaborator *)

(** Modelled from the spec: [soulstruct.utilities.binary_struct.BinaryStruct]
    is not part of this module.  It "packs/unpacks fixed field lists with
    configurable byte order": a field is [(name, format)], optionally with an
    asserted value that pack writes and unpack checks, and ["Nx"] is padding
    (zero on pack, skipped on unpack).  Fields keep the byte order they were
    added with. *)
Inductive field_spec : Type :=
  | Field (name : string) (f : fmt)
  | Asserted (name : string) (f : fmt) (value : pyvalue)
  | Pad (n : nat).

Definition BinaryStruct : Type := list (field_spec * byte_order).

Definition new_BinaryStruct (fields : list field_spec) (bo : byte_order) : BinaryStruct :=
  (λ f, (f, bo)) <$> fields.

Definition add_fields (st : BinaryStruct) (fields : list field_spec) (bo : byte_order)
  : BinaryStruct :=
  st ++ new_BinaryStruct fields bo.

Definition field_size (f : field_spec) : nat :=
  match f with
  | Field _ f | Asserted _ f _ => calcsize f
  | Pad n => n
  end.

Definition struct_size_nat (st : BinaryStruct) : nat :=
  sum_list ((λ fb, field_size (fst fb)) <$> st).

Definition struct_size (st : BinaryStruct) : Z := Z.of_nat (struct_size_nat st).

(** [BinaryStruct.pack(d)] *)
Fixpoint struct_pack `{TextCodec} (st : BinaryStruct) (d : dict) : result bytes :=
  match st with
  | [] => Ok []
  | (fs, bo) :: st' =>
      b ← match fs with
          | Pad n => Ok (replicate n x00)
          | Asserted _ f v => pack_value f bo v
          | Field name f =>
              match d !! name with
              | Some v => pack_value f bo v
              | None => Raise (StructError ("missing field " +:+ name))
              end
          end;
      rest ← struct_pack st' d;
      Ok (b ++ rest)
  end.

(** [BinaryStruct.pack_multiple(dicts)] *)
Fixpoint struct_pack_multiple `{TextCodec} (st : BinaryStruct) (ds : list dict) : result bytes :=
  match ds with
  | [] => Ok []
  | d :: ds' =>
      b ← struct_pack st d;
      rest ← struct_pack_multiple st ds';
      Ok (b ++ rest)
  end.

(** Decoding of the fields, one after the other, into [acc]. *)
Fixpoint struct_unpack_fields (st : BinaryStruct) (data : bytes) (acc : dict) : result dict :=
  match st with
  | [] => Ok acc
  | (fs, bo) :: st' =>
      let chunk := take (field_size fs) data in
      let data' := drop (field_size fs) data in
      match fs with
      | Pad _ => struct_unpack_fields st' data' acc
      | Field name f =>
          struct_unpack_fields st' data' (<[name := unpack_value f bo chunk]> acc)
      | Asserted name f a =>
          let v := unpack_value f bo chunk in
          if py_eq v a
          then struct_unpack_fields st' data' (<[name := v]> acc)
          else Raise (ValueError ("Field " +:+ name +:+ " does not have its asserted value."))
      end
  end.

(** [struct.unpack] wants exactly the struct's size in bytes. *)
Definition struct_unpack (st : BinaryStruct) (data : bytes) : result dict :=
  if bool_decide (length data = struct_size_nat st)
  then struct_unpack_fields st data ∅
  else Raise (StructError "unpack requires a buffer of the struct's size").

(** ** [io.BytesIO] *)

Record BytesIO : Type := mkBytesIO { getvalue : bytes; tell : nat }.

(** [buffer.read(n)]: up to [n] bytes, everything left when [n < 0]. *)
Definition bio_read (n : Z) (buffer : BytesIO) : bytes * BytesIO :=
  let rest := drop (tell buffer) (getvalue buffer) in
  let got := if n <? 0 then rest else take (Z.to_nat n) rest in
  (got, mkBytesIO (getvalue buffer) (tell buffer + length got)).

(** [buffer.seek(offset)] *)
Definition bio_seek (offset : Z) (buffer : BytesIO) : result BytesIO :=
  if offset <? 0 then Raise (ValueError "negative seek value")
  else Ok (mkBytesIO (getvalue buffer) (Z.to_nat offset)).

(** [BinaryStruct.unpack(buffer)]: read the struct's size, then decode. *)
Definition BinaryStruct_unpack (st : BinaryStruct) (buffer : BytesIO) : result (dict * BytesIO) :=
  let '(data, buffer) := bio_read (struct_size st) buffer in
  d ← struct_unpack st data;
  Ok (d, buffer).

(** [BinaryStruct.unpack_count(buffer, count=count)] *)
Fixpoint unpack_count_loop (st : BinaryStruct) (buffer : BytesIO) (count : nat)
  : result (list dict) :=
  match count with
  | O => Ok []
  | S count' =>
      '(d, buffer) ← BinaryStruct_unpack st buffer;
      ds ← unpack_count_loop st buffer count';
      Ok (d :: ds)
  end.

Definition BinaryStruct_unpack_count (st : BinaryStruct) (buffer : BytesIO) (count : Z)
  : result (list dict) :=
  unpack_count_loop st buffer (Z.to_nat count).

(** Typed reads of a dict entry ([d["name"]] / [d.name]). *)
Definition getitem (d : dict) (name : string) : result pyvalue :=
  match d !! name with
  | Some v => Ok v
  | None => Raise (AttributeError name)
  end.

Definition getint (d : dict) (name : string) : result Z :=
  v ← getitem d name;
  match as_index v with
  | Some z => Ok z
  | None => Raise (TypeError name)
  end.

Definition getbytes (d : dict) (name : string) : result bytes :=
  v ← getitem d name;
  match v with
  | VBytes b => Ok b
  | _ => Raise (TypeError name)
  end.

(** [len(b)] *)
Definition len {A} (l : list A) : Z := Z.of_nat (length l).

(** [b.rstrip(b"\0")] *)
Fixpoint lstrip_nul (b : bytes) : bytes :=
  match b with
  | x00 :: b' => lstrip_nul b'
  | _ => b
  end.

Definition rstrip_nul (b : bytes) : bytes := reverse (lstrip_nul (reverse b)).

(** ** [BNDEntry] *)

(** The attributes [id] and [magic] of an entry are [entry_id] and
    [entry_magic] here; [__eq__] compares [(id, path, magic, data)], which is
    equality of the record. *)
Record BNDEntry : Type := mkBNDEntry {
  data : bytes;
  entry_id : option Z;
  path : option pystr;
  entry_magic : Z;
}.

#[global] Instance BNDEntry_eq_dec : EqDecision BNDEntry.
Proof. solve_decision. Defined.

(** ** The archive object

    One record holds the attributes of [BaseBND] and of both subclasses
    ([unknown] is BND3's; [flag1] ... [hash_table_offset] are BND4's). *)
Record BND : Type := mkBND {
  signature : pystr;
  magic : Z;
  big_endian : bool;
  _most_recent_hash_table : bytes;
  _most_recent_entry_count : Z;
  _most_recent_paths : list (option pystr);
  header_struct : option BinaryStruct;
  entry_header_struct : option BinaryStruct;
  _entries : list BNDEntry;
  unknown : bool;
  flag1 : bool;
  flag2 : bool;
  utf16_paths : bool;
  hash_table_type : Z;
  hash_table_offset : Z;
}.

(** Attribute assignment, [self.x = v]. *)
Definition set_signature (v : pystr) (b : BND) : BND :=
  mkBND v (magic b) (big_endian b) (_most_recent_hash_table b) (_most_recent_entry_count b) (_most_recent_paths b) (header_struct b) (entry_header_struct b) (_entries b) (unknown b) (flag1 b) (flag2 b) (utf16_paths b) (hash_table_type b) (hash_table_offset b).
Definition set_magic (v : Z) (b : BND) : BND :=
  mkBND (signature b) v (big_endian b) (_most_recent_hash_table b) (_most_recent_entry_count b) (_most_recent_paths b) (header_struct b) (entry_header_struct b) (_entries b) (unknown b) (flag1 b) (flag2 b) (utf16_paths b) (hash_table_type b) (hash_table_offset b).
Definition set_big_endian (v : bool) (b : BND) : BND :=
  mkBND (signature b) (magic b) v (_most_recent_hash_table b) (_most_recent_entry_count b) (_most_recent_paths b) (header_struct b) (entry_header_struct b) (_entries b) (unknown b) (flag1 b) (flag2 b) (utf16_paths b) (hash_table_type b) (hash_table_offset b).
Definition set_most_recent_hash_table (v : bytes) (b : BND) : BND :=
  mkBND (signature b) (magic b) (big_endian b) v (_most_recent_entry_count b) (_most_recent_paths b) (header_struct b) (entry_header_struct b) (_entries b) (unknown b) (flag1 b) (flag2 b) (utf16_paths b) (hash_table_type b) (hash_table_offset b).
Definition set_most_recent_entry_count (v : Z) (b : BND) : BND :=
  mkBND (signature b) (magic b) (big_endian b) (_most_recent_hash_table b) v (_most_recent_paths b) (header_struct b) (entry_header_struct b) (_entries b) (unknown b) (flag1 b) (flag2 b) (utf16_paths b) (hash_table_type b) (hash_table_offset b).
Definition set_most_recent_paths (v : list (option pystr)) (b : BND) : BND :=
  mkBND (signature b) (magic b) (big_endian b) (_most_recent_hash_table b) (_most_recent_entry_count b) v (header_struct b) (entry_header_struct b) (_entries b) (unknown b) (flag1 b) (flag2 b) (utf16_paths b) (hash_table_type b) (hash_table_offset b).
Definition set_header_struct (v : option BinaryStruct) (b : BND) : BND :=
  mkBND (signature b) (magic b) (big_endian b) (_most_recent_hash_table b) (_most_recent_entry_count b) (_most_recent_paths b) v (entry_header_struct b) (_entries b) (unknown b) (flag1 b) (flag2 b) (utf16_paths b) (hash_table_type b) (hash_table_offset b).
Definition set_entry_header_struct (v : option BinaryStruct) (b : BND) : BND :=
  mkBND (signature b) (magic b) (big_endian b) (_most_recent_hash_table b) (_most_recent_entry_count b) (_most_recent_paths b) (header_struct b) v (_entries b) (unknown b) (flag1 b) (flag2 b) (utf16_paths b) (hash_table_type b) (hash_table_offset b).
Definition set_entries (v : list BNDEntry) (b : BND) : BND :=
  mkBND (signature b) (magic b) (big_endian b) (_most_recent_hash_table b) (_most_recent_entry_count b) (_most_recent_paths b) (header_struct b) (entry_header_struct b) v (unknown b) (flag1 b) (flag2 b) (utf16_paths b) (hash_table_type b) (hash_table_offset b).
Definition set_unknown (v : bool) (b : BND) : BND :=
  mkBND (signature b) (magic b) (big_endian b) (_most_recent_hash_table b) (_most_recent_entry_count b) (_most_recent_paths b) (header_struct b) (entry_header_struct b) (_entries b) v (flag1 b) (flag2 b) (utf16_paths b) (hash_table_type b) (hash_table_offset b).
Definition set_flag1 (v : bool) (b : BND) : BND :=
  mkBND (signature b) (magic b) (big_endian b) (_most_recent_hash_table b) (_most_recent_entry_count b) (_most_recent_paths b) (header_struct b) (entry_header_struct b) (_entries b) (unknown b) v (flag2 b) (utf16_paths b) (hash_table_type b) (hash_table_offset b).
Definition set_flag2 (v : bool) (b : BND) : BND :=
  mkBND (signature b) (magic b) (big_endian b) (_most_recent_hash_table b) (_most_recent_entry_count b) (_most_recent_paths b) (header_struct b) (entry_header_struct b) (_entries b) (unknown b) (flag1 b) v (utf16_paths b) (hash_table_type b) (hash_table_offset b).
Definition set_utf16_paths (v : bool) (b : BND) : BND :=
  mkBND (signature b) (magic b) (big_endian b) (_most_recent_hash_table b) (_most_recent_entry_count b) (_most_recent_paths b) (header_struct b) (entry_header_struct b) (_entries b) (unknown b) (flag1 b) (flag2 b) v (hash_table_type b) (hash_table_offset b).
Definition set_hash_table_type (v : Z) (b : BND) : BND :=
  mkBND (signature b) (magic b) (big_endian b) (_most_recent_hash_table b) (_most_recent_entry_count b) (_most_recent_paths b) (header_struct b) (entry_header_struct b) (_entries b) (unknown b) (flag1 b) (flag2 b) (utf16_paths b) v (hash_table_offset b).
Definition set_hash_table_offset (v : Z) (b : BND) : BND :=
  mkBND (signature b) (magic b) (big_endian b) (_most_recent_hash_table b) (_most_recent_entry_count b) (_most_recent_paths b) (header_struct b) (entry_header_struct b) (_entries b) (unknown b) (flag1 b) (flag2 b) (utf16_paths b) (hash_table_type b) v.

(** [BaseBND.__init__] followed by the subclass defaults, with no source. *)
Definition empty_BND : BND :=
  mkBND [] (-1) false [] 0 [] None None [] false false false false 0 0.

(** ** Methods run on an archive and a logger; an exception leaves both as
    they were when it was raised. *)
Record state : Type := mkState { self : BND; log : list string }.

Definition M (A : Type) : Type := state → result A * state.

#[global] Instance M_ret : MRet M := λ A a s, (Ok a, s).
#[global] Instance M_bind : MBind M := λ A B k m s,
  match m s with
  | (Ok a, s') => k a s'
  | (Raise e, s') => (Raise e, s')
  end.

Definition raise {A} (e : exn) : M A := λ s, (Raise e, s).
Definition lift {A} (r : result A) : M A := λ s, (r, s).
Definition get_self : M BND := λ s, (Ok (self s), s).
Definition update (f : BND → BND) : M unit := λ s, (Ok (), mkState (f (self s)) (log s)).

(** [_LOGGER.warning(msg)] *)
Definition warning (msg : string) : M unit := λ s, (Ok (), mkState (self s) (log s ++ [msg])).

(** [for x in l: body(x)] *)
Fixpoint for_each {A} (body : A → M unit) (l : list A) : M unit :=
  match l with
  | [] => mret ()
  | x :: l' => body x;; for_each body l'
  end.

(** ** [BNDEntry] methods *)

Definition data_size (e : BNDEntry) : Z := len (data e).

(** [get_data_for_pack]: [(data, is_compressed)] *)
Definition get_data_for_pack `{MagicRules, Zlib} (e : BNDEntry) : bytes * bool :=
  if is_entry_compressed (entry_magic e)
  then (zlib_compress (data e), true)
  else (data e, false).

(** [get_packed_path(encoding)]; [None.encode] is an [AttributeError]. *)
Definition get_packed_path `{TextCodec} (e : BNDEntry) (encoding : string) : result bytes :=
  match path e with
  | None => Raise (AttributeError "'NoneType' object has no attribute 'encode'")
  | Some p => b ← str_encode p encoding; Ok (b ++ [x00])
  end.

(** The body of the loop of [BNDEntry.unpack] for one header dict [d]. *)
Definition BNDEntry_unpack_one `{MagicRules, Zlib, TextCodec}
    (bnd_buffer : BytesIO) (path_encoding : string) (d : dict) : result BNDEntry :=
  data_offset ← getint d "data_offset";
  bnd_buffer ← bio_seek data_offset bnd_buffer;
  path ← match d !! "path_offset" with
         | Some v =>
             path_offset ← getint d "path_offset";
             p ← read_chars_from_buffer (getvalue bnd_buffer) path_offset path_encoding;
             Ok (Some p)
         | None => Ok None
         end;
  compressed_data_size ← getint d "compressed_data_size";
  let data := fst (bio_read compressed_data_size bnd_buffer) in
  entry_magic ← getint d "entry_magic";
  data ← (if is_entry_compressed entry_magic then zlib_decompress data else Ok data);
  Ok (mkBNDEntry data (d !! "entry_id" ≫= as_index) path entry_magic).

Fixpoint BNDEntry_unpack_loop `{MagicRules, Zlib, TextCodec}
    (bnd_buffer : BytesIO) (path_encoding : string) (ds : list dict)
  : result (list BNDEntry) :=
  match ds with
  | [] => Ok []
  | d :: ds' =>
      e ← BNDEntry_unpack_one bnd_buffer path_encoding d;
      es ← BNDEntry_unpack_loop bnd_buffer path_encoding ds';
      Ok (e :: es)
  end.

(** [BNDEntry.unpack(bnd_buffer, entry_header_struct, path_encoding, count)] *)
Definition BNDEntry_unpack `{MagicRules, Zlib, TextCodec}
    (bnd_buffer : BytesIO) (entry_header_struct : BinaryStruct)
    (path_encoding : string) (count : Z) : result (list BNDEntry) :=
  entry_header_dicts ← BinaryStruct_unpack_count entry_header_struct bnd_buffer count;
  BNDEntry_unpack_loop bnd_buffer path_encoding entry_header_dicts.

(** ** [BaseBND] methods *)

(** The [entries_by_id] property: a dict from ID to entry, or [BNDError]
    when an ID occurs twice. *)
Fixpoint entries_by_id_loop (entries : list BNDEntry) (acc : gmap (option Z) BNDEntry)
  : result (gmap (option Z) BNDEntry) :=
  match entries with
  | [] => Ok acc
  | entry :: rest =>
      if bool_decide (is_Some (acc !! entry_id entry))
      then Raise (BNDError "There are multiple entries with the same ID.")
      else entries_by_id_loop rest (<[entry_id entry := entry]> acc)
  end.

Definition entries_by_id (b : BND) : result (gmap (option Z) BNDEntry) :=
  entries_by_id_loop (_entries b) ∅.

Definition add_entry (entry : BNDEntry) : M unit :=
  b ← get_self;
  if bool_decide (entry ∈ _entries b)
  then raise (BNDError "Given BNDEntry instance is already in this BND.")
  else
    by_id ← lift (entries_by_id b);
    (if bool_decide (is_Some (by_id !! entry_id entry))
     then warning "Entry ID appears more than once in this BND. Fix this as soon as you can."
     else mret ());;
    update (λ b, set_entries (_entries b ++ [entry]) b).

(** [_check_version(version)] against the class attribute [VERSION]. *)
Definition check_version (VERSION version : pystr) : M unit :=
  if bool_decide (version ≠ VERSION)
  then raise (BNDError "Version of file does not match BND class version.")
  else mret ().

(** Bytes literals, [b"..."]. *)
Definition b_ (s : string) : bytes := String.list_byte_of_string s.

(** [sorted(l, key=...)] / [l.sort()]: a stable sort, here by insertion. *)
Fixpoint insert_sorted {A} (leb : A → A → bool) (x : A) (l : list A) : list A :=
  match l with
  | [] => [x]
  | y :: l' => if leb x y then x :: y :: l' else y :: insert_sorted leb x l'
  end.

Definition stable_sort {A} (leb : A → A → bool) (l : list A) : list A :=
  foldr (insert_sorted leb) [] l.

(** [sorted(entries, key=lambda e: e.id)]: with two entries or more the
    IDs are compared, and [None] does not compare. *)
Definition sorted_by_id (entries : list BNDEntry) : result (list BNDEntry) :=
  match entries with
  | [] | [_] => Ok entries
  | _ =>
      match mapM (λ e, z ← entry_id e; Some (z, e)) entries with
      | Some keyed => Ok (snd <$> stable_sort (λ x y, fst x <=? fst y) keyed)
      | None => Raise (TypeError "'<' not supported between instances of 'NoneType' and 'int'")
      end
  end.

(** The value stored for [entry.id] in a header dict. *)
Definition id_value (i : option Z) : pyvalue :=
  match i with
  | Some z => VInt z
  | None => VNone
  end.

(** The accumulators of the pack loops. *)
Record pack_acc : Type := mkPackAcc {
  entry_header_dicts : list dict;
  packed_entry_paths : bytes;
  relative_entry_path_offsets : list Z;
  packed_entry_data : bytes;
  relative_entry_data_offsets : list Z;
}.

Definition empty_pack_acc : pack_acc := mkPackAcc [] [] [] [] [].

(** The body of the pack loops, after BND4's padding: the header dict of
    [entry] and the growth of the path and data tables. *)
Definition pack_entry `{MagicRules, Zlib, TextCodec}
    (bnd_magic : Z) (path_encoding : string) (acc : pack_acc) (entry : BNDEntry)
  : result pack_acc :=
  let entry_header_dict : dict :=
    <["data_offset" := VInt (len (packed_entry_data acc))]>
      (<["compressed_data_size" := VInt (data_size entry)]>
         {["entry_magic" := VInt (entry_magic entry)]}) in
  let entry_header_dict :=
    if has_id bnd_magic
    then <["entry_id" := id_value (entry_id entry)]> entry_header_dict
    else entry_header_dict in
  '(entry_header_dict, paths, path_offsets) ←
    (if has_path bnd_magic
     then
       packed_path ← get_packed_path entry path_encoding;
       Ok (<["path_offset" := VInt (len (packed_entry_paths acc))]> entry_header_dict,
           packed_entry_paths acc ++ packed_path,
           relative_entry_path_offsets acc ++ [len (packed_entry_paths acc)])
     else Ok (entry_header_dict, packed_entry_paths acc, relative_entry_path_offsets acc));
  let entry_header_dict :=
    if has_uncompressed_size bnd_magic
    then <["uncompressed_data_size" := VInt (data_size entry)]> entry_header_dict
    else entry_header_dict in
  let '(entry_data, is_compressed) := get_data_for_pack entry in
  let entry_header_dict :=
    if is_compressed
    then <["compressed_data_size" := VInt (len entry_data)]> entry_header_dict
    else entry_header_dict in
  Ok (mkPackAcc
        (entry_header_dicts acc ++ [entry_header_dict])
        paths
        path_offsets
        (packed_entry_data acc ++ entry_data)
        (relative_entry_data_offsets acc ++ [len (packed_entry_data acc)])).

(** [d[key] += n] *)
Definition dict_add (d : dict) (key : string) (n : Z) : result dict :=
  z ← getint d key;
  Ok (<[key := VInt (z + n)]> d).

(** "Convert relative offsets to absolute and pack entry headers." *)
Definition rebase_entry_header `{MagicRules}
    (bnd_magic : Z) (entry_path_table_offset entry_packed_data_offset : Z) (d : dict)
  : result dict :=
  d ← dict_add d "data_offset" entry_packed_data_offset;
  if has_path bnd_magic then dict_add d "path_offset" entry_path_table_offset else Ok d.

Fixpoint pack_entry_headers `{MagicRules, TextCodec}
    (bnd_magic : Z) (entry_header_struct : BinaryStruct)
    (entry_path_table_offset entry_packed_data_offset : Z) (ds : list dict)
  : result bytes :=
  match ds with
  | [] => Ok []
  | d :: ds' =>
      d ← rebase_entry_header bnd_magic entry_path_table_offset entry_packed_data_offset d;
      packed ← struct_pack entry_header_struct d;
      rest ← pack_entry_headers bnd_magic entry_header_struct
               entry_path_table_offset entry_packed_data_offset ds';
      Ok (packed ++ rest)
  end.

(** [self.header_struct] and [self.entry_header_struct] when they are used:
    [None] has neither [size] nor [pack]. *)
Definition the_struct (st : option BinaryStruct) : result BinaryStruct :=
  match st with
  | Some s => Ok s
  | None => Raise (AttributeError "'NoneType' object has no attribute 'size'")
  end.

(** ** [BND3] *)

Definition BND3_VERSION : pystr := str "BND3".

Definition BND3_HEADER_STRUCT_START : list field_spec :=
  [ Asserted "version" (Fmt_s 4) (VBytes (b_ "BND3"));
    Field "signature" (Fmt_s 8);
    Field "magic" Fmt_b;
    Field "big_endian" Fmt_bool ].

Definition BND3_HEADER_STRUCT_ENDIAN : list field_spec :=
  [ Field "unknown" Fmt_bool;
    Asserted "zero" Fmt_B (VInt 0);
    Field "entry_count" Fmt_i;
    Field "file_size" Fmt_i;
    Pad 8 ].

Definition BND3_BND_ENTRY_HEADER : list field_spec :=
  [ Field "entry_magic" Fmt_B;
    Pad 3;
    Field "compressed_data_size" Fmt_i;
    Field "data_offset" Fmt_i ].

Definition BND3_ENTRY_ID : field_spec := Field "entry_id" Fmt_i.
Definition BND3_NAME_OFFSET : field_spec := Field "path_offset" Fmt_i.
Definition BND3_UNCOMPRESSED_DATA_SIZE : field_spec := Field "uncompressed_data_size" Fmt_i.

Definition order_of (big_endian : bool) : byte_order :=
  if big_endian then BigEndian else LittleEndian.

(** The entry header struct that [unpack] and [create_header_structs] build. *)
Definition BND3_entry_header_struct `{MagicRules} (bnd_magic : Z) (bo : byte_order)
  : BinaryStruct :=
  let s := new_BinaryStruct BND3_BND_ENTRY_HEADER bo in
  let s := if has_id bnd_magic then add_fields s [BND3_ENTRY_ID] bo else s in
  let s := if has_path bnd_magic then add_fields s [BND3_NAME_OFFSET] bo else s in
  if has_uncompressed_size bnd_magic
  then add_fields s [BND3_UNCOMPRESSED_DATA_SIZE] bo
  else s.

(** [header_struct.unpack(buffer, *fields, byte_order=...)] appends [fields]
    to the struct and reads only them. *)
Definition unpack_more_fields (fields : list field_spec) (bo : byte_order) (buffer : BytesIO)
  : M (dict * BytesIO) :=
  b ← get_self;
  st ← lift (the_struct (header_struct b));
  update (set_header_struct (Some (add_fields st fields bo)));;
  lift (BinaryStruct_unpack (new_BinaryStruct fields bo) buffer).

Definition BND3_unpack `{MagicRules, Zlib, TextCodec} (buffer : BytesIO) : M unit :=
  let start := new_BinaryStruct BND3_HEADER_STRUCT_START LittleEndian in
  update (set_header_struct (Some start));;
  '(header, buffer) ← lift (BinaryStruct_unpack start buffer);
  version ← lift (getbytes header "version" ≫= bytes_decode);
  check_version BND3_VERSION version;;
  signature ← lift (getbytes header "signature" ≫= λ s, bytes_decode (rstrip_nul s));
  update (set_signature signature);;
  bnd_magic ← lift (getint header "magic");
  update (set_magic bnd_magic);;
  flag ← lift (getitem header "big_endian");
  let big_endian := truthy flag || is_big_endian bnd_magic in
  update (set_big_endian big_endian);;
  let byte_order := order_of big_endian in
  '(more, buffer) ← unpack_more_fields BND3_HEADER_STRUCT_ENDIAN byte_order buffer;
  let header : dict := more ∪ header in
  unknown ← lift (getitem header "unknown");
  update (set_unknown (truthy unknown));;
  let entry_header_struct := BND3_entry_header_struct bnd_magic byte_order in
  update (set_entry_header_struct (Some entry_header_struct));;
  entry_count ← lift (getint header "entry_count");
  entries ← lift (BNDEntry_unpack buffer entry_header_struct "shift-jis" entry_count);
  for_each add_entry entries.

Definition BND3_create_header_structs `{MagicRules} : M unit :=
  b ← get_self;
  let byte_order := order_of (big_endian b) in
  update (set_header_struct
            (Some (add_fields (new_BinaryStruct BND3_HEADER_STRUCT_START LittleEndian)
                     BND3_HEADER_STRUCT_ENDIAN byte_order)));;
  update (set_entry_header_struct (Some (BND3_entry_header_struct (magic b) byte_order))).

(** The pieces [BND3.pack] concatenates. *)
Record packed_parts : Type := mkParts {
  packed_header : bytes;
  packed_entry_headers : bytes;
  packed_paths : bytes;
  packed_hash_table : bytes;
  packed_data : bytes;
}.

Definition join_parts (p : packed_parts) : bytes :=
  packed_header p ++ packed_entry_headers p ++ packed_paths p
    ++ packed_hash_table p ++ packed_data p.

Fixpoint pack_loop {A} (step : pack_acc → A → result pack_acc) (acc : pack_acc) (l : list A)
  : result pack_acc :=
  match l with
  | [] => Ok acc
  | x :: l' => acc ← step acc x; pack_loop step acc l'
  end.

Definition BND3_pack_parts `{MagicRules, Zlib, TextCodec} (b : BND) : result packed_parts :=
  entries ← sorted_by_id (_entries b);
  acc ← pack_loop (pack_entry (magic b) "shift-jis") empty_pack_acc entries;
  header_struct ← the_struct (header_struct b);
  let entry_header_table_offset := struct_size header_struct in
  entry_header_struct ← the_struct (entry_header_struct b);
  let entry_path_table_offset :=
    entry_header_table_offset + struct_size entry_header_struct * len (_entries b) in
  let entry_packed_data_offset := entry_path_table_offset + len (packed_entry_paths acc) in
  let bnd_file_size := entry_packed_data_offset + len (packed_entry_data acc) in
  packed_header ← struct_pack header_struct
    (<["signature" := VStr (signature b)]>
       (<["magic" := VInt (magic b)]>
          (<["big_endian" := VBool (big_endian b)]>
             (<["unknown" := VBool (unknown b)]>
                (<["entry_count" := VInt (len (_entries b))]>
                   {["file_size" := VInt bnd_file_size]})))));
  packed_entry_headers ← pack_entry_headers (magic b) entry_header_struct
    entry_path_table_offset entry_packed_data_offset (entry_header_dicts acc);
  Ok (mkParts packed_header packed_entry_headers (packed_entry_paths acc) []
        (packed_entry_data acc)).

(** [BND3.pack()] *)
Definition BND3_pack `{MagicRules, Zlib, TextCodec} : M bytes :=
  b ← get_self;
  parts ← lift (BND3_pack_parts b);
  mret (join_parts parts).

(** ** [BND4] *)

Definition BND4_VERSION : pystr := str "BND4".

Definition BND4_HEADER_STRUCT_START : list field_spec :=
  [ Asserted "version" (Fmt_s 4) (VBytes (b_ "BND4"));
    Field "flag1" Fmt_bool;
    Field "flag2" Fmt_bool;
    Pad 2;
    Field "big_endian" Fmt_i ].

Definition BND4_HEADER_STRUCT_ENDIAN : list field_spec :=
  [ Field "entry_count" Fmt_i;
    Asserted "header_size" Fmt_q (VInt 64);
    Field "signature" (Fmt_s 8);
    Field "entry_header_size" Fmt_q;
    Field "data_offset" Fmt_q;
    Field "utf16_paths" Fmt_bool;
    Field "magic" Fmt_b;
    Field "hash_table_type" Fmt_B;
    Pad 5;
    Field "hash_table_offset" Fmt_q ].

Definition BND4_BND_ENTRY_HEADER : list field_spec :=
  [ Field "entry_magic" Fmt_B;
    Pad 3;
    Asserted "minus_one" Fmt_i (VInt (-1));
    Field "compressed_data_size" Fmt_q ].

Definition BND4_UNCOMPRESSED_DATA_SIZE : field_spec := Field "uncompressed_data_size" Fmt_q.
Definition BND4_DATA_OFFSET : field_spec := Field "data_offset" Fmt_I.
Definition BND4_ENTRY_ID : field_spec := Field "entry_id" Fmt_i.
Definition BND4_NAME_OFFSET : field_spec := Field "path_offset" Fmt_i.

(** The class-level structs are built without a byte order: little-endian. *)
Definition HASH_TABLE_HEADER : BinaryStruct :=
  new_BinaryStruct
    [ Pad 8;
      Field "path_hashes_offset" Fmt_q;
      Field "hash_group_count" Fmt_I;
      Asserted "unknown" Fmt_i (VInt 0x00080810) ]
    LittleEndian.

Definition PATH_HASH_STRUCT : BinaryStruct :=
  new_BinaryStruct [ Field "hashed_value" Fmt_I; Field "entry_index" Fmt_i ] LittleEndian.

Definition HASH_GROUP_STRUCT : BinaryStruct :=
  new_BinaryStruct [ Field "length" Fmt_i; Field "index" Fmt_i ] LittleEndian.

Definition BND4_entry_header_struct `{MagicRules} (bnd_magic : Z) (bo : byte_order)
  : BinaryStruct :=
  let s := new_BinaryStruct BND4_BND_ENTRY_HEADER bo in
  let s := if has_uncompressed_size bnd_magic
           then add_fields s [BND4_UNCOMPRESSED_DATA_SIZE] bo else s in
  let s := add_fields s [BND4_DATA_OFFSET] bo in
  let s := if has_id bnd_magic then add_fields s [BND4_ENTRY_ID] bo else s in
  let s := if has_path bnd_magic then add_fields s [BND4_NAME_OFFSET] bo else s in
  if bnd_magic =? 0x20 then add_fields s [Pad 8] LittleEndian else s.

Definition BND4_path_encoding (big_endian utf16_paths : bool) : string :=
  if utf16_paths then (if big_endian then "utf-16be" else "utf-16le") else "shift-jis".

(** The snapshot taken at the end of [unpack], in [create_header_structs]
    and in [pack]. *)
Definition take_snapshot (b : BND) : BND :=
  set_most_recent_paths (path <$> _entries b)
    (set_most_recent_entry_count (len (_entries b)) b).

(** The second half of [BND4.unpack]: from the construction of the entry
    header struct to the snapshot.  [header], [bnd_buffer], [byte_order] and
    [path_encoding] are the local variables of [unpack] at that point. *)
Definition BND4_unpack_entries `{MagicRules, Zlib, TextCodec}
    (header : dict) (bnd_buffer : BytesIO) (byte_order : byte_order) (path_encoding : string)
  : M unit :=
  b ← get_self;
  let entry_header_struct := BND4_entry_header_struct (magic b) byte_order in
  update (set_entry_header_struct (Some entry_header_struct));;
  entry_header_size ← lift (getint header "entry_header_size");
  (if negb (entry_header_size =? struct_size entry_header_struct)
   then warning "Entry header size given in BND header does not match actual entry header size."
   else mret ());;
  entry_count ← lift (getint header "entry_count");
  entries ← lift (BNDEntry_unpack bnd_buffer entry_header_struct path_encoding entry_count);
  for_each add_entry entries;;
  b ← get_self;
  (if hash_table_type b =? 4
   then
     bnd_buffer ← lift (bio_seek (hash_table_offset b) bnd_buffer);
     data_offset ← lift (getint header "data_offset");
     update (set_most_recent_hash_table
               (fst (bio_read (data_offset - hash_table_offset b) bnd_buffer)))
   else mret ());;
  update take_snapshot.

(** [BND4.unpack(bnd_buffer)] *)
Definition BND4_unpack `{MagicRules, Zlib, TextCodec} (bnd_buffer : BytesIO) : M unit :=
  let start := new_BinaryStruct BND4_HEADER_STRUCT_START LittleEndian in
  update (set_header_struct (Some start));;
  '(header, bnd_buffer) ← lift (BinaryStruct_unpack start bnd_buffer);
  version ← lift (getbytes header "version" ≫= bytes_decode);
  check_version BND4_VERSION version;;
  flag1 ← lift (getitem header "flag1");
  update (set_flag1 (truthy flag1));;
  flag2 ← lift (getitem header "flag2");
  update (set_flag2 (truthy flag2));;
  marker ← lift (getint header "big_endian");
  let big_endian := marker =? 0x00000100 in
  update (set_big_endian big_endian);;
  let byte_order := order_of big_endian in
  '(more, bnd_buffer) ← unpack_more_fields BND4_HEADER_STRUCT_ENDIAN byte_order bnd_buffer;
  let header : dict := more ∪ header in
  signature ← lift (getbytes header "signature" ≫= λ s, bytes_decode (rstrip_nul s));
  update (set_signature signature);;
  bnd_magic ← lift (getint header "magic");
  update (set_magic bnd_magic);;
  utf16_paths ← lift (getitem header "utf16_paths");
  update (set_utf16_paths (truthy utf16_paths));;
  hash_table_type ← lift (getint header "hash_table_type");
  update (set_hash_table_type hash_table_type);;
  hash_table_offset ← lift (getint header "hash_table_offset");
  update (set_hash_table_offset hash_table_offset);;
  let path_encoding := BND4_path_encoding big_endian (truthy utf16_paths) in
  entry_header_size ← lift (getint header "entry_header_size");
  (if negb (entry_header_size =? header_size bnd_magic)
   then raise (ValueError "Expected BND entry header size based on magic, but BND header says otherwise.")
   else mret ());;
  (if negb (hash_table_type =? 4) && negb (hash_table_offset =? 0)
   then warning "Found non-zero hash table offset, but header says this BND has no hash table."
   else mret ());;
  BND4_unpack_entries header bnd_buffer byte_order path_encoding.

Definition BND4_create_header_structs `{MagicRules} : M unit :=
  update (set_most_recent_hash_table []);;
  update take_snapshot;;
  b ← get_self;
  let byte_order := order_of (big_endian b) in
  update (set_header_struct
            (Some (add_fields (new_BinaryStruct BND4_HEADER_STRUCT_START LittleEndian)
                     BND4_HEADER_STRUCT_ENDIAN byte_order)));;
  update (set_entry_header_struct (Some (BND4_entry_header_struct (magic b) byte_order))).

(** [hash_list.sort()] on [(hashed_value, entry_index)] tuples. *)
Definition pair_leb (x y : Z * Z) : bool :=
  (fst x <? fst y) || ((fst x =? fst y) && (snd x <=? snd y)).

(** The first loop of [build_hash_table]: hash every path and append
    [(hash, entry_index)] to its bucket. *)
Fixpoint fill_hash_lists (group_count : Z) (indexed : list (Z * BNDEntry))
    (hash_lists : list (list (Z * Z))) : result (list (list (Z * Z))) :=
  match indexed with
  | [] => Ok hash_lists
  | (entry_index, entry) :: rest =>
      match path entry with
      | None => Raise (AttributeError "'NoneType' object has no attribute 'replace'")
      | Some p =>
          let h := path_hash p in
          let list_index := h `mod` group_count in
          fill_hash_lists group_count rest
            (alter (λ l, l ++ [(h, entry_index)]) (Z.to_nat list_index) hash_lists)
      end
  end.

(** The loop that flattens the buckets: [(hash_groups, path_hashes)]. *)
Fixpoint flatten_hash_lists (hash_lists : list (list (Z * Z))) (total_hash_count : Z)
  : list dict * list dict :=
  match hash_lists with
  | [] => ([], [])
  | hash_list :: rest =>
      let first_hash_index := total_hash_count in
      let hashes : list dict :=
        (λ ph, <["hashed_value" := VInt (fst ph)]> {["entry_index" := VInt (snd ph)]})
          <$> hash_list in
      let total_hash_count := total_hash_count + len hash_list in
      let group : dict :=
        <["index" := VInt first_hash_index]>
          {["length" := VInt (total_hash_count - first_hash_index)]} in
      let '(groups, path_hashes) := flatten_hash_lists rest total_hash_count in
      (group :: groups, hashes ++ path_hashes)
  end.

Definition build_hash_table `{TextCodec} (b : BND) : result bytes :=
  group_count ← hash_group_count (len (_entries b));
  hash_lists ← fill_hash_lists group_count (enumerate (_entries b))
                  (replicate (Z.to_nat group_count) []);
  let hash_lists := stable_sort pair_leb <$> hash_lists in
  let '(hash_groups, path_hashes) := flatten_hash_lists hash_lists 0 in
  packed_hash_groups ← struct_pack_multiple HASH_GROUP_STRUCT hash_groups;
  packed_hash_table_header ← struct_pack HASH_TABLE_HEADER
    (<["path_hashes_offset" := VInt (struct_size HASH_TABLE_HEADER + len packed_hash_groups)]>
       {["hash_group_count" := VInt group_count]});
  packed_path_hashes ← struct_pack_multiple PATH_HASH_STRUCT path_hashes;
  Ok (packed_hash_table_header ++ packed_hash_groups ++ packed_path_hashes).

(** The [rebuild_hash_table] flag of [pack]; [_most_recent_paths[i]] is
    only read while the flag is still false. *)
Fixpoint paths_changed (indexed : list (Z * BNDEntry)) (most_recent_paths : list (option pystr))
    (rebuild_hash_table : bool) : result bool :=
  match indexed with
  | [] => Ok rebuild_hash_table
  | (i, entry) :: rest =>
      if rebuild_hash_table then paths_changed rest most_recent_paths true
      else
        match most_recent_paths !! Z.to_nat i with
        | None => Raise (IndexError "list index out of range")
        | Some p =>
            paths_changed rest most_recent_paths (negb (bool_decide (path entry = p)))
        end
  end.

Definition BND4_rebuild_hash_table (b : BND) : result bool :=
  let rebuild_hash_table := negb (truthy (VBytes (_most_recent_hash_table b))) in
  let rebuild_hash_table :=
    if negb (len (_entries b) =? _most_recent_entry_count b) then true
    else rebuild_hash_table in
  paths_changed (enumerate (_entries b)) (_most_recent_paths b) rebuild_hash_table.

(** BND4's loop body: ten pad bytes, then the common body. *)
Definition BND4_pack_entry `{MagicRules, Zlib, TextCodec}
    (bnd_magic : Z) (path_encoding : string) (acc : pack_acc) (entry : BNDEntry)
  : result pack_acc :=
  let acc := mkPackAcc (entry_header_dicts acc) (packed_entry_paths acc)
               (relative_entry_path_offsets acc)
               (packed_entry_data acc ++ replicate 10 x00)
               (relative_entry_data_offsets acc) in
  pack_entry bnd_magic path_encoding acc entry.

(** Everything [BND4.pack] computes after taking the snapshot. *)
Record BND4_packed : Type := mkBND4Packed {
  rebuilt : bool;
  loop_result : pack_acc;
  data_start : Z;
  parts : packed_parts;
}.

Definition BND4_pack_parts `{MagicRules, Zlib, TextCodec}
    (rebuild_hash_table : bool) (b : BND) : result BND4_packed :=
  let path_encoding := BND4_path_encoding (big_endian b) (utf16_paths b) in
  acc ← pack_loop (BND4_pack_entry (magic b) path_encoding) empty_pack_acc (_entries b);
  header_struct ← the_struct (header_struct b);
  let entry_header_table_offset := struct_size header_struct in
  entry_header_struct ← the_struct (entry_header_struct b);
  let entry_path_table_offset :=
    entry_header_table_offset + struct_size entry_header_struct * len (_entries b) in
  '(hash_table_offset, packed_hash_table, entry_packed_data_offset) ←
    (if hash_table_type b =? 4
     then
       let hash_table_offset := entry_path_table_offset + len (packed_entry_paths acc) in
       packed_hash_table ←
         (if rebuild_hash_table then build_hash_table b
          else Ok (_most_recent_hash_table b));
       Ok (hash_table_offset, packed_hash_table, hash_table_offset + len packed_hash_table)
     else Ok (0, [], entry_path_table_offset + len (packed_entry_paths acc)));
  packed_header ← struct_pack header_struct
    (<["flag1" := VBool (flag1 b)]>
       (<["flag2" := VBool (flag2 b)]>
          (<["big_endian" := VBool (big_endian b)]>
             (<["entry_count" := VInt (len (_entries b))]>
                (<["signature" := VStr (signature b)]>
                   (<["entry_header_size" := VInt (struct_size entry_header_struct)]>
                      (<["data_offset" := VInt entry_packed_data_offset]>
                         (<["utf16_paths" := VBool (utf16_paths b)]>
                            (<["magic" := VInt (magic b)]>
                               (<["hash_table_type" := VInt (hash_table_type b)]>
                                  {["hash_table_offset" := VInt hash_table_offset]}))))))))));
  packed_entry_headers ← pack_entry_headers (magic b) entry_header_struct
    entry_path_table_offset entry_packed_data_offset (entry_header_dicts acc);
  Ok (mkBND4Packed rebuild_hash_table acc entry_packed_data_offset
        (mkParts packed_header packed_entry_headers (packed_entry_paths acc)
           packed_hash_table (packed_entry_data acc))).

Definition BND4_pack_full `{MagicRules, Zlib, TextCodec} : M BND4_packed :=
  b ← get_self;
  rebuild_hash_table ← lift (BND4_rebuild_hash_table b);
  update take_snapshot;;
  b ← get_self;
  lift (BND4_pack_parts rebuild_hash_table b).

(** [BND4.pack()] *)
Definition BND4_pack `{MagicRules, Zlib, TextCodec} : M bytes :=
  p ← BND4_pack_full;
  mret (join_parts (parts p)).

(** ** A sample configuration, used to run the code on concrete archives

    The flag rules test single bits of the magic byte, the compressor stores
    the data behind a one-byte marker, and the text codec writes one byte per
    code point and reads up to the first NUL. *)
Module Sample.

Definition rules : MagicRules := {|
  has_id m := Z.testbit m 1;
  has_path m := Z.testbit m 2;
  has_uncompressed_size m := Z.testbit m 5;
  is_entry_compressed m := Z.testbit m 0;
  is_big_endian m := Z.testbit m 0 && negb (Z.testbit m 7);
  header_size m :=
    16 + (if Z.testbit m 5 then 8 else 0) + 4 + (if Z.testbit m 1 then 4 else 0)
       + (if Z.testbit m 2 then 4 else 0) + (if m =? 0x20 then 8 else 0);
|}.

Definition zlib : Zlib := {|
  zlib_compress d := x78 :: d;
  zlib_decompress d :=
    match d with
    | x78 :: d' => Ok d'
    | _ => Raise ZlibError
    end;
|}.

Fixpoint encode_chars (s : pystr) : result bytes :=
  match s with
  | [] => Ok []
  | c :: s' =>
      if bool_decide (0 ≤ c < 256)
      then b ← encode_chars s'; Ok (byte_of_Z c :: b)
      else Raise UnicodeError
  end.

Fixpoint read_to_nul (b : bytes) : result pystr :=
  match b with
  | [] => Raise (ValueError "Ran out of bytes to read before null termination was found.")
  | x00 :: _ => Ok []
  | c :: b' => s ← read_to_nul b'; Ok (Z_of_byte c :: s)
  end.

Definition codec : TextCodec := {|
  str_encode s _ := encode_chars s;
  bytes_decode b := Ok (Z_of_byte <$> b);
  read_chars_from_buffer content offset _ :=
    if offset <? 0 then Raise (ValueError "negative seek value")
    else read_to_nul (drop (Z.to_nat offset) content);
|}.

Definition run {A} (m : M A) (b : BND) : result A * state := m (mkState b []).

(** Three entries; the first two share ID 1. *)
Definition entry_a : BNDEntry := mkBNDEntry (b_ "alpha") (Some 1) (Some (str "a\one.bin")) 0x40.
Definition entry_b : BNDEntry := mkBNDEntry (b_ "beta") (Some 1) (Some (str "a\two.bin")) 0x40.
Definition entry_c : BNDEntry := mkBNDEntry (b_ "gamma") (Some 2) (Some (str "a\three.bin")) 0x41.
Definition entry_d : BNDEntry := mkBNDEntry (b_ "delta") (Some 7) (Some (str "a\four.bin")) 0x40.

(** [bnd.add_entry(entry_a); bnd.add_entry(entry_b)] *)
Definition add_a_then_b : M unit := add_entry entry_a;; add_entry entry_b.

(** An archive with IDs and paths ([magic = 0x06]), filled by [add_entry]
    and completed by [create_header_structs], as a manifest load does. *)
Definition archive (entries : list BNDEntry) (bnd_magic : Z) (big : bool) (table_type : Z) : BND :=
  set_hash_table_type table_type
    (set_big_endian big (set_magic bnd_magic (set_signature (str "07D7R6") (set_entries entries empty_BND)))).

Definition bnd3 (entries : list BNDEntry) (bnd_magic : Z) (big : bool) : BND :=
  self (snd (run (@BND3_create_header_structs rules) (archive entries bnd_magic big 0))).

Definition bnd4 (entries : list BNDEntry) (bnd_magic : Z) (big : bool) (table_type : Z) : BND :=
  self (snd (run (@BND4_create_header_structs rules) (archive entries bnd_magic big table_type))).

(** [bnd.pack()] and [BND(packed)] under the sample configuration; the
    second starts from a fresh archive. *)
Definition pack3 (b : BND) : result bytes * state := run (@BND3_pack rules zlib codec) b.
Definition pack4 (b : BND) : result bytes * state := run (@BND4_pack rules zlib codec) b.
Definition unpack3 (packed : bytes) : result unit * state :=
  run (@BND3_unpack rules zlib codec (mkBytesIO packed 0)) empty_BND.
Definition unpack4 (packed : bytes) : result unit * state :=
  run (@BND4_unpack rules zlib codec (mkBytesIO packed 0)) empty_BND.

(** What [BND4.pack] computes on [b], when it returns. *)
Definition packed4 (rebuild_hash_table : bool) (b : BND) : BND4_packed :=
  match @BND4_pack_parts rules zlib codec rebuild_hash_table b with
  | Ok p => p
  | Raise _ => mkBND4Packed rebuild_hash_table empty_pack_acc 0 (mkParts [] [] [] [] [])
  end.

(** The bytes of a pack that returned. *)
Definition returned (r : result bytes * state) : bytes :=
  match fst r with Ok packed => packed | Raise _ => [] end.

End Sample.

(** ** Vocabulary of the statements *)

(** What [pack] writes for the data of [e]. *)
Definition packed_data_of `{MagicRules, Zlib} (e : BNDEntry) : bytes :=
  fst (get_data_for_pack e).

(** Where BND4's loop puts the data of each entry, relative to the start of
    the data table [start] bytes into it. *)
Fixpoint BND4_data_offsets `{MagicRules, Zlib} (start : Z) (entries : list BNDEntry) : list Z :=
  match entries with
  | [] => []
  | e :: rest => (start + 10) :: BND4_data_offsets (start + 10 + len (packed_data_of e)) rest
  end.

(** The snapshot of [b] records its present entries. *)
Definition snapshot_current (b : BND) : Prop :=
  len (_entries b) = _most_recent_entry_count b
  ∧ ∀ i e, _entries b !! i = Some e → _most_recent_paths b !! i = Some (path e).

(** What [unpack] gives back for a value that [pack] accepted. *)
Definition value_image `{TextCodec} (f : fmt) (v : pyvalue) : pyvalue :=
  match f with
  | Fmt_s n =>
      match pack_value (Fmt_s n) LittleEndian v with
      | Ok b => VBytes b
      | Raise _ => VNone
      end
  | Fmt_bool => VBool (truthy v)
  | _ => VInt (default 0 (as_index v))
  end.

(** The dict [unpack] builds from the bytes [pack] wrote for [d]. *)
Fixpoint struct_image `{TextCodec} (st : BinaryStruct) (d : dict) (acc : dict) : dict :=
  match st with
  | [] => acc
  | (Pad _, _) :: st' => struct_image st' d acc
  | (Field name f, _) :: st' =>
      struct_image st' d (<[name := value_image f (default VNone (d !! name))]> acc)
  | (Asserted name f a, _) :: st' =>
      struct_image st' d (<[name := value_image f a]> acc)
  end.

(** Asserted values survive a pack/unpack cycle. *)
Definition asserted_ok `{TextCodec} (st : BinaryStruct) : Prop :=
  Forall (λ fb, match fst fb with
                | Asserted _ f a => py_eq (value_image f a) a = true
                | _ => True
                end) st.

(** A BND4 header as it lies in a file: the fixed little-endian prefix and
    the fields whose byte order the marker announces. *)
Definition BND4_file_header_struct (marker : Z) : BinaryStruct :=
  add_fields (new_BinaryStruct BND4_HEADER_STRUCT_START LittleEndian)
    BND4_HEADER_STRUCT_ENDIAN (order_of (marker =? 0x00000100)).

Definition BND4_file_header_dict (flag1 flag2 : bool) (marker entry_count : Z)
    (signature : bytes) (entry_header_size data_offset : Z) (utf16_paths : bool)
    (bnd_magic hash_table_type hash_table_offset : Z) : dict :=
  <["flag1" := VBool flag1]>
    (<["flag2" := VBool flag2]>
       (<["big_endian" := VInt marker]>
          (<["entry_count" := VInt entry_count]>
             (<["signature" := VBytes signature]>
                (<["entry_header_size" := VInt entry_header_size]>
                   (<["data_offset" := VInt data_offset]>
                      (<["utf16_paths" := VBool utf16_paths]>
                         (<["magic" := VInt bnd_magic]>
                            (<["hash_table_type" := VInt hash_table_type]>
                               {["hash_table_offset" := VInt hash_table_offset]}))))))))).

(** The exceptions that [unpack] can raise once entries have been added. *)
Definition late_errors : list exn :=
  [ BNDError "Given BNDEntry instance is already in this BND.";
    BNDError "There are multiple entries with the same ID.";
    ValueError "negative seek value" ].

(** The archive once [BND4.unpack] has read a header with these fields. *)
Definition BND4_after_header (flag1 flag2 : bool) (marker : Z) (signature : pystr)
    (utf16_paths : bool) (bnd_magic hash_table_type hash_table_offset : Z) (b : BND) : BND :=
  set_hash_table_offset hash_table_offset
    (set_hash_table_type hash_table_type
       (set_utf16_paths utf16_paths
          (set_magic bnd_magic
             (set_signature signature
                (set_header_struct (Some (BND4_file_header_struct marker))
                   (set_big_endian (marker =? 0x00000100)
                      (set_flag2 flag2 (set_flag1 flag1 b)))))))).

(** ["8s"] applied to a bytes value. *)
Definition pad_to (n : nat) (b : bytes) : bytes := take n b ++ replicate (n - length b) x00.

(** How a method treats the entry list: it keeps it, it only appends to it,
    and which exceptions it can raise. *)
Definition quiet {A} (m : M A) : Prop :=
  ∀ s, _entries (self (snd (m s))) = _entries (self s).

Definition appends {A} (m : M A) : Prop :=
  ∀ s, ∃ added, _entries (self (snd (m s))) = _entries (self s) ++ added.

Definition raises_only {A} (allowed : list exn) (m : M A) : Prop :=
  ∀ s e, fst (m s) = Raise e → e ∈ allowed.

(** Entries are only appended, and an exception outside [late_errors] means
    that none was. *)
Definition early_or_late {A} (m : M A) : Prop :=
  ∀ s, (∃ added, _entries (self (snd (m s))) = _entries (self s) ++ added)
       ∧ ∀ e, fst (m s) = Raise e → e ∉ late_errors →
              _entries (self (snd (m s))) = _entries (self s).



(** ** The hash table, as laid out in the file *)

Definition u32 (z : Z) : bytes := int_to_bytes LittleEndian 4 (z `mod` 2 ^ 32).
Definition u64 (z : Z) : bytes := int_to_bytes LittleEndian 8 (z `mod` 2 ^ 64).

(** [(path_hash(entry.path), entry_index)] for every entry, in entry order. *)
Definition entry_hashes (entries : list BNDEntry) : list (Z * Z) :=
  (λ ie, (path_hash (default [] (path (snd ie))), fst ie)) <$> enumerate entries.

(** Ascending by hash value, ties in their original order. *)
Definition hash_leb (x y : Z * Z) : bool := fst x <=? fst y.

(** Bucket [k]: the hashes with [hash % group_count == k], sorted. *)
Definition bucket (group_count : Z) (hashes : list (Z * Z)) (k : nat) : list (Z * Z) :=
  stable_sort hash_leb (filter (λ ph, fst ph `mod` group_count = Z.of_nat k) hashes).

Definition buckets (group_count : Z) (hashes : list (Z * Z)) : list (list (Z * Z)) :=
  bucket group_count hashes <$> seq 0 (Z.to_nat group_count).

(** One record per group: its length, then the index of its first hash in
    the flattened array. *)
Fixpoint group_records (first_hash_index : Z) (bs : list (list (Z * Z))) : bytes :=
  match bs with
  | [] => []
  | bk :: rest =>
      u32 (len bk) ++ u32 first_hash_index ++ group_records (first_hash_index + len bk) rest
  end.

(** The group records as the specification words them: start index first. *)
Fixpoint group_records_as_claimed (first_hash_index : Z) (bs : list (list (Z * Z))) : bytes :=
  match bs with
  | [] => []
  | bk :: rest =>
      u32 first_hash_index ++ u32 (len bk)
        ++ group_records_as_claimed (first_hash_index + len bk) rest
  end.

Definition hash_records (hashes : list (Z * Z)) : bytes :=
  concat ((λ ph, u32 (fst ph) ++ u32 (snd ph)) <$> hashes).

Definition hash_table_header (group_count : Z) : bytes :=
  replicate 8 x00 ++ u64 (24 + 8 * group_count) ++ u32 group_count ++ u32 0x00080810.

Definition hash_table_layout (group_count : Z) (hashes : list (Z * Z)) : bytes :=
  hash_table_header group_count
    ++ group_records 0 (buckets group_count hashes)
    ++ hash_records (concat (buckets group_count hashes)).

Definition hash_table_layout_as_claimed (group_count : Z) (hashes : list (Z * Z)) : bytes :=
  hash_table_header group_count
    ++ group_records_as_claimed 0 (buckets group_count hashes)
    ++ hash_records (concat (buckets group_count hashes)).

(** Ascending by hash value, and by entry index among equal hash values:
    the order of two records of one bucket. *)
Definition hash_order (x y : Z * Z) : Prop :=
  fst x < fst y ∨ (fst x = fst y ∧ snd x < snd y).

(** Ascending by ID. *)
Definition id_lt (x y : BNDEntry) : Prop :=
  ∃ i j, entry_id x = Some i ∧ entry_id y = Some j ∧ i < j.

(** ** Vocabulary of the round trip *)

(** The text codec reads [p] back from its NUL-terminated encoding, wherever
    that lies in a buffer. *)
Definition path_round_trips `{TextCodec} (encoding : string) (p : pystr) : Prop :=
  ∀ enc pre post,
    str_encode p encoding = Ok enc →
    read_chars_from_buffer (pre ++ enc ++ [x00] ++ post) (len pre) encoding = Ok p.

(** What the collaborators must do for [e] to come back from a file written
    under [bnd_magic]: [e] has a path exactly when the format stores paths,
    the path reads back, and [zlib] undoes its own compression of the data. *)
Definition entry_round_trips `{MagicRules, Zlib, TextCodec}
    (bnd_magic : Z) (encoding : string) (e : BNDEntry) : Prop :=
  (is_entry_compressed (entry_magic e) = true →
   zlib_decompress (zlib_compress (data e)) = Ok (data e))
  ∧ match path e with
    | Some p => has_path bnd_magic = true ∧ path_round_trips encoding p
    | None => has_path bnd_magic = false
    end.

(** The header dict [d] places [e] in the tables [paths] and [data], which
    start [path_base] and [data_base] bytes into the file. *)
Definition describes `{MagicRules, Zlib, TextCodec}
    (bnd_magic : Z) (encoding : string) (path_base data_base : Z) (paths data : bytes)
    (d : dict) (e : BNDEntry) : Prop :=
  d !! "entry_magic" = Some (VInt (entry_magic e))
  ∧ d !! "compressed_data_size" = Some (VInt (len (packed_data_of e)))
  ∧ d !! "entry_id" = (if has_id bnd_magic then Some (id_value (entry_id e)) else None)
  ∧ (∃ pre post, data = pre ++ packed_data_of e ++ post
                 ∧ d !! "data_offset" = Some (VInt (len pre + data_base)))
  ∧ (if has_path bnd_magic
     then ∃ p enc pre post,
            path e = Some p ∧ str_encode p encoding = Ok enc
            ∧ paths = pre ++ enc ++ [x00] ++ post
            ∧ d !! "path_offset" = Some (VInt (len pre + path_base))
     else d !! "path_offset" = None).

(** An archive as a manifest load leaves it: attributes and entries set,
    then [create_header_structs]. *)
Definition BND3_built `{MagicRules} (b : BND) : BND :=
  self (snd (BND3_create_header_structs (mkState b []))).

Definition BND4_built `{MagicRules} (b : BND) : BND :=
  self (snd (BND4_create_header_structs (mkState b []))).

(** What the round trip needs of an entry header struct: the dict read
    back holds the integer fields the loop of [BNDEntry.unpack] looks at,
    with [entry_id] and [path_offset] present exactly under their flags. *)
Definition int_image (d : dict) (name : string) : pyvalue :=
  VInt (default 0 (as_index (default VNone (d !! name)))).

Definition entry_struct_ok `{MagicRules, TextCodec} (bnd_magic : Z) (st : BinaryStruct) : Prop :=
  asserted_ok st
  ∧ (has_id bnd_magic = true → ∃ bo, (Field "entry_id" Fmt_i, bo) ∈ st)
  ∧ ∀ d : dict,
      let img := struct_image st d ∅ in
      img !! "entry_magic" = Some (int_image d "entry_magic")
      ∧ img !! "compressed_data_size" = Some (int_image d "compressed_data_size")
      ∧ img !! "data_offset" = Some (int_image d "data_offset")
      ∧ img !! "entry_id"
        = (if has_id bnd_magic then Some (int_image d "entry_id") else None)
      ∧ img !! "path_offset"
        = (if has_path bnd_magic then Some (int_image d "path_offset") else None).

(** The archive once [BND3.unpack] has read a header with these fields. *)
Definition BND3_file_header_struct (big_endian : bool) : BinaryStruct :=
  add_fields (new_BinaryStruct BND3_HEADER_STRUCT_START LittleEndian)
    BND3_HEADER_STRUCT_ENDIAN (order_of big_endian).

Definition BND3_after_header `{MagicRules} (signature : pystr) (bnd_magic : Z)
    (big_endian unknown : bool) (b : BND) : BND :=
  set_entry_header_struct (Some (BND3_entry_header_struct bnd_magic (order_of big_endian)))
    (set_unknown unknown
       (set_header_struct (Some (BND3_file_header_struct big_endian))
          (set_big_endian big_endian
             (set_magic bnd_magic (set_signature signature b))))).

(** The signature survives the ["8s"] field: what [unpack] strips and
    decodes is valid text. *)
Definition signature_decodes `{TextCodec} (signature : pystr) : Prop :=
  ∀ sb, str_encode signature "utf-8" = Ok sb →
        ∃ sg, bytes_decode (rstrip_nul (pad_to 8 sb)) = Ok sg.

(** The structs of the archive are the ones [create_header_structs] and
    [unpack] build for its present [magic] and [big_endian]. *)
Definition BND3_structs_ready `{MagicRules} (b : BND) : Prop :=
  header_struct b = Some (BND3_file_header_struct (big_endian b))
  ∧ entry_header_struct b
    = Some (BND3_entry_header_struct (magic b) (order_of (big_endian b))).

Definition BND4_structs_ready `{MagicRules} (b : BND) : Prop :=
  header_struct b
  = Some (add_fields (new_BinaryStruct BND4_HEADER_STRUCT_START LittleEndian)
            BND4_HEADER_STRUCT_ENDIAN (order_of (big_endian b)))
  ∧ entry_header_struct b
    = Some (BND4_entry_header_struct (magic b) (order_of (big_endian b))).

(** ** Sample headers and states *)

(** A little-endian BND4 header for an empty archive with [magic = 0x06],
    declaring [entry_header_size] and the hash table fields. *)
Definition sample_header4 (entry_header_size hash_table_type hash_table_offset : Z) : bytes :=
  match struct_pack (H := Sample.codec) (BND4_file_header_struct 0x00010000)
          (BND4_file_header_dict false false 0x00010000 0 (b_ "07D7R6")
             entry_header_size 64 false 0x06 hash_table_type hash_table_offset) with
  | Ok hb => hb
  | Raise _ => []
  end.

(** The sample BND4 with a type 4 hash table, as written and read back. *)
Definition sample_reread4 : state :=
  snd (Sample.unpack4
         (Sample.returned
            (Sample.pack4 (Sample.bnd4 [Sample.entry_c; Sample.entry_a] 0x06 false 4)))).

(** ** A sample configuration with a two-byte codec

    As [Sample], but ["utf-16le"] and ["utf-16be"] text is written as two
    bytes per code unit and read back unit by unit up to the first NUL
    unit. *)
Module Sample16.

Definition is_utf16 (encoding : string) : bool :=
  bool_decide (encoding = "utf-16le" ∨ encoding = "utf-16be").

Fixpoint encode_units (big : bool) (s : pystr) : result bytes :=
  match s with
  | [] => Ok []
  | c :: s' =>
      if bool_decide (0 ≤ c < 65536)
      then
        b ← encode_units big s';
        let lo := byte_of_Z c in
        let hi := byte_of_Z (c `div` 256) in
        Ok (if big then hi :: lo :: b else lo :: hi :: b)
      else Raise UnicodeError
  end.

Fixpoint read_units (big : bool) (b : bytes) : result pystr :=
  match b with
  | b0 :: b1 :: b' =>
      if bool_decide (b0 = x00 ∧ b1 = x00) then Ok []
      else
        s ← read_units big b';
        Ok ((if big then 256 * Z_of_byte b0 + Z_of_byte b1
             else Z_of_byte b0 + 256 * Z_of_byte b1) :: s)
  | _ => Raise (ValueError "Ran out of bytes to read before null termination was found.")
  end.

Definition codec : TextCodec := {|
  str_encode s encoding :=
    if is_utf16 encoding
    then encode_units (bool_decide (encoding = "utf-16be")) s
    else Sample.encode_chars s;
  bytes_decode b := Ok (Z_of_byte <$> b);
  read_chars_from_buffer content offset encoding :=
    if offset <? 0 then Raise (ValueError "negative seek value")
    else if is_utf16 encoding
    then read_units (bool_decide (encoding = "utf-16be")) (drop (Z.to_nat offset) content)
    else Sample.read_to_nul (drop (Z.to_nat offset) content);
|}.

(** [BND(bnd.pack())] for a sample BND4 with UTF-16 paths. *)
Definition archive16 (entries : list BNDEntry) : BND :=
  set_utf16_paths true (Sample.bnd4 entries 0x06 false 0).

Definition reread16 (entries : list BNDEntry) : result unit * state :=
  match fst (Sample.run (@BND4_pack Sample.rules Sample.zlib codec) (archive16 entries)) with
  | Ok packed =>
      Sample.run (@BND4_unpack Sample.rules Sample.zlib codec (mkBytesIO packed 0)) empty_BND
  | Raise e => (Raise e, mkState empty_BND [])
  end.

End Sample16.



(** ** Looking entries up and removing them *)

(** [pathlib] is not part of this module: [Path(path).name], the last
    component of a path, depends on the platform's separators. *)
Class PathLib : Type := {
  path_name : pystr → pystr;
}.

(** [entry.name] *)
Definition name `{PathLib} (entry : BNDEntry) : result pystr :=
  match path entry with
  | Some p => Ok (path_name p)
  | None => Raise (TypeError "expected str, bytes or os.PathLike object, not NoneType")
  end.

(** The [entries_by_path] property. *)
Fixpoint entries_by_path_loop (entries : list BNDEntry) (acc : gmap (option pystr) BNDEntry)
  : result (gmap (option pystr) BNDEntry) :=
  match entries with
  | [] => Ok acc
  | entry :: rest =>
      if bool_decide (is_Some (acc !! path entry))
      then Raise (ValueError "Path appears in multiple BNDEntry paths.")
      else entries_by_path_loop rest (<[path entry := entry]> acc)
  end.

Definition entries_by_path (b : BND) : result (gmap (option pystr) BNDEntry) :=
  entries_by_path_loop (_entries b) ∅.

(** The [entries_by_basename] property. *)
Fixpoint entries_by_basename_loop `{PathLib} (entries : list BNDEntry)
    (acc : gmap pystr BNDEntry) : result (gmap pystr BNDEntry) :=
  match entries with
  | [] => Ok acc
  | entry :: rest =>
      entry_name ← name entry;
      if bool_decide (is_Some (acc !! entry_name))
      then Raise (ValueError "Basename appears in multiple BND entry paths.")
      else entries_by_basename_loop rest (<[entry_name := entry]> acc)
  end.

Definition entries_by_basename `{PathLib} (b : BND) : result (gmap pystr BNDEntry) :=
  entries_by_basename_loop (_entries b) ∅.

(** [d[key]] on a dict of entries. *)
Definition subscript `{Countable K} (d : gmap K BNDEntry) (key : K) : result BNDEntry :=
  match d !! key with
  | Some entry => Ok entry
  | None => Raise KeyError
  end.

(** The lookup that [__getitem__] and [remove_entry] share: by ID for an
    [int] (a [bool] is one), by path and then by basename for a [str]. *)
Definition find_entry `{PathLib} (type_error : string) (id_or_path_or_basename : pyvalue)
    (b : BND) : result BNDEntry :=
  match id_or_path_or_basename with
  | VInt _ | VBool _ =>
      by_id ← entries_by_id b;
      subscript by_id (as_index id_or_path_or_basename)
  | VStr s =>
      by_path ← entries_by_path b;
      match subscript by_path (Some s) with
      | Raise KeyError =>
          by_basename ← entries_by_basename b;
          subscript by_basename s
      | found => found
      end
  | _ => Raise (TypeError type_error)
  end.

(** [bnd[id_or_path_or_basename]] *)
Definition BND_getitem `{PathLib} (id_or_path_or_basename : pyvalue) (b : BND)
  : result BNDEntry :=
  find_entry "BND key should be an entry ID (int) or path/basename (str)."
    id_or_path_or_basename b.

(** [l.remove(x)]: the first item equal to [x] goes. *)
Fixpoint list_remove_first (x : BNDEntry) (l : list BNDEntry) : result (list BNDEntry) :=
  match l with
  | [] => Raise (ValueError "list.remove(x): x not in list")
  | y :: l' =>
      if bool_decide (y = x) then Ok l'
      else l'' ← list_remove_first x l'; Ok (y :: l'')
  end.

(** [remove_entry(id_or_path_or_basename)] *)
Definition remove_entry `{PathLib} (id_or_path_or_basename : pyvalue) : M unit :=
  b ← get_self;
  entry ← lift (find_entry "Entry to be removed should be a BND ID (int) or path/basename (str)."
                  id_or_path_or_basename b);
  entries ← lift (list_remove_first entry (_entries b));
  update (set_entries entries).

(** [clear_entries()] *)
Definition clear_entries : M unit := update (set_entries []).

(** [entry_count] and [len(bnd)] *)
Definition entry_count (b : BND) : Z := len (_entries b).

(** A sample [pathlib]: the name is what follows the last slash or
    backslash, as on Windows. *)
Definition sample_pathlib : PathLib := {|
  path_name p :=
    fold_left (λ acc c, if (c =? backslash) || (c =? slash) then [] else acc ++ [c]) p [];
|}.

(** * Properties *)

#[local] Set Warnings "-clear-no-such-hyp".

(** ** Path hash *)

Lemma fold_left_hash_acc (l : list (Z * Z)) (a : Z) :
  fold_left (λ h '(i, s), h + (i * 37 + ord s)) l a
  = a + fold_left (λ h '(i, s), h + (i * 37 + ord s)) l 0.
Proof.
  revert a. induction l as [|[i s] l IH]; intros a; simpl; [lia|].
  rewrite IH, (IH (0 + _)). lia.
Qed.

Lemma hash_fold_enumerate (l : pystr) (k : Z) :
  fold_left (λ h '(i, s), h + (i * 37 + ord s)) (enumerate_from k l) 0
  = foldr Z.add 0 ((λ i : nat, (k + Z.of_nat i) * 37 + l !!! i) <$> seq 0 (length l)).
Proof.
  revert k. induction l as [|x l IH]; intros k; [reflexivity|].
  cbn [enumerate_from fold_left length seq fmap list_fmap foldr].
  rewrite fold_left_hash_acc, IH, <- fmap_S_seq, <- list_fmap_compose.
  unfold ord. cbn [lookup_total list_lookup_total].
  replace (k + Z.of_nat 0) with k by lia.
  rewrite Z.add_0_l. f_equal. f_equal. apply list_fmap_ext. intros _ i _. simpl.
  f_equal. lia.
Qed.

Lemma path_hash_of_normalized (p : pystr) :
  path_hash p
  = fold_left (λ h '(i, s), h + (i * 37 + ord s)) (enumerate (spec_normalize p)) 0.
Proof.
  unfold path_hash, spec_normalize, startswith.
  destruct (replace_backslashes p) as [|c q]; [reflexivity|].
  destruct (c =? slash); reflexivity.
Qed.

Lemma path_hash_prepend_slash (p : pystr) :
  startswith p slash = false → startswith p backslash = false →
  path_hash p = path_hash (slash :: p).
Proof.
  intros Hs Hb. rewrite !path_hash_of_normalized. f_equal. f_equal.
  unfold spec_normalize. destruct p as [|c p]; [reflexivity|].
  simpl in Hs, Hb. cbn [replace_backslashes fmap list_fmap].
  rewrite Hb, Hs. reflexivity.
Qed.

(** C3 (as amended): [path_hash p] is the sum of [i * 37 + ord c_i] over the
    normalised string; ["/a/b"] and ["a\b"] hash alike; and a path that
    starts with neither a slash nor a backslash hashes like the same path
    with a slash prepended. *)
Theorem C3_path_hash (p : pystr) :
  path_hash p = spec_hash_sum (spec_normalize p)
  ∧ path_hash (str "/a/b") = path_hash (str "a\b")
  ∧ (startswith p slash = false → startswith p backslash = false →
     path_hash p = path_hash (slash :: p)).
Proof.
  split; [|split].
  - rewrite path_hash_of_normalized. unfold enumerate, spec_hash_sum.
    rewrite hash_fold_enumerate. f_equal.
  - reflexivity.
  - apply path_hash_prepend_slash.
Qed.

Lemma C3_path_hash_witness :
  path_hash (str "a/b.bin") = path_hash (slash :: str "a/b.bin").
Proof.
  apply (proj2 (proj2 (C3_path_hash (str "a/b.bin")))); reflexivity.
Defined.

(** C3 (as stated) fails: a path that begins with a backslash does not
    start with ['/'], yet prepending a slash changes its hash. *)
Lemma C3_counterexample :
  startswith (str "\a") slash = false
  ∧ path_hash (str "\a") = 181
  ∧ path_hash (slash :: str "\a") = 302
  ∧ path_hash (str "\a") ≠ path_hash (slash :: str "\a").
Proof. repeat split; vm_compute; discriminate. Qed.

(** ** Primality test and group count *)

Lemma range_from_lookup (a s : Z) (n i : nat) :
  (i < n)%nat → range_from a s n !! i = Some (a + s * Z.of_nat i).
Proof.
  revert a i. induction n as [|n IH]; intros a i Hi; [lia|].
  destruct i as [|i]; simpl.
  - f_equal. lia.
  - rewrite IH by lia. f_equal. lia.
Qed.

Lemma range_from_length (a s : Z) (n : nat) : length (range_from a s n) = n.
Proof. revert a. induction n; intros; simpl; auto. Qed.

Lemma range_from_elem (a s : Z) (n : nat) (x : Z) :
  x ∈ range_from a s n ↔ ∃ k : nat, (k < n)%nat ∧ x = a + s * Z.of_nat k.
Proof.
  rewrite list_elem_of_lookup. split.
  - intros [i Hi]. exists i.
    assert (i < n)%nat as Hlt.
    { apply lookup_lt_Some in Hi. by rewrite range_from_length in Hi. }
    rewrite range_from_lookup in Hi by done. split; [done | congruence].
  - intros (k & Hk & ->). exists k. by apply range_from_lookup.
Qed.

Lemma is_prime_loop_false (p : Z) (l : list Z) :
  is_prime_loop p l = false → ∃ i, i ∈ l ∧ p `mod` i = 0.
Proof.
  induction l as [|i l IH]; simpl; [discriminate|].
  destruct (p `mod` i =? 0) eqn:Hm.
  - intros _. exists i. split; [left | lia].
  - destruct (i ^ 2 >? p); [discriminate|].
    intros H. destruct (IH H) as (j & Hj & Hd). exists j. split; [by right | done].
Qed.

Lemma is_prime_loop_true (p a : Z) (n : nat) :
  3 ≤ a → a `mod` 2 = 1 →
  is_prime_loop p (range_from a 2 n) = true →
  (∀ j, 3 ≤ j < a → j `mod` 2 = 1 → p `mod` j ≠ 0) →
  ∀ d, 3 ≤ d → d `mod` 2 = 1 → d * d ≤ p → d < a + 2 * Z.of_nat n →
       p `mod` d ≠ 0.
Proof.
  revert a. induction n as [|n IH]; intros a Ha Hodd Hloop Hbelow d Hd Hdodd Hsq Hlt.
  - apply Hbelow; [lia | done].
  - simpl in Hloop. destruct (p `mod` a =? 0) eqn:Hm; [discriminate|].
    destruct (a ^ 2 >? p) eqn:Hsqa.
    + apply Hbelow; [|done]. split; [done | nia].
    + apply (IH (a + 2)); try done; try lia.
      * rewrite <- Hodd. rewrite Z.add_mod by lia. change (2 `mod` 2) with 0.
        rewrite Z.add_0_r, Z.mod_mod; lia.
      * intros j Hj Hjodd. destruct (decide (j < a)) as [Hja|Hja].
        { apply Hbelow; [lia | done]. }
        assert (j = a) as -> by (Z.div_mod_to_equations; lia). lia.
Qed.

Lemma is_prime_correct (p : Z) : is_prime p = true ↔ Prime p.
Proof.
  unfold is_prime, Prime. destruct (p <? 2) eqn:H2; [split; [discriminate | lia]|].
  destruct (p =? 2) eqn:He2.
  { split; [|done]. intros _. split; [lia|]. intros d Hd. lia. }
  destruct (p `mod` 2 =? 0) eqn:Hev.
  { split; [discriminate|]. intros [_ Hp]. exfalso. apply (Hp 2); [lia|].
    apply Z.mod_divide; lia. }
  assert (p `mod` 2 = 1) as Hodd by (Z.div_mod_to_equations; lia).
  unfold py_range. split.
  - intros Hloop. split; [lia|]. intros d Hd [e He].
    assert (1 < e < p) as Hebound by nia.
    assert (d `mod` 2 = 1) as Hdodd.
    { destruct (decide (d `mod` 2 = 1)); [done|].
      assert (d = 2 * (d `div` 2)) as Hd2 by (Z.div_mod_to_equations; lia).
      exfalso. rewrite Hd2 in He.
      assert (p = 2 * (e * (d `div` 2))) as Hp2 by lia.
      rewrite Hp2, Z.mul_comm, Z.mod_mul in Hodd; lia. }
    assert (e `mod` 2 = 1) as Heodd.
    { destruct (decide (e `mod` 2 = 1)); [done|].
      assert (e = 2 * (e `div` 2)) as He2' by (Z.div_mod_to_equations; lia).
      exfalso. rewrite He2' in He.
      assert (p = 2 * (d * (e `div` 2))) as Hp2 by lia.
      rewrite Hp2, Z.mul_comm, Z.mod_mul in Hodd; lia. }
    assert (3 ≤ d ∧ 3 ≤ e) as [Hd3 He3] by (Z.div_mod_to_equations; lia).
    set (m := Z.min d e).
    assert (p `mod` m ≠ 0) as Hnd.
    { apply (is_prime_loop_true p 3 _ ltac:(lia) eq_refl Hloop).
      - intros j Hj. lia.
      - unfold m. lia.
      - unfold m. destruct (Z.min_spec d e) as [[_ ->]|[_ ->]]; done.
      - unfold m. nia.
      - assert (3 * m ≤ p) by (unfold m; nia).
        rewrite Z2Nat.id by (Z.div_mod_to_equations; lia).
        Z.div_mod_to_equations; lia. }
    apply Hnd. apply Z.mod_divide; [unfold m; lia|].
    unfold m. destruct (Z.min_spec d e) as [[_ ->]|[_ ->]].
    + by exists e.
    + exists d. lia.
  - intros [_ Hp]. destruct (is_prime_loop _ _) eqn:Hloop; [done|].
    apply is_prime_loop_false in Hloop as (i & Hi & Hdiv).
    apply range_from_elem in Hi as (k & Hk & ->). exfalso.
    apply (Hp (3 + 2 * Z.of_nat k)).
    + apply Nat2Z.inj_lt in Hk.
      destruct (decide (0 ≤ (p `div` 2 - 3 + 2 - 1) `div` 2)) as [Hge|Hlt].
      * rewrite Z2Nat.id in Hk by done. Z.div_mod_to_equations; lia.
      * rewrite Z2Nat.nonpos in Hk by lia. simpl in Hk. lia.
    + apply Z.mod_divide; lia.
Qed.

Lemma Prime_2 : Prime 2.
Proof. split; [lia|]. intros d Hd. lia. Qed.

(** C2: when the hash table is built for [n] entries (the search has a prime
    below its bound of 100000 exactly when [n // 7 <= 99991]), the group
    count is the least prime at or above [n // 7]; with fewer than seven
    entries it is 2. *)
Theorem C2_group_count (n : Z) :
  0 ≤ n → n `div` 7 ≤ 99991 →
  ∃ p, hash_group_count n = Ok p
       ∧ Prime p ∧ n `div` 7 ≤ p
       ∧ (∀ q, Prime q → n `div` 7 ≤ q → p ≤ q)
       ∧ (n < 7 → p = 2).
Proof.
  intros Hn Hbound. unfold hash_group_count, py_range.
  set (a := n `div` 7) in *.
  assert (0 ≤ a) as Ha by (unfold a; Z.div_mod_to_equations; lia).
  replace ((100000 - a + 1 - 1) `div` 1) with (100000 - a)
    by (rewrite Z.div_1_r; lia).
  set (l := range_from a 1 (Z.to_nat (100000 - a))).
  assert (is_prime 99991 = true) as H99991 by (vm_compute; reflexivity).
  assert (99991 ∈ l) as Hin.
  { apply range_from_elem. exists (Z.to_nat (99991 - a)). lia. }
  destruct (list_find_elem_of (λ p, is_prime p = true) l 99991 Hin H99991)
    as [[i p] Hfind].
  rewrite Hfind. exists p. split; [done|].
  apply list_find_Some in Hfind as (Hi & Hp & Hmin).
  assert (i < Z.to_nat (100000 - a))%nat as Hlt.
  { apply lookup_lt_Some in Hi. unfold l in Hi. by rewrite range_from_length in Hi. }
  unfold l in Hi. rewrite range_from_lookup in Hi by done.
  injection Hi as Hpi.
  assert (∀ q, Prime q → a ≤ q → p ≤ q) as Hleast.
  { intros q Hq Haq. destruct (decide (p ≤ q)) as [|Hqp]; [done|]. exfalso.
    apply (Hmin (Z.to_nat (q - a)) q).
    - unfold l. rewrite range_from_lookup by lia. f_equal. lia.
    - lia.
    - by apply is_prime_correct. }
  split; [by apply is_prime_correct|].
  split; [lia|]. split; [done|].
  intros Hn7. assert (a = 0) as Ha0 by (unfold a; Z.div_mod_to_equations; lia).
  pose proof (Hleast 2 Prime_2 ltac:(lia)) as Hle.
  apply is_prime_correct in Hp as [Hp2 _]. lia.
Qed.

Lemma C2_group_count_witness :
  ∃ p, hash_group_count 100 = Ok p
       ∧ Prime p ∧ 100 `div` 7 ≤ p
       ∧ (∀ q, Prime q → 100 `div` 7 ≤ q → p ≤ q)
       ∧ (100 < 7 → p = 2).
Proof. apply (C2_group_count 100); [lia | vm_compute; discriminate]. Defined.

(** ** The method monad *)

Lemma bind_lift {A B} (r : result A) (k : A → M B) (s : state) :
  (lift r ≫= k) s = match r with Ok a => k a s | Raise e => (Raise e, s) end.
Proof. by destruct r. Qed.

Lemma bind_update {B} (f : BND → BND) (k : unit → M B) (s : state) :
  (update f ≫= k) s = k () (mkState (f (self s)) (log s)).
Proof. reflexivity. Qed.

Lemma bind_warning {B} (msg : string) (k : unit → M B) (s : state) :
  (warning msg ≫= k) s = k () (mkState (self s) (log s ++ [msg])).
Proof. reflexivity. Qed.

Lemma bind_get_self {B} (k : BND → M B) (s : state) :
  (get_self ≫= k) s = k (self s) s.
Proof. reflexivity. Qed.

Lemma bind_raise {A B} (e : exn) (k : A → M B) (s : state) :
  (raise e ≫= k) s = (Raise e, s).
Proof. reflexivity. Qed.

Lemma bind_ret {A B} (a : A) (k : A → M B) (s : state) :
  (mret a ≫= k) s = k a s.
Proof. reflexivity. Qed.

Lemma bind_run {A B} (m : M A) (k : A → M B) (s : state) :
  (m ≫= k) s = match m s with (Ok a, s') => k a s' | (Raise e, s') => (Raise e, s') end.
Proof. reflexivity. Qed.

(** ** Adding entries *)

(** C6 (the code departs from it): starting from an empty archive, a second
    entry with the ID of the first is added with a warning, but after that
    [add_entry] raises [BNDError] for an entry that is identical to no entry
    of the archive, whether its ID is new or not. *)
Theorem C6_add_entry_after_duplicate_id :
  let s2 := snd (Sample.add_a_then_b (mkState empty_BND [])) in
  Sample.add_a_then_b (mkState empty_BND []) = (Ok (), s2)
  ∧ _entries (self s2) = [Sample.entry_a; Sample.entry_b]
  ∧ log s2 = ["Entry ID appears more than once in this BND. Fix this as soon as you can."]
  ∧ (Sample.entry_c ∉ _entries (self s2))
  ∧ (Sample.entry_d ∉ _entries (self s2))
  ∧ add_entry Sample.entry_c s2
    = (Raise (BNDError "There are multiple entries with the same ID."), s2)
  ∧ add_entry Sample.entry_d s2
    = (Raise (BNDError "There are multiple entries with the same ID."), s2).
Proof.
  cbv zeta. repeat split; try (vm_compute; reflexivity).
  - apply (bool_decide_unpack _). by vm_compute.
  - apply (bool_decide_unpack _). by vm_compute.
Qed.

(** ** Frame of [pack] *)

Lemma BND4_pack_full_run `{MagicRules, Zlib, TextCodec} (s : state) :
  BND4_pack_full s
  = match BND4_rebuild_hash_table (self s) with
    | Ok r => (BND4_pack_parts r (take_snapshot (self s)),
               mkState (take_snapshot (self s)) (log s))
    | Raise e => (Raise e, s)
    end.
Proof.
  unfold BND4_pack_full. rewrite bind_get_self, bind_lift.
  destruct (BND4_rebuild_hash_table (self s)); [|done].
  by rewrite bind_update, bind_get_self.
Qed.

(** C10: [BND3.pack] and [BND4.pack] leave the entry list of the archive as
    it was, whether they return or raise; what goes into the output for a
    compressed entry is [zlib.compress] of its data, the entry keeps the
    data itself. *)
Theorem C10_pack_frame `{MagicRules, Zlib, TextCodec} (s : state) :
  _entries (self (snd (BND3_pack s))) = _entries (self s)
  ∧ _entries (self (snd (BND4_pack s))) = _entries (self s)
  ∧ ∀ e, e ∈ _entries (self s) →
         e ∈ _entries (self (snd (BND4_pack s)))
         ∧ (is_entry_compressed (entry_magic e) = true →
            get_data_for_pack e = (zlib_compress (data e), true)).
Proof.
  assert (_entries (self (snd (BND4_pack s))) = _entries (self s)) as H4.
  { unfold BND4_pack. rewrite bind_run, BND4_pack_full_run.
    destruct (BND4_rebuild_hash_table (self s)); [|done].
    by destruct (BND4_pack_parts _ _). }
  split; [|split; [done|]].
  - unfold BND3_pack. rewrite bind_get_self, bind_lift.
    by destruct (BND3_pack_parts (self s)).
  - intros e He. split; [by rewrite H4|].
    intros Hc. unfold get_data_for_pack. by rewrite Hc.
Qed.

(** ** The data table of [BND4.pack] *)

Section pack_loops.
Context `{!MagicRules, !Zlib, !TextCodec}.

Lemma pack_entry_data (m : Z) (enc : string) (acc acc' : pack_acc) (e : BNDEntry) :
  pack_entry m enc acc e = Ok acc' →
  packed_entry_data acc' = packed_entry_data acc ++ packed_data_of e
  ∧ relative_entry_data_offsets acc'
    = relative_entry_data_offsets acc ++ [len (packed_entry_data acc)]
  ∧ ∃ d, entry_header_dicts acc' = entry_header_dicts acc ++ [d]
         ∧ d !! "data_offset" = Some (VInt (len (packed_entry_data acc))).
Proof.
  unfold pack_entry, packed_data_of, get_data_for_pack.
  destruct (has_path m).
  - destruct (get_packed_path e enc) as [pp|]; [|done]. cbn.
    destruct (is_entry_compressed (entry_magic e)), (has_id m),
      (has_uncompressed_size m);
      intros [= <-]; cbn; (split; [done|]; split; [done|]);
      eexists; (split; [done|]); by simplify_map_eq.
  - cbn.
    destruct (is_entry_compressed (entry_magic e)), (has_id m),
      (has_uncompressed_size m);
      intros [= <-]; cbn; (split; [done|]; split; [done|]);
      eexists; (split; [done|]); by simplify_map_eq.
Qed.

Lemma BND4_pack_loop_data (m : Z) (enc : string) (es : list BNDEntry) (acc acc' : pack_acc) :
  pack_loop (BND4_pack_entry m enc) acc es = Ok acc' →
  packed_entry_data acc'
  = packed_entry_data acc
      ++ concat ((λ e, replicate 10 x00 ++ packed_data_of e) <$> es)
  ∧ relative_entry_data_offsets acc'
    = relative_entry_data_offsets acc ++ BND4_data_offsets (len (packed_entry_data acc)) es
  ∧ ∃ ds, entry_header_dicts acc' = entry_header_dicts acc ++ ds
          ∧ Forall2 (λ d o, d !! "data_offset" = Some (VInt o)) ds
              (BND4_data_offsets (len (packed_entry_data acc)) es).
Proof.
  revert acc. induction es as [|e es IH]; intros acc; cbn [pack_loop].
  - intros [= <-]. cbn. rewrite !app_nil_r. repeat split; [].
    exists []. by rewrite app_nil_r.
  - destruct (BND4_pack_entry m enc acc e) as [acc1|] eqn:Hstep; [|done].
    cbn. intros Hloop. apply IH in Hloop as (Hd & Ho & ds & Hds & Hall).
    unfold BND4_pack_entry in Hstep.
    apply pack_entry_data in Hstep as (Hd1 & Ho1 & d & Hd1' & Hlook).
    cbn [packed_entry_data relative_entry_data_offsets entry_header_dicts]
      in Hd1, Ho1, Hd1', Hlook.
    assert (len (packed_entry_data acc ++ replicate 10 x00)
            = len (packed_entry_data acc) + 10) as Hlen.
    { unfold len. rewrite length_app, length_replicate. lia. }
    assert (len (packed_entry_data acc1)
            = len (packed_entry_data acc) + 10 + len (packed_data_of e)) as Hlen1.
    { rewrite Hd1. unfold len. rewrite !length_app, length_replicate. lia. }
    rewrite Hlen in *. rewrite Hlen1 in *.
    split; [|split].
    + rewrite Hd, Hd1. cbn [fmap list_fmap concat]. by rewrite <- !app_assoc.
    + rewrite Ho, Ho1. cbn [BND4_data_offsets]. by rewrite <- app_assoc.
    + exists (d :: ds). split.
      * rewrite Hds, Hd1'. by rewrite <- app_assoc.
      * cbn [BND4_data_offsets]. by constructor.
Qed.

Lemma BND4_data_offsets_app (o : Z) (l1 l2 : list BNDEntry) :
  BND4_data_offsets o (l1 ++ l2)
  = BND4_data_offsets o l1
      ++ BND4_data_offsets
           (o + len (concat ((λ e, replicate 10 x00 ++ packed_data_of e) <$> l1))) l2.
Proof.
  revert o. induction l1 as [|e l1 IH]; intros o;
    cbn [app fmap list_fmap concat BND4_data_offsets].
  - f_equal. change (len []) with 0. lia.
  - f_equal. rewrite IH. f_equal. f_equal. unfold len.
    rewrite !length_app, length_replicate. lia.
Qed.

Lemma BND4_data_offsets_length (o : Z) (l : list BNDEntry) :
  length (BND4_data_offsets o l) = length l.
Proof. revert o. induction l; intros; cbn; auto. Qed.

(** C9: in what [BND4.pack] computes, the data of each entry starts ten
    bytes after the end of the data of the entry before it, and those ten
    bytes are zero: for consecutive entries [e1], [e2] the recorded offsets
    satisfy [o2 = o1 + len(packed e1) + 10], both header dicts carry these
    offsets, and the data table holds [packed e1], ten NULs, [packed e2]
    from [o1] on. *)
Theorem C9_data_padding (r : bool) (b : BND) (p : BND4_packed) (i : nat) (e1 e2 : BNDEntry) :
  BND4_pack_parts r b = Ok p →
  _entries b !! i = Some e1 →
  _entries b !! S i = Some e2 →
  ∃ o1 o2 d1 d2,
    relative_entry_data_offsets (loop_result p) !! i = Some o1
    ∧ relative_entry_data_offsets (loop_result p) !! S i = Some o2
    ∧ entry_header_dicts (loop_result p) !! i = Some d1
    ∧ entry_header_dicts (loop_result p) !! S i = Some d2
    ∧ d1 !! "data_offset" = Some (VInt o1)
    ∧ d2 !! "data_offset" = Some (VInt o2)
    ∧ 0 ≤ o1
    ∧ o2 = o1 + len (packed_data_of e1) + 10
    ∧ take (length (packed_data_of e1 ++ replicate 10 x00 ++ packed_data_of e2))
           (drop (Z.to_nat o1) (packed_data (parts p)))
      = packed_data_of e1 ++ replicate 10 x00 ++ packed_data_of e2.
Proof.
  intros Hpack He1 He2. unfold BND4_pack_parts in Hpack.
  destruct (pack_loop _ _ _) as [acc|] eqn:Hloop; [|done]. cbn in Hpack.
  assert (loop_result p = acc ∧ packed_data (parts p) = packed_entry_data acc)
    as [-> ->].
  { destruct (the_struct (header_struct b)); [|done]. cbn in Hpack.
    destruct (the_struct (entry_header_struct b)); [|done]. cbn in Hpack.
    destruct (if hash_table_type b =? 4 then _ else _) as [[[? ?] ?]|]; [|done].
    cbn in Hpack. destruct (struct_pack _ _); [|done]. cbn in Hpack.
    destruct (pack_entry_headers _ _ _ _ _); [|done]. cbn in Hpack.
    by injection Hpack as <-. }
  apply BND4_pack_loop_data in Hloop as (Hd & Ho & ds & Hds & Hall).
  change (len (packed_entry_data empty_pack_acc)) with 0 in Ho, Hall.
  cbn [empty_pack_acc packed_entry_data relative_entry_data_offsets
       entry_header_dicts app] in Hd, Ho, Hds.
  clear Hpack.
  pose proof (take_drop_middle _ _ _ He1) as Hsplit.
  assert (drop (S i) (_entries b) = e2 :: drop (S (S i)) (_entries b)) as Hdrop.
  { by rewrite <- (drop_S _ _ _ He2). }
  rewrite Hdrop in Hsplit.
  set (l1 := take i (_entries b)) in *. set (l2 := drop (S (S i)) (_entries b)) in *.
  assert (length l1 = i) as Hl1.
  { unfold l1. apply length_take_le. apply lookup_lt_Some in He1. lia. }
  set (pre := concat ((λ e, replicate 10 x00 ++ packed_data_of e) <$> l1)) in *.
  assert (BND4_data_offsets 0 (_entries b)
          = BND4_data_offsets 0 l1
              ++ (len pre + 10)
              :: (len pre + 10 + len (packed_data_of e1) + 10)
              :: BND4_data_offsets
                   (len pre + 10 + len (packed_data_of e1) + 10 + len (packed_data_of e2)) l2)
    as Hoffs.
  { rewrite <- Hsplit, BND4_data_offsets_app. cbn [BND4_data_offsets].
    fold pre. by rewrite !Z.add_0_l. }
  rewrite Hoffs in Ho, Hall.
  exists (len pre + 10), (len pre + 10 + len (packed_data_of e1) + 10).
  assert (length (BND4_data_offsets 0 l1) = i) as Hli
    by (by rewrite BND4_data_offsets_length).
  assert (relative_entry_data_offsets acc !! i = Some (len pre + 10)) as Ho1.
  { rewrite Ho. rewrite lookup_app_r by lia. by rewrite Hli, Nat.sub_diag. }
  assert (relative_entry_data_offsets acc !! S i
          = Some (len pre + 10 + len (packed_data_of e1) + 10)) as Ho2.
  { rewrite Ho. rewrite lookup_app_r by lia.
    by replace (S i - length (BND4_data_offsets 0 l1))%nat with 1%nat by lia. }
  rewrite <- Ho in Hall.
  destruct (Forall2_lookup_r _ _ _ _ _ Hall Ho1) as (d1 & Hd1 & Hk1).
  destruct (Forall2_lookup_r _ _ _ _ _ Hall Ho2) as (d2 & Hd2 & Hk2).
  exists d1, d2. rewrite Hds. cbn [app].
  repeat split; try done; try (unfold len; lia).
  rewrite Hd. cbn [app]. rewrite <- Hsplit.
  rewrite fmap_app. cbn [fmap list_fmap]. rewrite concat_app. fold pre.
  cbn [concat]. rewrite <- !app_assoc.
  set (rest := concat _).
  replace (pre ++ replicate 10 x00 ++ packed_data_of e1 ++ replicate 10 x00
             ++ packed_data_of e2 ++ rest)
    with ((pre ++ replicate 10 x00)
            ++ (packed_data_of e1 ++ replicate 10 x00 ++ packed_data_of e2) ++ rest)
    by (by rewrite <- !app_assoc).
  rewrite drop_app_length'.
  - by rewrite take_app_length.
  - unfold len. rewrite length_app, length_replicate. lia.
Qed.

End pack_loops.

(** ** Reuse of the cached hash table *)

Lemma paths_changed_true (l : list (Z * BNDEntry)) (mp : list (option pystr)) :
  paths_changed l mp true = Ok true.
Proof. induction l as [|[i e] l IH]; simpl; auto. Qed.

Lemma paths_changed_false (es : list BNDEntry) (mp : list (option pystr)) (k : nat) (r : bool) :
  paths_changed (enumerate_from (Z.of_nat k) es) mp false = Ok r →
  (r = false ↔ ∀ i e, es !! i = Some e → mp !! (k + i)%nat = Some (path e)).
Proof.
  revert k. induction es as [|e es IH]; intros k; cbn [enumerate_from paths_changed].
  - intros [= <-]. split; [|done]. intros _ i e. by rewrite lookup_nil.
  - rewrite Nat2Z.id. destruct (mp !! k) as [q|] eqn:Hq; [|done].
    destruct (bool_decide (path e = q)) eqn:Hdec; cbn [negb].
    + apply bool_decide_eq_true in Hdec as <-.
      replace (Z.of_nat k + 1) with (Z.of_nat (S k)) by lia.
      intros Hrest. rewrite (IH _ Hrest). split.
      * intros Hall [|i] e'; cbn.
        -- intros [= <-]. by rewrite Nat.add_0_r.
        -- intros Hi. rewrite <- Nat.add_succ_comm. by apply Hall.
      * intros Hall i e' Hi. rewrite Nat.add_succ_comm. by apply Hall.
    + apply bool_decide_eq_false in Hdec. rewrite paths_changed_true.
      intros [= <-]. split; [done|]. intros Hall. exfalso. apply Hdec.
      specialize (Hall 0%nat e eq_refl). rewrite Nat.add_0_r in Hall. congruence.
Qed.

Lemma BND4_rebuild_hash_table_spec (b : BND) (r : bool) :
  BND4_rebuild_hash_table b = Ok r →
  (r = false ↔ _most_recent_hash_table b ≠ [] ∧ snapshot_current b).
Proof.
  unfold BND4_rebuild_hash_table, snapshot_current, truthy.
  destruct (len (_entries b) =? _most_recent_entry_count b) eqn:Hcount; cbn [negb].
  - apply Z.eqb_eq in Hcount.
    destruct (bool_decide (_most_recent_hash_table b = [])) eqn:Hcache; cbn [negb].
    + apply bool_decide_eq_true in Hcache. rewrite paths_changed_true.
      intros [= <-]. split; [done|]. by intros [? _].
    + apply bool_decide_eq_false in Hcache. unfold enumerate.
      intros Hr. apply (paths_changed_false _ _ 0) in Hr. rewrite Hr.
      split; [by intros Hall | by intros (_ & _ & Hall)].
  - apply Z.eqb_neq in Hcount. rewrite paths_changed_true.
    intros [= <-]. split; [done|]. by intros (_ & ? & _).
Qed.

Lemma take_snapshot_current (b : BND) : snapshot_current (take_snapshot b).
Proof.
  split; [done|]. intros i e Hi. cbn in *. by rewrite list_lookup_fmap, Hi.
Qed.

Lemma BND4_pack_parts_table `{!MagicRules, !Zlib, !TextCodec}
    (r : bool) (b : BND) (p : BND4_packed) :
  hash_table_type b = 4 →
  BND4_pack_parts r b = Ok p →
  rebuilt p = r
  ∧ (if r then build_hash_table b else Ok (_most_recent_hash_table b))
    = Ok (packed_hash_table (parts p)).
Proof.
  intros Htype. unfold BND4_pack_parts. rewrite Htype. cbn [Z.eqb Pos.eqb].
  destruct (pack_loop _ _ _); [|done]. cbn.
  destruct (the_struct (header_struct b)); [|done]. cbn.
  destruct (the_struct (entry_header_struct b)); [|done]. cbn.
  destruct (if r then _ else _) as [table|]; [|done]. cbn.
  destruct (struct_pack _ _); [|done]. cbn.
  destruct (pack_entry_headers _ _ _ _ _); [|done]. cbn.
  by intros [= <-].
Qed.

(** C4 (as amended): for an archive with [hash_table_type == 4] on which
    [pack] succeeds, the cached hash-table bytes are emitted unchanged exactly
    when the cache is non-empty and the entry count and every path agree with
    the snapshot; otherwise (empty cache, other count, or a changed path) the
    table is rebuilt from the entries.  A pack that reused the cache is
    followed, without modification, by a pack that emits the same bytes. *)
Theorem C4_hash_table_reuse `{!MagicRules, !Zlib, !TextCodec}
    (s s' : state) (p : BND4_packed) :
  hash_table_type (self s) = 4 →
  BND4_pack_full s = (Ok p, s') →
  (rebuilt p = false ↔ _most_recent_hash_table (self s) ≠ [] ∧ snapshot_current (self s))
  ∧ (rebuilt p = false → packed_hash_table (parts p) = _most_recent_hash_table (self s))
  ∧ (rebuilt p = true → build_hash_table (self s) = Ok (packed_hash_table (parts p)))
  ∧ (rebuilt p = false →
     ∀ p2 s2, BND4_pack_full s' = (Ok p2, s2) →
              rebuilt p2 = false
              ∧ packed_hash_table (parts p2) = packed_hash_table (parts p)).
Proof.
  intros Htype. rewrite BND4_pack_full_run.
  destruct (BND4_rebuild_hash_table (self s)) as [r|] eqn:Hr; [|done].
  intros [= Hparts <-].
  apply BND4_pack_parts_table in Hparts as [Hreb Htable]; [|done].
  pose proof (BND4_rebuild_hash_table_spec _ _ Hr) as Hspec.
  rewrite Hreb. split; [done|]. split; [|split].
  - intros ->. by injection Htable.
  - intros ->. exact Htable.
  - intros -> p2 s2. rewrite BND4_pack_full_run. cbn [self log].
    destruct (BND4_rebuild_hash_table (take_snapshot (self s))) as [r2|] eqn:Hr2; [|done].
    intros [= Hparts2 <-].
    apply BND4_pack_parts_table in Hparts2 as [Hreb2 Htable2]; [|done].
    assert (r2 = false) as ->.
    { apply (BND4_rebuild_hash_table_spec _ _ Hr2). split.
      - cbn. by apply Hspec.
      - apply take_snapshot_current. }
    split; [done|]. injection Htable as <-. by injection Htable2 as <-.
Qed.

(** ** [struct]: packing and unpacking values *)

Lemma Z_of_byte_bounds (b : byte) : 0 ≤ Z_of_byte b < 256.
Proof.
  unfold Z_of_byte. pose proof (Byte.to_N_bounded b). lia.
Qed.

Lemma Z_of_byte_of_Z (z : Z) : Z_of_byte (byte_of_Z z) = z `mod` 256.
Proof.
  unfold Z_of_byte, byte_of_Z.
  assert (0 ≤ z `mod` 256 < 256) as Hm by (apply Z.mod_pos_bound; lia).
  destruct (Byte.of_N (Z.to_N (z `mod` 256))) as [b|] eqn:E; cbn.
  - apply Byte.to_of_N in E. rewrite E. lia.
  - apply Byte.of_N_None_iff in E. lia.
Qed.

Lemma length_le_bytes (w : nat) (z : Z) : length (le_bytes w z) = w.
Proof. revert z. induction w; intros; cbn; auto. Qed.

Lemma le_value_le_bytes (w : nat) (z : Z) :
  le_value (le_bytes w z) = z `mod` 256 ^ Z.of_nat w.
Proof.
  revert z. induction w as [|w IH]; intros z.
  - cbn. by rewrite Z.mod_1_r.
  - cbn [le_bytes le_value]. rewrite IH, Z_of_byte_of_Z.
    rewrite Nat2Z.inj_succ, Z.pow_succ_r by lia.
    rewrite Z.rem_mul_r by lia. done.
Qed.

Lemma length_int_to_bytes (bo : byte_order) (w : nat) (z : Z) :
  length (int_to_bytes bo w z) = w.
Proof.
  destruct bo; unfold int_to_bytes; [|rewrite length_reverse]; apply length_le_bytes.
Qed.

Lemma int_from_to_bytes (bo : byte_order) (w : nat) (z : Z) :
  int_from_bytes bo (int_to_bytes bo w z) = z `mod` 2 ^ (8 * Z.of_nat w).
Proof.
  rewrite Z.pow_mul_r by lia. change (2 ^ 8) with 256.
  destruct bo; unfold int_from_bytes, int_to_bytes; [|rewrite reverse_involutive];
    apply le_value_le_bytes.
Qed.

Lemma decode_signed (M half z : Z) :
  M = 2 * half → (0 <? half) = true → - half ≤ z ≤ half - 1 →
  (if bool_decide (half - 1 < z `mod` M) then z `mod` M - M else z `mod` M) = z.
Proof.
  intros -> Hh%Z.ltb_lt Hz. case_bool_decide as Hc.
  - destruct (decide (0 ≤ z)).
    + rewrite Z.mod_small in Hc by lia. lia.
    + rewrite <- (Z_mod_plus_full z 1), Z.mod_small by lia. lia.
  - destruct (decide (0 ≤ z)).
    + rewrite Z.mod_small by lia. lia.
    + rewrite <- (Z_mod_plus_full z 1), Z.mod_small in Hc by lia. lia.
Qed.

Lemma decode_unsigned (M z : Z) :
  (0 <? M) = true → 0 ≤ z ≤ M - 1 →
  (if bool_decide (M - 1 < z `mod` M) then z `mod` M - M else z `mod` M) = z.
Proof.
  intros HM%Z.ltb_lt Hz. rewrite Z.mod_small by lia. case_bool_decide; lia.
Qed.

Section struct_lemmas.
Context `{!TextCodec}.

Lemma pack_value_length (f : fmt) (bo : byte_order) (v : pyvalue) (bs : bytes) :
  pack_value f bo v = Ok bs → length bs = calcsize f.
Proof.
  destruct f; cbn.
  1:{ destruct (match v with VBytes b => _ | VStr s => _ | _ => _ end) as [b|]; [|done].
      cbn. intros [= <-]. rewrite length_app, length_take, length_replicate. lia. }
  6: by intros [= <-].
  all: destruct (as_index v); [|done]; case_bool_decide; [|done];
    intros [= <-]; apply length_int_to_bytes.
Qed.

Lemma unpack_pack_value (f : fmt) (bo : byte_order) (v : pyvalue) (bs : bytes) :
  pack_value f bo v = Ok bs → unpack_value f bo bs = value_image f v.
Proof.
  destruct f; cbn -[Z.pow Z.mul].
  1:{ destruct (match v with VBytes b => _ | VStr s => _ | _ => _ end) as [b|]; [|done].
      cbn. by intros [= <-]. }
  6:{ intros [= <-]. destruct (truthy v), bo; reflexivity. }
  all: destruct (as_index v) as [z|]; [|done]; case_bool_decide as Hr; [|done];
    intros [= <-]; rewrite int_from_to_bytes; cbn -[Z.pow Z.mul];
    unfold int_min, int_max in *; cbn -[Z.pow Z.mul] in *; f_equal;
    rewrite Z.mod_mod by (by vm_compute).
  1,3,5: match goal with
         | Hr : - ?h ≤ _ ≤ _ |- context [_ `mod` ?M] =>
             exact (decode_signed M h z eq_refl eq_refl Hr)
         end.
  all: match goal with
       | |- context [_ `mod` ?M] => exact (decode_unsigned M z eq_refl Hr)
       end.
Qed.

Lemma struct_pack_length (st : BinaryStruct) (d : dict) (bs : bytes) :
  struct_pack st d = Ok bs → length bs = struct_size_nat st.
Proof.
  revert bs. induction st as [|[fs bo] st IH]; intros bs; cbn.
  - by intros [= <-].
  - destruct (match fs with Pad n => _ | _ => _ end) as [b|] eqn:Hb; [|done]. cbn.
    destruct (struct_pack st d) as [rest|]; [|done]. cbn.
    intros [= <-]. rewrite length_app, (IH rest eq_refl).
    unfold struct_size_nat. cbn. f_equal.
    destruct fs as [name f|name f a|n]; cbn.
    + destruct (d !! name); [|done]. by eapply pack_value_length.
    + by eapply pack_value_length.
    + injection Hb as <-. apply length_replicate.
Qed.

Lemma struct_unpack_fields_pack (st : BinaryStruct) (d : dict) (bs : bytes) (acc : dict) :
  asserted_ok st →
  struct_pack st d = Ok bs →
  struct_unpack_fields st bs acc = Ok (struct_image st d acc).
Proof.
  revert bs acc. induction st as [|[fs bo] st IH]; intros bs acc Hok; cbn.
  - by intros _.
  - apply Forall_cons_1 in Hok as [Ha Hok]. cbn in Ha.
    destruct (match fs with Pad n => _ | _ => _ end) as [b|] eqn:Hb; [|done]. cbn.
    destruct (struct_pack st d) as [rest|] eqn:Hrest; [|done]. cbn.
    intros [= <-].
    assert (length b = field_size fs) as Hlen.
    { destruct fs as [name f|name f a|n]; cbn.
      + destruct (d !! name); [|done]. by eapply pack_value_length.
      + by eapply pack_value_length.
      + injection Hb as <-. apply length_replicate. }
    rewrite <- Hlen, take_app_length, drop_app_length.
    destruct fs as [name f|name f a|n].
    + destruct (d !! name) as [v|] eqn:Hv; [|done]. cbn.
      rewrite (unpack_pack_value _ _ _ _ Hb). by apply IH.
    + rewrite (unpack_pack_value _ _ _ _ Hb), Ha. by apply IH.
    + by apply IH.
Qed.

Lemma struct_unpack_pack (st : BinaryStruct) (d : dict) (bs : bytes) :
  asserted_ok st →
  struct_pack st d = Ok bs →
  struct_unpack st bs = Ok (struct_image st d ∅).
Proof.
  intros Hok Hpack. unfold struct_unpack.
  rewrite (struct_pack_length _ _ _ Hpack), bool_decide_eq_true_2 by done.
  by apply struct_unpack_fields_pack.
Qed.

(** Reading a packed struct back from a buffer that holds it at the
    current position. *)
Lemma BinaryStruct_unpack_pack (st : BinaryStruct) (d : dict) (bs pre post : bytes) :
  asserted_ok st →
  struct_pack st d = Ok bs →
  BinaryStruct_unpack st (mkBytesIO (pre ++ bs ++ post) (length pre))
  = Ok (struct_image st d ∅, mkBytesIO (pre ++ bs ++ post) (length pre + length bs)).
Proof.
  intros Hok Hpack. unfold BinaryStruct_unpack, bio_read. cbn [getvalue tell].
  pose proof (struct_pack_length _ _ _ Hpack) as Hlen.
  rewrite drop_app_length. unfold struct_size.
  destruct (Z.of_nat (struct_size_nat st) <? 0) eqn:Hneg; [lia|].
  rewrite Nat2Z.id, <- Hlen, take_app_length.
  by rewrite (struct_unpack_pack _ _ _ Hok Hpack).
Qed.

End struct_lemmas.

Section struct_lemmas_2.
Context `{!TextCodec}.

Lemma struct_pack_app (st1 st2 : BinaryStruct) (d : dict) (bs : bytes) :
  struct_pack (st1 ++ st2) d = Ok bs →
  ∃ b1 b2, struct_pack st1 d = Ok b1 ∧ struct_pack st2 d = Ok b2 ∧ bs = b1 ++ b2.
Proof.
  revert bs. induction st1 as [|[fs bo] st1 IH]; intros bs; cbn.
  - intros Hp. by exists [], bs.
  - destruct (match fs with Pad n => _ | _ => _ end) as [b|]; [|done]. cbn.
    destruct (struct_pack (st1 ++ st2) d) as [rest|] eqn:Hrest; [|done]. cbn.
    intros [= <-]. destruct (IH _ eq_refl) as (b1 & b2 & -> & -> & ->).
    exists (b ++ b1), b2. cbn. by rewrite app_assoc.
Qed.

Lemma struct_pack_app_2 (st1 st2 : BinaryStruct) (d : dict) (b1 b2 : bytes) :
  struct_pack st1 d = Ok b1 → struct_pack st2 d = Ok b2 →
  struct_pack (st1 ++ st2) d = Ok (b1 ++ b2).
Proof.
  revert b1. induction st1 as [|[fs bo] st1 IH]; intros b1; cbn.
  - by intros [= <-].
  - destruct (match fs with Pad n => _ | _ => _ end) as [b|]; [|done]. cbn.
    destruct (struct_pack st1 d) as [rest|] eqn:Hrest; [|done]. cbn.
    intros [= <-] H2. rewrite (IH _ eq_refl H2). cbn. by rewrite app_assoc.
Qed.

Lemma BinaryStruct_unpack_at (st : BinaryStruct) (d : dict) (bs content pre post : bytes)
    (pos : nat) :
  asserted_ok st →
  struct_pack st d = Ok bs →
  content = pre ++ bs ++ post →
  pos = length pre →
  BinaryStruct_unpack st (mkBytesIO content pos)
  = Ok (struct_image st d ∅, mkBytesIO content (pos + struct_size_nat st)).
Proof.
  intros Hok Hpack -> ->.
  rewrite (BinaryStruct_unpack_pack _ _ _ _ _ Hok Hpack).
  by rewrite (struct_pack_length _ _ _ Hpack).
Qed.

Lemma asserted_ok_BND4_start :
  asserted_ok (new_BinaryStruct BND4_HEADER_STRUCT_START LittleEndian).
Proof. repeat constructor. Qed.

Lemma asserted_ok_BND4_endian (bo : byte_order) :
  asserted_ok (new_BinaryStruct BND4_HEADER_STRUCT_ENDIAN bo).
Proof. repeat constructor. Qed.

Lemma asserted_ok_BND3_start :
  asserted_ok (new_BinaryStruct BND3_HEADER_STRUCT_START LittleEndian).
Proof. repeat constructor. Qed.

Lemma asserted_ok_BND3_endian (bo : byte_order) :
  asserted_ok (new_BinaryStruct BND3_HEADER_STRUCT_ENDIAN bo).
Proof. repeat constructor. Qed.

End struct_lemmas_2.

(** ** The header checks of [BND4.unpack] *)

Section unpack_header.
Context `{!MagicRules, !Zlib, !TextCodec}.

Lemma unpack_more_fields_run (fields : list field_spec) (bo : byte_order)
    (buffer : BytesIO) (s : state) (st : BinaryStruct) :
  header_struct (self s) = Some st →
  unpack_more_fields fields bo buffer s
  = (BinaryStruct_unpack (new_BinaryStruct fields bo) buffer,
     mkState (set_header_struct (Some (add_fields st fields bo)) (self s)) (log s)).
Proof.
  intros Hst. unfold unpack_more_fields.
  rewrite bind_get_self, bind_lift, Hst. reflexivity.
Qed.

Lemma BND4_start_image (flag1 flag2 utf16 : bool) (marker count ehsz doff m t o : Z)
    (sig : bytes) :
  struct_image (new_BinaryStruct BND4_HEADER_STRUCT_START LittleEndian)
    (BND4_file_header_dict flag1 flag2 marker count sig ehsz doff utf16 m t o) ∅
  = <["big_endian" := VInt marker]>
      (<["flag2" := VBool flag2]>
         (<["flag1" := VBool flag1]> {["version" := VBytes (b_ "BND4")]})).
Proof.
  cbn [struct_image new_BinaryStruct BND4_HEADER_STRUCT_START fmap list_fmap].
  unfold BND4_file_header_dict. by simplify_map_eq.
Qed.

Lemma BND4_endian_image (flag1 flag2 utf16 : bool) (marker count ehsz doff m t o : Z)
    (sig : bytes) (bo : byte_order) :
  struct_image (new_BinaryStruct BND4_HEADER_STRUCT_ENDIAN bo)
    (BND4_file_header_dict flag1 flag2 marker count sig ehsz doff utf16 m t o) ∅
  = <["hash_table_offset" := VInt o]>
      (<["hash_table_type" := VInt t]>
         (<["magic" := VInt m]>
            (<["utf16_paths" := VBool utf16]>
               (<["data_offset" := VInt doff]>
                  (<["entry_header_size" := VInt ehsz]>
                     (<["signature" := VBytes (pad_to 8 sig)]>
                        (<["header_size" := VInt 64]>
                           {["entry_count" := VInt count]}))))))).
Proof.
  cbn [struct_image new_BinaryStruct BND4_HEADER_STRUCT_ENDIAN fmap list_fmap].
  unfold BND4_file_header_dict. by simplify_map_eq.
Qed.

(** [BND4.unpack] up to the header checks, on a buffer that starts with
    a header packed from [d]. *)
Lemma BND4_unpack_header_run_gen (d : dict) (flag1 flag2 utf16 : bool)
    (marker count ehsz doff m t o : Z) (sigb hb rest : bytes) (sg : pystr) (s : state) :
  bytes_decode (b_ "BND4") = Ok BND4_VERSION →
  bytes_decode (rstrip_nul sigb) = Ok sg →
  struct_pack (BND4_file_header_struct marker) d = Ok hb →
  struct_image (new_BinaryStruct BND4_HEADER_STRUCT_START LittleEndian) d ∅
  = <["big_endian" := VInt marker]>
      (<["flag2" := VBool flag2]>
         (<["flag1" := VBool flag1]> {["version" := VBytes (b_ "BND4")]})) →
  struct_image
    (new_BinaryStruct BND4_HEADER_STRUCT_ENDIAN (order_of (marker =? 0x00000100))) d ∅
  = <["hash_table_offset" := VInt o]>
      (<["hash_table_type" := VInt t]>
         (<["magic" := VInt m]>
            (<["utf16_paths" := VBool utf16]>
               (<["data_offset" := VInt doff]>
                  (<["entry_header_size" := VInt ehsz]>
                     (<["signature" := VBytes sigb]>
                        (<["header_size" := VInt 64]>
                           {["entry_count" := VInt count]}))))))) →
  ∃ header : dict,
    getint header "entry_header_size" = Ok ehsz
    ∧ getint header "entry_count" = Ok count
    ∧ getint header "data_offset" = Ok doff
    ∧ BND4_unpack (mkBytesIO (hb ++ rest) 0) s
      = ((if negb (ehsz =? header_size m)
          then raise (ValueError "Expected BND entry header size based on magic, but BND header says otherwise.")
          else mret ());;
         (if negb (t =? 4) && negb (o =? 0)
          then warning "Found non-zero hash table offset, but header says this BND has no hash table."
          else mret ());;
         BND4_unpack_entries header (mkBytesIO (hb ++ rest) 64)
           (order_of (marker =? 0x00000100))
           (BND4_path_encoding (marker =? 0x00000100) utf16))
          (mkState (BND4_after_header flag1 flag2 marker sg utf16 m t o (self s)) (log s)).
Proof.
  intros Hver Hsig Hpack Himg1 Himg2.
  apply struct_pack_app in Hpack as (b1 & b2 & Hp1 & Hp2 & ->).
  pose proof (struct_pack_length _ _ _ Hp1) as Hl1.
  eexists. split; [|split; [|split]]; cycle 3.
  - unfold BND4_unpack. rewrite bind_update, bind_lift.
    erewrite (BinaryStruct_unpack_at _ _ b1 _ [] (b2 ++ rest));
      [|apply asserted_ok_BND4_start|exact Hp1|by rewrite <- app_assoc|done].
    rewrite Himg1.
    set (h1 := <["big_endian" := _]> _).
    rewrite bind_lift.
    assert (getbytes h1 "version" = Ok (b_ "BND4")) as -> by done.
    cbn [mbind result_bind]. rewrite Hver.
    unfold check_version. rewrite bool_decide_eq_false_2 by (by intros []).
    rewrite bind_ret, bind_lift.
    assert (getitem h1 "flag1" = Ok (VBool flag1)) as -> by done.
    rewrite bind_update, bind_lift.
    assert (getitem h1 "flag2" = Ok (VBool flag2)) as -> by done.
    rewrite bind_update, bind_lift.
    assert (getint h1 "big_endian" = Ok marker) as -> by done.
    rewrite bind_update. cbn [self log truthy].
    rewrite bind_run. erewrite unpack_more_fields_run by reflexivity.
    erewrite (BinaryStruct_unpack_at _ _ b2 _ b1 rest);
      [|apply asserted_ok_BND4_endian|exact Hp2|by rewrite <- app_assoc|by rewrite Hl1].
    rewrite Himg2.
    set (h2 := <["hash_table_offset" := _]> _).
    rewrite bind_lift.
    assert (getbytes (h2 ∪ h1) "signature" = Ok sigb) as -> by done.
    cbn [mbind result_bind]. rewrite Hsig.
    rewrite bind_update, bind_lift.
    assert (getint (h2 ∪ h1) "magic" = Ok m) as -> by done.
    rewrite bind_update, bind_lift.
    assert (getitem (h2 ∪ h1) "utf16_paths" = Ok (VBool utf16)) as -> by done.
    rewrite bind_update, bind_lift.
    assert (getint (h2 ∪ h1) "hash_table_type" = Ok t) as -> by done.
    rewrite bind_update, bind_lift.
    assert (getint (h2 ∪ h1) "hash_table_offset" = Ok o) as -> by done.
    rewrite bind_update, bind_lift.
    assert (getint (h2 ∪ h1) "entry_header_size" = Ok ehsz) as -> by done.
    cbn [self log truthy].
    reflexivity.
  - done.
  - done.
  - done.
Qed.

Lemma BND4_unpack_header_run (flag1 flag2 utf16 : bool) (marker count ehsz doff m t o : Z)
    (sig hb rest : bytes) (sg : pystr) (s : state) :
  bytes_decode (b_ "BND4") = Ok BND4_VERSION →
  bytes_decode (rstrip_nul (pad_to 8 sig)) = Ok sg →
  struct_pack (BND4_file_header_struct marker)
    (BND4_file_header_dict flag1 flag2 marker count sig ehsz doff utf16 m t o) = Ok hb →
  ∃ header : dict,
    getint header "entry_header_size" = Ok ehsz
    ∧ getint header "entry_count" = Ok count
    ∧ getint header "data_offset" = Ok doff
    ∧ BND4_unpack (mkBytesIO (hb ++ rest) 0) s
      = ((if negb (ehsz =? header_size m)
          then raise (ValueError "Expected BND entry header size based on magic, but BND header says otherwise.")
          else mret ());;
         (if negb (t =? 4) && negb (o =? 0)
          then warning "Found non-zero hash table offset, but header says this BND has no hash table."
          else mret ());;
         BND4_unpack_entries header (mkBytesIO (hb ++ rest) 64)
           (order_of (marker =? 0x00000100))
           (BND4_path_encoding (marker =? 0x00000100) utf16))
          (mkState (BND4_after_header flag1 flag2 marker sg utf16 m t o (self s)) (log s)).
Proof.
  intros Hver Hsig Hpack.
  eapply BND4_unpack_header_run_gen; [done|done|done|..].
  - apply BND4_start_image.
  - apply BND4_endian_image.
Qed.

(** C7: on a buffer that starts with a BND4 header, [unpack] raises
    [ValueError] (and adds no entry, logs nothing) when the declared entry
    header size differs from [header_size(magic)]; when the size agrees and
    a non-zero hash table offset comes with [hash_table_type != 4], it logs
    the warning and goes on with the entry table. *)
Theorem C7_unpack_checks (flag1 flag2 utf16 : bool) (marker count ehsz doff m t o : Z)
    (sig hb rest : bytes) (sg : pystr) (s : state) :
  bytes_decode (b_ "BND4") = Ok BND4_VERSION →
  bytes_decode (rstrip_nul (pad_to 8 sig)) = Ok sg →
  struct_pack (BND4_file_header_struct marker)
    (BND4_file_header_dict flag1 flag2 marker count sig ehsz doff utf16 m t o) = Ok hb →
  let after := BND4_after_header flag1 flag2 marker sg utf16 m t o (self s) in
  _entries after = _entries (self s)
  ∧ (ehsz ≠ header_size m →
     BND4_unpack (mkBytesIO (hb ++ rest) 0) s
     = (Raise (ValueError "Expected BND entry header size based on magic, but BND header says otherwise."),
        mkState after (log s)))
  ∧ (ehsz = header_size m → t ≠ 4 → o ≠ 0 →
     ∃ header : dict,
       getint header "entry_header_size" = Ok ehsz
       ∧ getint header "entry_count" = Ok count
       ∧ BND4_unpack (mkBytesIO (hb ++ rest) 0) s
         = BND4_unpack_entries header (mkBytesIO (hb ++ rest) 64)
             (order_of (marker =? 0x00000100))
             (BND4_path_encoding (marker =? 0x00000100) utf16)
             (mkState after
                (log s ++ ["Found non-zero hash table offset, but header says this BND has no hash table."]))).
Proof.
  intros Hver Hsig Hpack after.
  destruct (BND4_unpack_header_run _ _ _ _ _ _ _ _ _ _ _ _ rest _ s Hver Hsig Hpack)
    as (header & Hsize & Hcount & Hdoff & Hrun).
  split; [done|]. split.
  - intros Hne. rewrite Hrun.
    apply Z.eqb_neq in Hne. by rewrite Hne.
  - intros Heq Ht Ho. exists header. split; [done|]. split; [done|].
    rewrite Hrun. apply Z.eqb_eq in Heq. apply Z.eqb_neq in Ht, Ho.
    by rewrite Heq, Ht, Ho.
Qed.

End unpack_header.

(** ** What a failed [unpack] leaves behind *)

Section unpack_errors.
Context `{!MagicRules, !Zlib, !TextCodec}.

Lemma quiet_lift {A} (r : result A) : quiet (lift r).
Proof. by intros s. Qed.

Lemma quiet_raise {A} (e : exn) : quiet (@raise A e).
Proof. by intros s. Qed.

Lemma quiet_ret {A} (a : A) : quiet (mret a : M A).
Proof. by intros s. Qed.

Lemma quiet_warning (msg : string) : quiet (warning msg).
Proof. by intros s. Qed.

Lemma quiet_get_self : quiet get_self.
Proof. by intros s. Qed.

Lemma quiet_update (f : BND → BND) :
  (∀ b, _entries (f b) = _entries b) → quiet (update f).
Proof. intros Hf s. apply Hf. Qed.

Lemma quiet_bind {A B} (m : M A) (k : A → M B) :
  quiet m → (∀ a, quiet (k a)) → quiet (m ≫= k).
Proof.
  intros Hm Hk s. rewrite bind_run. specialize (Hm s).
  destruct (m s) as [[a|e] s1]; cbn in *; [|done].
  by rewrite Hk.
Qed.

Lemma quiet_check_version (v w : pystr) : quiet (check_version v w).
Proof. unfold check_version. case_bool_decide; by intros s. Qed.

Lemma quiet_unpack_more_fields (fields : list field_spec) (bo : byte_order)
    (buffer : BytesIO) : quiet (unpack_more_fields fields bo buffer).
Proof.
  unfold unpack_more_fields.
  apply quiet_bind; [apply quiet_get_self|]. intros b.
  apply quiet_bind; [apply quiet_lift|]. intros st.
  apply quiet_bind; [by apply quiet_update|]. intros _. apply quiet_lift.
Qed.

Lemma early_or_late_quiet {A} (m : M A) : quiet m → early_or_late m.
Proof.
  intros Hm s. rewrite Hm. split; [|done]. exists []. by rewrite app_nil_r.
Qed.

Lemma early_or_late_bind_quiet {A B} (m : M A) (k : A → M B) :
  quiet m → (∀ a s, fst (m s) = Ok a → early_or_late (k a)) → early_or_late (m ≫= k).
Proof.
  intros Hm Hk s. rewrite bind_run. specialize (Hm s).
  pose proof (λ a, Hk a s) as Hk'.
  destruct (m s) as [[a|e] s1]; cbn in *.
  - rewrite <- Hm. by apply Hk'.
  - rewrite Hm. split; [|done]. exists []. by rewrite app_nil_r.
Qed.

Lemma early_or_late_bind_late {A B} (m : M A) (k : A → M B) :
  early_or_late m → (∀ a, appends (k a)) → (∀ a, raises_only late_errors (k a)) →
  early_or_late (m ≫= k).
Proof.
  intros Hm Hk Hr s. rewrite bind_run. destruct (Hm s) as [[added Ha] He].
  destruct (m s) as [[a|e] s1] eqn:Hms; cbn in *.
  - destruct (Hk a s1) as [added' Ha']. split.
    + exists (added ++ added'). by rewrite Ha', Ha, app_assoc.
    + intros e Hraise Hlate. by apply Hr in Hraise.
  - split; [by exists added|]. intros e' [= <-]. apply He. done.
Qed.

Lemma appends_quiet {A} (m : M A) : quiet m → appends m.
Proof. intros Hm s. exists []. by rewrite Hm, app_nil_r. Qed.

Lemma appends_bind {A B} (m : M A) (k : A → M B) :
  appends m → (∀ a, appends (k a)) → appends (m ≫= k).
Proof.
  intros Hm Hk s. rewrite bind_run. destruct (Hm s) as [added Ha].
  destruct (m s) as [[a|e] s1]; cbn in *; [|by exists added].
  destruct (Hk a s1) as [added' Ha']. exists (added ++ added').
  by rewrite Ha', Ha, app_assoc.
Qed.

Lemma raises_only_bind {A B} (allowed : list exn) (m : M A) (k : A → M B) :
  raises_only allowed m → (∀ a, raises_only allowed (k a)) →
  raises_only allowed (m ≫= k).
Proof.
  intros Hm Hk s e. rewrite bind_run. specialize (Hm s).
  destruct (m s) as [[a|e'] s1]; cbn in *; [apply Hk|].
  intros [= <-]. by apply Hm.
Qed.

Lemma raises_only_update (allowed : list exn) (f : BND → BND) :
  raises_only allowed (update f).
Proof. by intros s e. Qed.

Lemma raises_only_ret {A} (allowed : list exn) (a : A) :
  raises_only allowed (mret a : M A).
Proof. by intros s e. Qed.

Lemma raises_only_get_self (allowed : list exn) : raises_only allowed get_self.
Proof. by intros s e. Qed.

Lemma raises_only_warning (allowed : list exn) (msg : string) :
  raises_only allowed (warning msg).
Proof. by intros s e. Qed.

Lemma entries_by_id_loop_error (es : list BNDEntry) (acc : gmap (option Z) BNDEntry) (e : exn) :
  entries_by_id_loop es acc = Raise e →
  e = BNDError "There are multiple entries with the same ID.".
Proof.
  revert acc. induction es as [|x es IH]; intros acc; cbn; [done|].
  case_bool_decide; [by intros [= <-] | apply IH].
Qed.

Lemma add_entry_appends (entry : BNDEntry) : appends (add_entry entry).
Proof.
  intros s. unfold add_entry. rewrite bind_get_self.
  case_bool_decide; [exists []; by rewrite app_nil_r|].
  rewrite bind_lift. destruct (entries_by_id (self s)); [|exists []; by rewrite app_nil_r].
  case_bool_decide; exists [entry]; reflexivity.
Qed.

Lemma add_entry_raises (entry : BNDEntry) : raises_only late_errors (add_entry entry).
Proof.
  intros s e. unfold add_entry. rewrite bind_get_self.
  case_bool_decide; [intros [= <-]; set_solver|].
  rewrite bind_lift. destruct (entries_by_id (self s)) as [m|e'] eqn:Hby.
  - case_bool_decide; done.
  - apply entries_by_id_loop_error in Hby as ->. intros [= <-]. set_solver.
Qed.

Lemma for_each_add_entry_appends (es : list BNDEntry) : appends (for_each add_entry es).
Proof.
  induction es as [|e es IH]; cbn [for_each].
  - apply appends_quiet, quiet_ret.
  - apply appends_bind; [apply add_entry_appends | done].
Qed.

Lemma for_each_add_entry_raises (es : list BNDEntry) :
  raises_only late_errors (for_each add_entry es).
Proof.
  induction es as [|e es IH]; cbn [for_each].
  - apply raises_only_ret.
  - apply raises_only_bind; [apply add_entry_raises | done].
Qed.

Lemma early_or_late_late {A} (m : M A) :
  appends m → raises_only late_errors m → early_or_late m.
Proof.
  intros Ha Hr s. split; [apply Ha|]. intros e He Hlate. by apply Hr in He.
Qed.

Ltac quiet_step :=
  first
    [ apply quiet_lift | apply quiet_raise | apply quiet_ret | apply quiet_warning
    | apply quiet_get_self | apply quiet_check_version | apply quiet_unpack_more_fields
    | (apply quiet_update; intros; reflexivity)
    | (match goal with |- quiet (if ?c then _ else _) => destruct c end; quiet_step) ].

Ltac early_steps :=
  repeat (apply early_or_late_bind_quiet;
          [quiet_step
          |intros ? ? ?;
           try match goal with a : (dict * BytesIO)%type |- _ => destruct a end]).

Lemma BND3_unpack_early_or_late (buffer : BytesIO) : early_or_late (BND3_unpack buffer).
Proof.
  unfold BND3_unpack. early_steps.
  apply early_or_late_late;
    [apply for_each_add_entry_appends | apply for_each_add_entry_raises].
Qed.

Lemma BND4_endian_has_data_offset (bo : byte_order) (buffer buffer' : BytesIO) (more : dict) :
  BinaryStruct_unpack (new_BinaryStruct BND4_HEADER_STRUCT_ENDIAN bo) buffer
  = Ok (more, buffer') →
  ∃ z, more !! "data_offset" = Some (VInt z).
Proof.
  unfold BinaryStruct_unpack, struct_unpack.
  destruct (bio_read _ _) as [data buf]. case_bool_decide; [|done].
  cbn [struct_unpack_fields new_BinaryStruct BND4_HEADER_STRUCT_ENDIAN fmap list_fmap
       mbind result_bind fst].
  destruct (py_eq _ _); [|done]. intros [= <- <-].
  eexists. by simplify_map_eq.
Qed.

Lemma BND4_unpack_entries_early_or_late (header : dict) (buffer : BytesIO)
    (bo : byte_order) (enc : string) (z : Z) :
  getint header "data_offset" = Ok z →
  early_or_late (BND4_unpack_entries header buffer bo enc).
Proof.
  intros Hdoff. unfold BND4_unpack_entries. early_steps.
  apply early_or_late_bind_late.
  - apply early_or_late_late;
      [apply for_each_add_entry_appends | apply for_each_add_entry_raises].
  - intros _. apply appends_quiet.
    apply quiet_bind; [quiet_step|]. intros b.
    apply quiet_bind; [|intros; quiet_step].
    destruct (hash_table_type b =? 4); [|quiet_step].
    apply quiet_bind; [quiet_step|]. intros ?.
    apply quiet_bind; [quiet_step|]. intros ?. quiet_step.
  - intros _. apply raises_only_bind; [apply raises_only_get_self|]. intros b.
    apply raises_only_bind; [|intros; apply raises_only_update].
    destruct (hash_table_type b =? 4); [|apply raises_only_ret].
    apply raises_only_bind.
    + intros st ex. unfold bio_seek, lift. cbn.
      destruct (hash_table_offset b <? 0); [|done]. intros [= <-]. set_solver.
    + intros ?. rewrite Hdoff. apply raises_only_bind; [by intros st ex|].
      intros ?. apply raises_only_update.
Qed.

Lemma BND4_unpack_early_or_late (buffer : BytesIO) : early_or_late (BND4_unpack buffer).
Proof.
  unfold BND4_unpack.
  do 10 (apply early_or_late_bind_quiet;
        [quiet_step
        |intros ? ? ?;
         try match goal with a : (dict * BytesIO)%type |- _ => destruct a end]).
  apply early_or_late_bind_quiet; [quiet_step|].
  intros [more buffer'] st Hmore.
  assert (∃ z, more !! "data_offset" = Some (VInt z)) as [z Hz].
  { unfold unpack_more_fields in Hmore.
    rewrite bind_get_self, bind_lift in Hmore.
    destruct (the_struct _); [|done]. rewrite bind_update in Hmore.
    by apply BND4_endian_has_data_offset in Hmore. }
  do 13 (apply early_or_late_bind_quiet; [quiet_step | intros ? ? ?]).
  apply (BND4_unpack_entries_early_or_late _ _ _ _ z).
  unfold getint, getitem. by rewrite (lookup_union_Some_l _ _ _ _ Hz).
Qed.







End unpack_errors.

(** ** The hash table builder *)

Lemma insert_sorted_Forall {A} (leb : A → A → bool) (P : A → Prop) (x : A) (l : list A) :
  P x → Forall P l → Forall P (insert_sorted leb x l).
Proof.
  intros Hx. induction 1 as [|y l Hy Hl IH]; cbn.
  - by constructor.
  - destruct (leb x y); repeat constructor; auto.
Qed.

Lemma stable_sort_cons {A} (leb : A → A → bool) (x : A) (l : list A) :
  stable_sort leb (x :: l) = insert_sorted leb x (stable_sort leb l).
Proof. reflexivity. Qed.

Lemma stable_sort_Forall {A} (leb : A → A → bool) (P : A → Prop) (l : list A) :
  Forall P l → Forall P (stable_sort leb l).
Proof.
  induction 1 as [|x l Hx Hl IH]; [constructor|].
  rewrite stable_sort_cons. by apply insert_sorted_Forall.
Qed.

Lemma insert_sorted_length {A} (leb : A → A → bool) (x : A) (l : list A) :
  length (insert_sorted leb x l) = S (length l).
Proof. induction l as [|y l IH]; cbn; [done|]. destruct (leb x y); cbn; auto. Qed.

Lemma stable_sort_length {A} (leb : A → A → bool) (l : list A) :
  length (stable_sort leb l) = length l.
Proof.
  induction l as [|x l IH]; [done|].
  by rewrite stable_sort_cons, insert_sorted_length, IH.
Qed.

Lemma insert_sorted_Permutation {A} (leb : A → A → bool) (x : A) (l : list A) :
  insert_sorted leb x l ≡ₚ x :: l.
Proof.
  induction l as [|y l IH]; cbn; [done|].
  destruct (leb x y); [done|]. rewrite IH. apply Permutation_swap.
Qed.

Lemma stable_sort_Permutation {A} (leb : A → A → bool) (l : list A) :
  stable_sort leb l ≡ₚ l.
Proof.
  induction l as [|x l IH]; [done|].
  by rewrite stable_sort_cons, insert_sorted_Permutation, IH.
Qed.

(** The sort sorts: for a total and transitive comparison the result is
    ascending. *)
Lemma insert_sorted_sorted {A} (leb : A → A → bool) (x : A) (l : list A) :
  (∀ a b, leb a b = false → leb b a = true) →
  (∀ a b c, leb a b = true → leb b c = true → leb a c = true) →
  StronglySorted (λ a b, leb a b = true) l →
  StronglySorted (λ a b, leb a b = true) (insert_sorted leb x l).
Proof.
  intros Htotal Htrans. induction 1 as [|y l Hl IH Hy]; cbn.
  - repeat constructor.
  - destruct (leb x y) eqn:Hxy.
    + constructor; [by constructor|]. constructor; [done|].
      eapply Forall_impl; [exact Hy|]. intros z Hz. by eapply Htrans.
    + constructor; [done|]. apply insert_sorted_Forall; [by apply Htotal|done].
Qed.

Lemma stable_sort_sorted {A} (leb : A → A → bool) (l : list A) :
  (∀ a b, leb a b = false → leb b a = true) →
  (∀ a b c, leb a b = true → leb b c = true → leb a c = true) →
  StronglySorted (λ a b, leb a b = true) (stable_sort leb l).
Proof.
  intros Htotal Htrans. induction l as [|x l IH]; [constructor|].
  rewrite stable_sort_cons. by apply insert_sorted_sorted.
Qed.

Lemma StronglySorted_distinct {A B} (R R' : A → A → Prop) (f : A → B) (l : list A) :
  (∀ x y, R x y → f x ≠ f y → R' x y) →
  NoDup (f <$> l) → StronglySorted R l → StronglySorted R' l.
Proof.
  intros Himpl Hnd Hs. induction Hs as [|x l Hl IH Hx]; [constructor|].
  rewrite fmap_cons in Hnd. apply NoDup_cons in Hnd as [Hx' Hnd].
  constructor; [by apply IH|].
  apply Forall_forall. intros y Hy. apply Himpl.
  - by eapply Forall_forall in Hx.
  - intros Heq. apply Hx'. rewrite Heq. apply list_elem_of_fmap. by exists y.
Qed.

Lemma StronglySorted_lt_NoDup {A} (f : A → Z) (l : list A) :
  StronglySorted (λ x y, f x < f y) l → NoDup (f <$> l).
Proof.
  induction 1 as [|x l Hl IH Hx]; [constructor|].
  rewrite fmap_cons. constructor; [|done].
  intros (y & Heq & Hy)%list_elem_of_fmap.
  eapply Forall_forall in Hx; [|exact Hy]. lia.
Qed.

Lemma pair_leb_total (a b : Z * Z) : pair_leb a b = false → pair_leb b a = true.
Proof.
  unfold pair_leb.
  destruct (fst a <? fst b) eqn:H1, (fst a =? fst b) eqn:H2, (snd a <=? snd b) eqn:H3,
    (fst b <? fst a) eqn:H4, (fst b =? fst a) eqn:H5, (snd b <=? snd a) eqn:H6;
    try done; lia.
Qed.

Lemma pair_leb_trans (a b c : Z * Z) :
  pair_leb a b = true → pair_leb b c = true → pair_leb a c = true.
Proof.
  unfold pair_leb.
  destruct (fst a <? fst b) eqn:H1, (fst a =? fst b) eqn:H2, (snd a <=? snd b) eqn:H3,
    (fst b <? fst c) eqn:H4, (fst b =? fst c) eqn:H5, (snd b <=? snd c) eqn:H6,
    (fst a <? fst c) eqn:H7, (fst a =? fst c) eqn:H8, (snd a <=? snd c) eqn:H9;
    try done; lia.
Qed.

(** Sorting the tuples is sorting by hash value, stably, because the entry
    indices of a bucket ascend. *)
Lemma insert_sorted_pair_hash (x : Z * Z) (l : list (Z * Z)) :
  Forall (λ y, snd x < snd y) l →
  insert_sorted pair_leb x l = insert_sorted hash_leb x l.
Proof.
  induction 1 as [|y l Hy Hl IH]; cbn; [done|].
  assert (pair_leb x y = hash_leb x y) as ->.
  { unfold pair_leb, hash_leb.
    destruct (fst x <? fst y) eqn:H1, (fst x =? fst y) eqn:H2,
      (snd x <=? snd y) eqn:H3, (fst x <=? fst y) eqn:H4; try done; lia. }
  by rewrite IH.
Qed.

Lemma stable_sort_pair_hash (l : list (Z * Z)) :
  StronglySorted (λ x y, snd x < snd y) l →
  stable_sort pair_leb l = stable_sort hash_leb l.
Proof.
  induction 1 as [|x l Hl IH Hx]; [done|].
  rewrite !stable_sort_cons, IH. apply insert_sorted_pair_hash.
  by apply stable_sort_Forall.
Qed.

Lemma enumerate_from_fst_ge {A} (k : Z) (l : list A) :
  Forall (λ ie, k ≤ fst ie) (enumerate_from k l).
Proof.
  revert k. induction l as [|x l IH]; intros k; cbn; constructor; [cbn; lia|].
  eapply Forall_impl; [apply IH|]. cbn. intros; lia.
Qed.

Lemma entry_hashes_sorted_from (k : Z) (es : list BNDEntry) :
  StronglySorted (λ x y : Z * Z, snd x < snd y)
    ((λ ie, (path_hash (default [] (path (snd ie))), fst ie)) <$> enumerate_from k es).
Proof.
  revert k. induction es as [|e es IH]; intros k; cbn; constructor; [apply IH|].
  apply Forall_fmap. eapply Forall_impl; [apply (enumerate_from_fst_ge (k + 1))|].
  cbn. intros; lia.
Qed.

Lemma StronglySorted_filter {A} (R : A → A → Prop) (P : A → Prop)
    `{!∀ x, Decision (P x)} (l : list A) :
  StronglySorted R l → StronglySorted R (filter P l).
Proof.
  induction 1 as [|x l Hl IH Hx]; [constructor|].
  rewrite filter_cons. destruct (decide (P x)); [|done].
  constructor; [done|]. apply Forall_forall. intros y [_ Hy]%list_elem_of_filter.
  by eapply Forall_forall in Hx.
Qed.

Lemma bucket_as_built (g : Z) (es : list BNDEntry) (k : nat) :
  stable_sort pair_leb (filter (λ ph, fst ph `mod` g = Z.of_nat k) (entry_hashes es))
  = bucket g (entry_hashes es) k.
Proof.
  apply stable_sort_pair_hash, StronglySorted_filter, entry_hashes_sorted_from.
Qed.

(** A bucket holds the records of its residue class, ascending by hash
    value and, among equal hash values, in entry order. *)
Lemma bucket_sorted (g : Z) (es : list BNDEntry) (k : nat) :
  bucket g (entry_hashes es) k
  ≡ₚ filter (λ ph, fst ph `mod` g = Z.of_nat k) (entry_hashes es)
  ∧ StronglySorted hash_order (bucket g (entry_hashes es) k).
Proof.
  rewrite <- bucket_as_built.
  set (members := filter _ _).
  assert (StronglySorted (λ x y : Z * Z, snd x < snd y) members) as Hidx.
  { apply StronglySorted_filter, entry_hashes_sorted_from. }
  split; [apply stable_sort_Permutation|].
  apply (StronglySorted_distinct (λ a b, pair_leb a b = true) hash_order snd).
  - intros x y Hle Hne. unfold pair_leb in Hle. unfold hash_order.
    destruct (fst x <? fst y) eqn:H1, (fst x =? fst y) eqn:H2,
      (snd x <=? snd y) eqn:H3; try done; lia.
  - rewrite stable_sort_Permutation. by apply StronglySorted_lt_NoDup.
  - apply stable_sort_sorted; [apply pair_leb_total | apply pair_leb_trans].
Qed.

Lemma fill_hash_lists_spec (g : Z) (indexed : list (Z * BNDEntry))
    (L R : list (list (Z * Z))) :
  0 < g → length L = Z.to_nat g →
  fill_hash_lists g indexed L = Ok R →
  Forall (λ ie, is_Some (path (snd ie))) indexed
  ∧ length R = length L
  ∧ ∀ k l, L !! k = Some l →
           R !! k = Some (l ++ filter (λ ph, fst ph `mod` g = Z.of_nat k)
                                 ((λ ie, (path_hash (default [] (path (snd ie))), fst ie))
                                    <$> indexed)).
Proof.
  intros Hg. revert L.
  induction indexed as [|[i e] rest IH]; intros L HL; cbn [fill_hash_lists].
  - intros [= <-]. split; [constructor|]. split; [done|].
    intros k l Hk. rewrite Hk. f_equal. by rewrite fmap_nil, filter_nil, app_nil_r.
  - destruct (path e) as [p|] eqn:Hp; [|done]. intros Hfill.
    apply IH in Hfill as (Hall & Hlen & Hlook); [|by rewrite length_alter].
    split; [constructor; [cbn; by rewrite Hp|done]|].
    rewrite length_alter in Hlen. split; [done|].
    intros k l Hk. rewrite fmap_cons. cbn [snd fst]. rewrite Hp. cbn [default].
    assert (0 ≤ path_hash p `mod` g < g) as Hmod by (apply Z.mod_pos_bound; lia).
    destruct (decide (Z.to_nat (path_hash p `mod` g) = k)) as [<-|Hne].
    + rewrite (Hlook _ (l ++ [(path_hash p, i)])).
      2:{ by rewrite list_lookup_alter_eq, Hk. }
      rewrite filter_cons_True by (cbn; lia). by rewrite <- app_assoc.
    + rewrite (Hlook _ l) by (by rewrite list_lookup_alter_ne).
      rewrite filter_cons_False by (cbn; lia). done.
Qed.

Lemma fill_hash_lists_buckets (g : Z) (es : list BNDEntry) (R : list (list (Z * Z))) :
  0 < g →
  fill_hash_lists g (enumerate es) (replicate (Z.to_nat g) []) = Ok R →
  Forall (λ e, is_Some (path e)) es
  ∧ stable_sort pair_leb <$> R = buckets g (entry_hashes es).
Proof.
  intros Hg Hfill.
  apply fill_hash_lists_spec in Hfill as (Hall & Hlen & Hlook);
    [|done|by rewrite length_replicate].
  rewrite length_replicate in Hlen. split.
  - clear -Hall. unfold enumerate in Hall. revert Hall. generalize 0.
    induction es as [|e es IH]; intros k; cbn; [constructor|].
    intros [He Hes]%Forall_cons_1. constructor; [done|]. by eapply IH.
  - apply list_eq. intros k. unfold buckets.
    rewrite !list_lookup_fmap.
    destruct (decide (k < Z.to_nat g)%nat) as [Hk|Hk].
    + rewrite (Hlook k []) by (by apply lookup_replicate_2).
      rewrite lookup_seq_lt by done. cbn. f_equal. apply bucket_as_built.
    + rewrite lookup_seq_ge by lia. rewrite (lookup_ge_None_2 R) by lia. done.
Qed.

Section hash_table.
Context `{!TextCodec}.

Lemma pack_hash_group (i l : Z) (bs : bytes) :
  struct_pack HASH_GROUP_STRUCT (<["index" := VInt i]> {["length" := VInt l]}) = Ok bs →
  bs = u32 l ++ u32 i.
Proof.
  cbn [struct_pack HASH_GROUP_STRUCT new_BinaryStruct fmap list_fmap].
  simplify_map_eq. unfold pack_value. cbn [as_index].
  repeat case_bool_decide; try done. cbn. intros [= <-].
  reflexivity.
Qed.

Lemma pack_path_hash (h i : Z) (bs : bytes) :
  struct_pack PATH_HASH_STRUCT
    (<["hashed_value" := VInt h]> {["entry_index" := VInt i]}) = Ok bs →
  bs = u32 h ++ u32 i.
Proof.
  cbn [struct_pack PATH_HASH_STRUCT new_BinaryStruct fmap list_fmap].
  simplify_map_eq. unfold pack_value. cbn [as_index].
  repeat case_bool_decide; try done. cbn. intros [= <-].
  reflexivity.
Qed.

Lemma pack_hash_table_header (off g : Z) (bs : bytes) :
  struct_pack HASH_TABLE_HEADER
    (<["path_hashes_offset" := VInt off]> {["hash_group_count" := VInt g]}) = Ok bs →
  bs = replicate 8 x00 ++ u64 off ++ u32 g ++ u32 0x00080810.
Proof.
  cbn [struct_pack HASH_TABLE_HEADER new_BinaryStruct fmap list_fmap].
  simplify_map_eq. unfold pack_value. cbn [as_index].
  repeat case_bool_decide; try done. cbn. intros [= <-].
  reflexivity.
Qed.

Lemma length_u32 (z : Z) : length (u32 z) = 4%nat.
Proof. apply length_int_to_bytes. Qed.

Lemma length_group_records (start : Z) (hl : list (list (Z * Z))) :
  len (group_records start hl) = 8 * len hl.
Proof.
  revert start. induction hl as [|bk hl IH]; intros start; [done|].
  cbn [group_records]. unfold len in *.
  rewrite !length_app, !length_u32, length_cons.
  specialize (IH (start + Z.of_nat (length bk))). lia.
Qed.

Lemma flatten_hash_lists_groups (hl : list (list (Z * Z))) (total : Z)
    (groups phs : list dict) (pg : bytes) :
  flatten_hash_lists hl total = (groups, phs) →
  struct_pack_multiple HASH_GROUP_STRUCT groups = Ok pg →
  pg = group_records total hl.
Proof.
  revert total groups phs pg. induction hl as [|bk hl IH]; intros total groups phs pg.
  - cbn. by intros [= <- <-] [= <-].
  - cbn [flatten_hash_lists].
    destruct (flatten_hash_lists hl (total + len bk)) as [groups' phs'] eqn:Hrest.
    intros [= <- <-]. cbn [struct_pack_multiple].
    destruct (struct_pack HASH_GROUP_STRUCT _) as [b|] eqn:Hb; [|done].
    cbn [mbind result_bind].
    destruct (struct_pack_multiple HASH_GROUP_STRUCT groups') as [rest|] eqn:Hr; [|done].
    cbn. intros [= <-]. apply pack_hash_group in Hb as ->.
    rewrite (IH _ _ _ _ Hrest Hr). cbn [group_records].
    replace (total + len bk - total) with (len bk) by lia.
    by rewrite <- app_assoc.
Qed.

Lemma flatten_hash_lists_hashes (hl : list (list (Z * Z))) (total : Z)
    (groups phs : list dict) :
  flatten_hash_lists hl total = (groups, phs) →
  phs = (λ ph, <["hashed_value" := VInt (fst ph)]> {["entry_index" := VInt (snd ph)]})
          <$> concat hl.
Proof.
  revert total groups phs. induction hl as [|bk hl IH]; intros total groups phs.
  - cbn. by intros [= <- <-].
  - cbn [flatten_hash_lists].
    destruct (flatten_hash_lists hl (total + len bk)) as [groups' phs'] eqn:Hrest.
    intros [= <- <-]. cbn [concat]. rewrite fmap_app. f_equal. by eapply IH.
Qed.

Lemma pack_path_hashes (l : list (Z * Z)) (ph : bytes) :
  struct_pack_multiple PATH_HASH_STRUCT
    ((λ ph, <["hashed_value" := VInt (fst ph)]> {["entry_index" := VInt (snd ph)]}) <$> l)
  = Ok ph →
  ph = hash_records l.
Proof.
  revert ph. induction l as [|[h i] l IH]; intros ph.
  - cbn. by intros [= <-].
  - rewrite fmap_cons. cbn [struct_pack_multiple fst snd].
    destruct (struct_pack PATH_HASH_STRUCT _) as [b|] eqn:Hb; [|done].
    cbn [mbind result_bind].
    destruct (struct_pack_multiple PATH_HASH_STRUCT _) as [rest|] eqn:Hr; [|done].
    cbn. intros [= <-]. apply pack_path_hash in Hb as ->.
    by rewrite (IH _ eq_refl).
Qed.

Lemma hash_group_count_positive (n g : Z) : hash_group_count n = Ok g → 2 ≤ g.
Proof.
  unfold hash_group_count.
  destruct (list_find _ _) as [[i p]|] eqn:Hfind; [|done]. intros [= <-].
  apply list_find_Some in Hfind as (_ & Hp & _).
  by apply is_prime_correct in Hp as [? _].
Qed.

(** C8 (as amended): the table that [build_hash_table] returns is the
    header (eight pad bytes, the offset [24 + 8 * group_count] of the hash
    array, the group count, the tag [0x00080810]), then one record per
    group written as (length, index of its first hash), then the
    [(hashed_value, entry_index)] pairs bucket by bucket.  There is one
    bucket per residue [k] of the hash value modulo the group count; it
    holds the pairs of that residue, ascending by hash value and, among equal
    hash values, in entry order. *)
Theorem C8_hash_table_layout (b : BND) (table : bytes) :
  build_hash_table b = Ok table →
  ∃ (g : Z) (bs : list (list (Z * Z))),
    hash_group_count (len (_entries b)) = Ok g
    ∧ Forall (λ e, is_Some (path e)) (_entries b)
    ∧ length bs = Z.to_nat g
    ∧ (∀ k bk, bs !! k = Some bk →
         bk ≡ₚ filter (λ ph, fst ph `mod` g = Z.of_nat k) (entry_hashes (_entries b))
         ∧ StronglySorted hash_order bk)
    ∧ table = hash_table_header g ++ group_records 0 bs ++ hash_records (concat bs).
Proof.
  unfold build_hash_table.
  destruct (hash_group_count _) as [g|] eqn:Hg; [|done]. cbn [mbind result_bind].
  pose proof (hash_group_count_positive _ _ Hg) as Hpos.
  destruct (fill_hash_lists _ _ _) as [R|] eqn:Hfill; [|done]. cbn [mbind result_bind].
  apply fill_hash_lists_buckets in Hfill as [Hpaths Hbuckets]; [|lia].
  rewrite Hbuckets.
  destruct (flatten_hash_lists _ 0) as [groups phs] eqn:Hflat.
  destruct (struct_pack_multiple HASH_GROUP_STRUCT groups) as [pg|] eqn:Hpg; [|done].
  cbn [mbind result_bind].
  destruct (struct_pack HASH_TABLE_HEADER _) as [hb|] eqn:Hhb; [|done].
  cbn [mbind result_bind].
  destruct (struct_pack_multiple PATH_HASH_STRUCT phs) as [ph|] eqn:Hph; [|done].
  cbn [mbind result_bind]. intros [= <-].
  exists g, (buckets g (entry_hashes (_entries b))).
  split; [done|]. split; [done|].
  split; [unfold buckets; by rewrite length_fmap, length_seq|].
  split.
  - intros k bk Hk. unfold buckets in Hk.
    apply list_lookup_fmap_Some in Hk as (k' & -> & Hk').
    apply lookup_seq in Hk' as [-> _]. apply bucket_sorted.
  - pose proof (flatten_hash_lists_groups _ _ _ _ _ Hflat Hpg) as ->.
    pose proof (flatten_hash_lists_hashes _ _ _ _ Hflat) as ->.
    apply pack_path_hashes in Hph as ->.
    apply pack_hash_table_header in Hhb as ->.
    rewrite length_group_records.
    unfold hash_table_header.
    rewrite <- !app_assoc. do 2 f_equal.
    unfold len, buckets. rewrite length_fmap, length_seq.
    change (struct_size HASH_TABLE_HEADER) with 24. by rewrite Z2Nat.id by lia.
Qed.

End hash_table.

(** ** Round trip: the pack loops *)

Section round_trip.
Context `{!MagicRules, !Zlib, !TextCodec}.

Lemma describes_extend (m : Z) (enc : string) (pb db : Z) (paths data paths' data' : bytes)
    (d : dict) (e : BNDEntry) :
  describes m enc pb db paths data d e →
  describes m enc pb db (paths ++ paths') (data ++ data') d e.
Proof.
  intros (Hm & Hs & Hi & (pre & post & -> & Hd) & Hp).
  split; [done|]. split; [done|]. split; [done|]. split.
  - exists pre, (post ++ data'). by rewrite <- !app_assoc.
  - destruct (has_path m); [|done].
    destruct Hp as (p & ep & pre' & post' & Hpe & Henc & -> & Hpo).
    exists p, ep, pre', (post' ++ paths'). by rewrite <- !app_assoc.
Qed.

Lemma pack_entry_run (m : Z) (enc : string) (acc acc' : pack_acc) (e : BNDEntry) :
  pack_entry m enc acc e = Ok acc' →
  ∃ d paths',
    entry_header_dicts acc' = entry_header_dicts acc ++ [d]
    ∧ packed_entry_paths acc' = packed_entry_paths acc ++ paths'
    ∧ packed_entry_data acc' = packed_entry_data acc ++ packed_data_of e
    ∧ d !! "entry_magic" = Some (VInt (entry_magic e))
    ∧ d !! "compressed_data_size" = Some (VInt (len (packed_data_of e)))
    ∧ d !! "entry_id" = (if has_id m then Some (id_value (entry_id e)) else None)
    ∧ d !! "data_offset" = Some (VInt (len (packed_entry_data acc)))
    ∧ (if has_path m
       then ∃ p ep, path e = Some p ∧ str_encode p enc = Ok ep ∧ paths' = ep ++ [x00]
                    ∧ d !! "path_offset" = Some (VInt (len (packed_entry_paths acc)))
       else paths' = [] ∧ d !! "path_offset" = None).
Proof.
  unfold pack_entry, packed_data_of, get_data_for_pack, get_packed_path.
  destruct (has_path m) eqn:Hhp.
  - destruct (path e) as [p|] eqn:Hp; [|done]. cbn [mbind result_bind].
    destruct (str_encode p enc) as [ep|] eqn:Hep; [|done]. cbn [mbind result_bind].
    destruct (is_entry_compressed (entry_magic e)) eqn:Hc, (has_id m) eqn:Hid,
      (has_uncompressed_size m) eqn:Hus;
      intros [= <-]; cbn [entry_header_dicts packed_entry_paths packed_entry_data fst];
      eexists _, _; repeat (split; [by simplify_map_eq|]);
      exists p, ep; repeat (split; [by simplify_map_eq|]); by simplify_map_eq.
  - cbn [mbind result_bind].
    destruct (is_entry_compressed (entry_magic e)) eqn:Hc, (has_id m) eqn:Hid,
      (has_uncompressed_size m) eqn:Hus;
      intros [= <-]; cbn [entry_header_dicts packed_entry_paths packed_entry_data fst];
      eexists _, []; rewrite app_nil_r;
      repeat (split; [by simplify_map_eq|]); by simplify_map_eq.
Qed.

Lemma pack_entry_describes (m : Z) (enc : string) (acc acc' : pack_acc) (e : BNDEntry) :
  pack_entry m enc acc e = Ok acc' →
  ∃ d paths', entry_header_dicts acc' = entry_header_dicts acc ++ [d]
    ∧ packed_entry_paths acc' = packed_entry_paths acc ++ paths'
    ∧ packed_entry_data acc' = packed_entry_data acc ++ packed_data_of e
    ∧ describes m enc 0 0 (packed_entry_paths acc') (packed_entry_data acc') d e.
Proof.
  intros (d & paths' & Hd & Hp & Hdata & Hm & Hs & Hi & Ho & Hpath)%pack_entry_run.
  exists d, paths'. split; [done|]. split; [done|]. split; [done|].
  split; [done|]. split; [done|]. split; [done|]. split.
  - exists (packed_entry_data acc), []. rewrite app_nil_r, Z.add_0_r. done.
  - destruct (has_path m); [|by destruct Hpath].
    destruct Hpath as (p & ep & Hpe & Henc & -> & Hpo).
    exists p, ep, (packed_entry_paths acc), [].
    rewrite Z.add_0_r, Hp. done.
Qed.

Lemma pack_loop_describes (step : pack_acc → BNDEntry → result pack_acc)
    (m : Z) (enc : string) (es es0 : list BNDEntry) (acc acc' : pack_acc) :
  (∀ acc acc' e, step acc e = Ok acc' →
     ∃ d paths' data',
       entry_header_dicts acc' = entry_header_dicts acc ++ [d]
       ∧ packed_entry_paths acc' = packed_entry_paths acc ++ paths'
       ∧ packed_entry_data acc' = packed_entry_data acc ++ data'
       ∧ describes m enc 0 0 (packed_entry_paths acc') (packed_entry_data acc') d e) →
  pack_loop step acc es = Ok acc' →
  Forall2 (describes m enc 0 0 (packed_entry_paths acc) (packed_entry_data acc))
    (entry_header_dicts acc) es0 →
  Forall2 (describes m enc 0 0 (packed_entry_paths acc') (packed_entry_data acc'))
    (entry_header_dicts acc') (es0 ++ es).
Proof.
  intros Hstep. revert es0 acc. induction es as [|e es IH]; intros es0 acc; cbn [pack_loop].
  - intros [= <-]. by rewrite app_nil_r.
  - destruct (step acc e) as [acc1|] eqn:Hs1; [|done]. cbn [mbind result_bind].
    intros Hloop Hall.
    destruct (Hstep _ _ _ Hs1) as (d & paths' & data' & Hd & Hp & Hdata & Hdesc).
    replace (es0 ++ e :: es) with ((es0 ++ [e]) ++ es) by (by rewrite <- app_assoc).
    apply (IH _ acc1); [done|]. rewrite Hd.
    apply Forall2_app; [|constructor; [done|constructor]].
    rewrite Hp, Hdata. eapply Forall2_impl; [exact Hall|].
    intros d0 e0. apply describes_extend.
Qed.

Lemma BND4_pack_entry_describes (m : Z) (enc : string) (acc acc' : pack_acc) (e : BNDEntry) :
  BND4_pack_entry m enc acc e = Ok acc' →
  ∃ d paths' data',
    entry_header_dicts acc' = entry_header_dicts acc ++ [d]
    ∧ packed_entry_paths acc' = packed_entry_paths acc ++ paths'
    ∧ packed_entry_data acc' = packed_entry_data acc ++ data'
    ∧ describes m enc 0 0 (packed_entry_paths acc') (packed_entry_data acc') d e.
Proof.
  unfold BND4_pack_entry.
  intros (d & paths' & Hd & Hp & Hdata & Hdesc)%pack_entry_describes.
  cbn [entry_header_dicts packed_entry_paths packed_entry_data] in *.
  exists d, paths', (replicate 10 x00 ++ packed_data_of e).
  rewrite Hdata, <- app_assoc in *. done.
Qed.

Lemma pack_entry_describes' (m : Z) (enc : string) (acc acc' : pack_acc) (e : BNDEntry) :
  pack_entry m enc acc e = Ok acc' →
  ∃ d paths' data',
    entry_header_dicts acc' = entry_header_dicts acc ++ [d]
    ∧ packed_entry_paths acc' = packed_entry_paths acc ++ paths'
    ∧ packed_entry_data acc' = packed_entry_data acc ++ data'
    ∧ describes m enc 0 0 (packed_entry_paths acc') (packed_entry_data acc') d e.
Proof.
  intros (d & paths' & Hd & Hp & Hdata & Hdesc)%pack_entry_describes.
  by exists d, paths', (packed_data_of e).
Qed.

Lemma dict_add_lookup (d d' : dict) (key : string) (n z : Z) :
  d !! key = Some (VInt z) → dict_add d key n = Ok d' →
  d' = <[key := VInt (z + n)]> d.
Proof.
  unfold dict_add, getint, getitem. intros ->. cbn. by intros [= <-].
Qed.

Lemma rebase_describes (m : Z) (enc : string) (pb db : Z) (paths data : bytes)
    (d d' : dict) (e : BNDEntry) :
  describes m enc 0 0 paths data d e →
  rebase_entry_header m pb db d = Ok d' →
  describes m enc pb db paths data d' e.
Proof.
  intros (Hm & Hs & Hi & (pre & post & Hdata & Hd) & Hp).
  unfold rebase_entry_header.
  destruct (dict_add d "data_offset" db) as [d1|] eqn:Hd1; [|done].
  cbn [mbind result_bind].
  apply (dict_add_lookup _ _ _ _ _ Hd) in Hd1 as ->.
  rewrite Z.add_0_r. unfold describes.
  destruct (has_path m).
  - destruct Hp as (p & ep & pre' & post' & Hpe & Henc & Hpaths & Hpo).
    intros Hd2. eapply dict_add_lookup in Hd2 as ->; [|by simplify_map_eq].
    rewrite Z.add_0_r.
    split; [by simplify_map_eq|]. split; [by simplify_map_eq|].
    split; [by simplify_map_eq|]. split.
    + exists pre, post. by simplify_map_eq.
    + exists p, ep, pre', post'. by simplify_map_eq.
  - intros [= <-].
    split; [by simplify_map_eq|]. split; [by simplify_map_eq|].
    split; [by simplify_map_eq|]. split.
    + exists pre, post. by simplify_map_eq.
    + by simplify_map_eq.
Qed.

Lemma pack_entry_headers_spec (m : Z) (ehs : BinaryStruct) (pb db : Z)
    (ds : list dict) (ehb : bytes) :
  pack_entry_headers m ehs pb db ds = Ok ehb →
  ∃ ds' bss,
    Forall2 (λ d d', rebase_entry_header m pb db d = Ok d') ds ds'
    ∧ Forall2 (λ d' bs, struct_pack ehs d' = Ok bs) ds' bss
    ∧ ehb = concat bss.
Proof.
  revert ehb. induction ds as [|d ds IH]; intros ehb; cbn [pack_entry_headers].
  - intros [= <-]. exists [], []. repeat split; constructor.
  - destruct (rebase_entry_header m pb db d) as [d'|] eqn:Hd; [|done].
    cbn [mbind result_bind].
    destruct (struct_pack ehs d') as [bs|] eqn:Hbs; [|done]. cbn [mbind result_bind].
    destruct (pack_entry_headers m ehs pb db ds) as [rest|]; [|done].
    cbn [mbind result_bind]. intros [= <-].
    destruct (IH _ eq_refl) as (ds' & bss & Hr1 & Hr2 & ->).
    exists (d' :: ds'), (bs :: bss). repeat split; by constructor.
Qed.

Lemma unpack_count_loop_spec (ehs : BinaryStruct) (ds' : list dict) (bss : list bytes)
    (pre post : bytes) :
  asserted_ok ehs →
  Forall2 (λ d' bs, struct_pack ehs d' = Ok bs) ds' bss →
  unpack_count_loop ehs (mkBytesIO (pre ++ concat bss ++ post) (length pre)) (length ds')
  = Ok ((λ d', struct_image ehs d' ∅) <$> ds').
Proof.
  intros Hok Hall. revert pre.
  induction Hall as [|d' bs ds' bss Hbs Hall IH]; intros pre; [done|].
  cbn [length unpack_count_loop concat].
  rewrite (BinaryStruct_unpack_at _ _ bs _ pre (concat bss ++ post) _ Hok Hbs)
    by (by rewrite <- ?app_assoc).
  cbn [mbind result_bind].
  rewrite <- (struct_pack_length _ _ _ Hbs), <- length_app.
  replace (pre ++ (bs ++ concat bss) ++ post) with ((pre ++ bs) ++ concat bss ++ post)
    by (by rewrite <- !app_assoc).
  by rewrite IH.
Qed.

Lemma concat_packed_length (ehs : BinaryStruct) (ds' : list dict) (bss : list bytes) :
  Forall2 (λ d' bs, struct_pack ehs d' = Ok bs) ds' bss →
  length (concat bss) = (struct_size_nat ehs * length ds')%nat.
Proof.
  induction 1 as [|d' bs ds' bss Hbs Hall IH]; cbn [concat length]; [lia|].
  rewrite length_app, IH, (struct_pack_length _ _ _ Hbs). lia.
Qed.

Lemma BNDEntry_unpack_loop_spec (buffer : BytesIO) (enc : string)
    (imgs : list dict) (es : list BNDEntry) :
  Forall2 (λ img e, BNDEntry_unpack_one buffer enc img = Ok e) imgs es →
  BNDEntry_unpack_loop buffer enc imgs = Ok es.
Proof.
  induction 1 as [|img e imgs es He Hall IH]; cbn [BNDEntry_unpack_loop]; [done|].
  by rewrite He, IH.
Qed.

Lemma struct_pack_field (st : BinaryStruct) (d : dict) (bs : bytes)
    (name : string) (f : fmt) (bo : byte_order) :
  struct_pack st d = Ok bs → (Field name f, bo) ∈ st →
  ∃ v b, d !! name = Some v ∧ pack_value f bo v = Ok b.
Proof.
  revert bs. induction st as [|[fs bo'] st IH]; intros bs Hpack Hin.
  - by apply elem_of_nil in Hin.
  - cbn [struct_pack] in Hpack.
    destruct (match fs with Pad n => _ | _ => _ end) as [b|] eqn:Hb; [|done].
    cbn [mbind result_bind] in Hpack.
    destruct (struct_pack st d) as [rest|] eqn:Hrest; [|done].
    apply elem_of_cons in Hin as [[= <- <-]|Hin]; [|by eapply IH].
    destruct (d !! name) as [v|]; [|done]. by exists v, b.
Qed.

(** Reading one entry back from a file that holds it where its header
    says. *)
Lemma unpack_one_of_describes (m : Z) (enc : string) (ehs : BinaryStruct)
    (head paths mid data bs : bytes) (d' : dict) (e : BNDEntry) (pos : nat) :
  entry_struct_ok m ehs →
  has_id m = true →
  struct_pack ehs d' = Ok bs →
  describes m enc (len head) (len (head ++ paths ++ mid)) paths data d' e →
  entry_round_trips m enc e →
  BNDEntry_unpack_one (mkBytesIO (head ++ paths ++ mid ++ data) pos) enc
    (struct_image ehs d' ∅) = Ok e.
Proof.
  intros (Hok & Hidf & Himg) Hid Hpack (Hm & Hs & Hi & (pre & post & -> & Hd) & Hp)
    [Hzlib Hpath].
  destruct (Himg d') as (I1 & I2 & I3 & I4 & I5).
  unfold int_image in *. rewrite Hm in I1. rewrite Hs in I2. rewrite Hd in I3.
  rewrite Hid in I4, Hi. rewrite Hi in I4. cbn [default from_option id as_index] in I1, I2, I3.
  destruct (Hidf Hid) as [bo Hfield].
  destruct (struct_pack_field _ _ _ _ _ _ Hpack Hfield) as (v & b & Hv & Hpv).
  rewrite Hi in Hv. injection Hv as <-.
  destruct (entry_id e) as [z|] eqn:Hz; [|done]. cbn [default from_option id as_index id_value] in I4.
  unfold BNDEntry_unpack_one, getint, getitem.
  rewrite I3. cbn [mbind result_bind as_index]. unfold bio_seek.
  assert (0 ≤ len pre + len (head ++ paths ++ mid)) as Hnn.
  { unfold len. lia. }
  destruct (len pre + len (head ++ paths ++ mid) <? 0) eqn:Hneg; [lia|].
  cbn [mbind result_bind getvalue]. rewrite I5, I2, I1, I4.
  assert (fst (bio_read (len (packed_data_of e))
                 (mkBytesIO (head ++ paths ++ mid ++ pre ++ packed_data_of e ++ post)
                    (Z.to_nat (len pre + len (head ++ paths ++ mid)))))
          = packed_data_of e) as Hread.
  { unfold bio_read. cbn [getvalue tell fst].
    destruct (len (packed_data_of e) <? 0) eqn:Hn.
    { apply Z.ltb_lt in Hn. unfold len in Hn. lia. }
    replace (head ++ paths ++ mid ++ pre ++ packed_data_of e ++ post)
      with ((head ++ paths ++ mid ++ pre) ++ packed_data_of e ++ post)
      by (by rewrite <- !app_assoc).
    rewrite drop_app_length'.
    - unfold len. by rewrite Nat2Z.id, take_app_length.
    - unfold len. rewrite !length_app. lia. }
  assert ((if is_entry_compressed (entry_magic e)
           then zlib_decompress (packed_data_of e) else Ok (packed_data_of e))
          = Ok (data e)) as Hdec.
  { unfold packed_data_of, get_data_for_pack.
    destruct (is_entry_compressed (entry_magic e)); [by apply Hzlib | done]. }
  destruct (has_path m) eqn:Hhp.
  - destruct Hp as (p & ep & pre' & post' & Hpe & Henc & -> & Hpo).
    rewrite Hpo in I5. cbn [default from_option id as_index] in I5.
    rewrite Hpe in Hpath. destruct Hpath as [_ Hrt].
    rewrite Hpo. cbn [default from_option id as_index mbind result_bind].
    specialize (Hrt ep (head ++ pre')
                  (post' ++ mid ++ pre ++ packed_data_of e ++ post) Henc).
    replace (len pre' + len head) with (len (head ++ pre'))
      by (unfold len; rewrite length_app; lia).
    replace (head ++ (pre' ++ ep ++ [x00] ++ post') ++ mid ++ pre
               ++ packed_data_of e ++ post)
      with ((head ++ pre') ++ ep ++ [x00] ++ post' ++ mid ++ pre
              ++ packed_data_of e ++ post)
      by (by rewrite <- !app_assoc).
    rewrite Hrt. cbn [mbind result_bind as_index].
    replace ((head ++ pre') ++ ep ++ [x00] ++ post' ++ mid ++ pre
               ++ packed_data_of e ++ post)
      with (head ++ (pre' ++ ep ++ [x00] ++ post') ++ mid ++ pre
              ++ packed_data_of e ++ post)
      by (by rewrite <- !app_assoc).
    rewrite Hread, Hdec. cbn [mbind result_bind].
    destruct e; cbn in *; by subst.
  - cbn [mbind result_bind as_index].
    destruct (path e) as [p|] eqn:Hpe; [destruct Hpath; congruence|].
    rewrite Hread, Hdec. cbn [mbind result_bind].
    destruct e; cbn in *; by subst.
Qed.

Lemma images_unpack (m : Z) (enc : string) (ehs : BinaryStruct)
    (head paths mid data : bytes) (pos : nat)
    (ds ds' : list dict) (bss : list bytes) (es : list BNDEntry) :
  entry_struct_ok m ehs →
  has_id m = true →
  Forall2 (describes m enc 0 0 paths data) ds es →
  Forall2 (λ d d', rebase_entry_header m (len head) (len (head ++ paths ++ mid)) d = Ok d')
    ds ds' →
  Forall2 (λ d' bs, struct_pack ehs d' = Ok bs) ds' bss →
  Forall (entry_round_trips m enc) es →
  Forall2 (λ img e,
             BNDEntry_unpack_one (mkBytesIO (head ++ paths ++ mid ++ data) pos) enc img
             = Ok e)
    ((λ d', struct_image ehs d' ∅) <$> ds') es.
Proof.
  intros Hok Hid Hdesc. revert ds' bss.
  induction Hdesc as [|d e ds es Hd Hdesc IH]; intros ds' bss Hreb Hpack Hrt.
  - apply Forall2_nil_inv_l in Hreb as ->. constructor.
  - apply Forall2_cons_inv_l in Hreb as (d' & ds'' & Hd' & Hreb & ->).
    apply Forall2_cons_inv_l in Hpack as (bs & bss' & Hbs & Hpack & ->).
    apply Forall_cons_1 in Hrt as [He Hrt].
    rewrite fmap_cons. constructor; [|by eapply IH].
    eapply unpack_one_of_describes; [done..| |done].
    by eapply rebase_describes.
Qed.

(** The entry table written by [pack] reads back as the entries. *)
Lemma entries_read_back (m : Z) (enc : string) (ehs : BinaryStruct)
    (hdr ehb paths mid data : bytes) (ds : list dict) (es : list BNDEntry) :
  entry_struct_ok m ehs →
  has_id m = true →
  Forall2 (describes m enc 0 0 paths data) ds es →
  pack_entry_headers m ehs (len (hdr ++ ehb)) (len (hdr ++ ehb ++ paths ++ mid)) ds
  = Ok ehb →
  Forall (entry_round_trips m enc) es →
  BNDEntry_unpack (mkBytesIO (hdr ++ ehb ++ paths ++ mid ++ data) (length hdr)) ehs enc
    (len es) = Ok es
  ∧ length ehb = (struct_size_nat ehs * length es)%nat.
Proof.
  intros Hok Hid Hdesc Hpack Hrt.
  destruct (pack_entry_headers_spec _ _ _ _ _ _ Hpack) as (ds' & bss & Hreb & Hbss & Hehb).
  pose proof (Forall2_length _ _ _ Hdesc) as Hlen1.
  pose proof (Forall2_length _ _ _ Hreb) as Hlen2.
  subst ehb. split.
  - unfold BNDEntry_unpack, BinaryStruct_unpack_count, len.
    rewrite Nat2Z.id, <- Hlen1, Hlen2.
    rewrite (unpack_count_loop_spec ehs ds' bss hdr (paths ++ mid ++ data))
      by (done || apply Hok).
    cbn [mbind result_bind].
    apply BNDEntry_unpack_loop_spec.
    replace (hdr ++ concat bss ++ paths ++ mid ++ data)
      with ((hdr ++ concat bss) ++ paths ++ mid ++ data)
      by (by rewrite <- !app_assoc).
    apply (images_unpack m enc ehs (hdr ++ concat bss) paths mid data (length hdr)
             ds ds' bss); [done|done|done| |done|done].
    eapply Forall2_impl; [exact Hreb|]. intros d d'. cbn.
    by rewrite <- !app_assoc.
  - rewrite (concat_packed_length _ _ _ Hbss). lia.
Qed.

(** Adding entries whose IDs are new. *)
Lemma entries_by_id_loop_fresh (es : list BNDEntry) (acc : gmap (option Z) BNDEntry) :
  NoDup (entry_id <$> es) →
  (∀ e, e ∈ es → acc !! entry_id e = None) →
  ∃ m, entries_by_id_loop es acc = Ok m
       ∧ ∀ k, m !! k = None ↔ acc !! k = None ∧ k ∉ entry_id <$> es.
Proof.
  revert acc. induction es as [|e es IH]; intros acc Hnd Hfresh; cbn [entries_by_id_loop].
  - exists acc. split; [done|]. intros k. rewrite fmap_nil. set_solver.
  - rewrite fmap_cons in Hnd. apply NoDup_cons in Hnd as [Hnotin Hnd].
    rewrite (Hfresh e) by set_solver.
    rewrite bool_decide_eq_false_2 by (by intros [? ?]).
    destruct (IH (<[entry_id e := e]> acc) Hnd) as (m & Hm & Hdom).
    { intros e' He'. rewrite lookup_insert_ne.
      - apply Hfresh. set_solver.
      - intros Heq. apply Hnotin. rewrite Heq. by apply list_elem_of_fmap_2. }
    exists m. split; [done|]. intros k. rewrite Hdom, fmap_cons.
    destruct (decide (entry_id e = k)) as [<-|Hne].
    + rewrite lookup_insert_eq. set_solver.
    + rewrite lookup_insert_ne by done. set_solver.
Qed.

Lemma add_entry_fresh (b : BND) (l : list string) (e : BNDEntry) :
  NoDup (entry_id <$> (_entries b ++ [e])) →
  add_entry e (mkState b l) = (Ok (), mkState (set_entries (_entries b ++ [e]) b) l).
Proof.
  rewrite fmap_app. intros [Hnd [Hdisj _]]%NoDup_app.
  assert (entry_id e ∉ entry_id <$> _entries b) as Hid.
  { intros Hin. apply (Hdisj _ Hin). set_solver. }
  unfold add_entry. rewrite bind_get_self. cbn [self].
  rewrite bool_decide_eq_false_2.
  2:{ intros Hin. apply Hid. by apply list_elem_of_fmap_2. }
  rewrite bind_lift. unfold entries_by_id.
  destruct (entries_by_id_loop_fresh (_entries b) ∅ Hnd) as (m & -> & Hdom);
    [done|].
  rewrite bool_decide_eq_false_2.
  2:{ intros [x Hx]. assert (m !! entry_id e = None) as Hnone; [|congruence].
      apply Hdom. split; [done|]. exact Hid. }
  reflexivity.
Qed.

Lemma for_each_add_entry_fresh (es : list BNDEntry) (b : BND) (l : list string) :
  NoDup (entry_id <$> (_entries b ++ es)) →
  for_each add_entry es (mkState b l)
  = (Ok (), mkState (set_entries (_entries b ++ es) b) l).
Proof.
  revert b. induction es as [|e es IH]; intros b Hnd; cbn [for_each].
  - rewrite app_nil_r. by destruct b.
  - replace (_entries b ++ e :: es) with ((_entries b ++ [e]) ++ es) in *
      by (by rewrite <- app_assoc).
    rewrite bind_run, add_entry_fresh.
    2:{ rewrite fmap_app in Hnd. by apply NoDup_app in Hnd as [? _]. }
    rewrite IH; [by destruct b | done].
Qed.

Lemma sorted_by_id_Permutation (es es' : list BNDEntry) :
  sorted_by_id es = Ok es' → es' ≡ₚ es.
Proof.
  unfold sorted_by_id. destruct es as [|e1 [|e2 es]]; try by intros [= <-].
  destruct (mapM _ _) as [keyed|] eqn:Hk; [|done]. intros [= <-].
  rewrite stable_sort_Permutation.
  apply mapM_Some in Hk.
  assert (snd <$> keyed = e1 :: e2 :: es) as ->; [|done].
  clear -Hk. induction Hk as [|e k l ks Hek Hall IH]; [done|].
  rewrite fmap_cons, IH. f_equal.
  destruct (entry_id e); [|done]. by injection Hek as <-.
Qed.

Lemma StronglySorted_fmap_Forall {A B} (R : A → A → Prop) (R' : B → B → Prop)
    (P : A → Prop) (f : A → B) (l : list A) :
  (∀ x y, P x → P y → R x y → R' (f x) (f y)) →
  Forall P l → StronglySorted R l → StronglySorted R' (f <$> l).
Proof.
  intros Himpl HP Hs. induction Hs as [|x l Hl IH Hx]; [constructor|].
  apply Forall_cons_1 in HP as [Px HP]. rewrite fmap_cons.
  constructor; [by apply IH|].
  apply Forall_fmap, Forall_forall. intros y Hy. apply Himpl; [done|..].
  - by eapply Forall_forall in HP.
  - by eapply Forall_forall in Hx.
Qed.

(** What [sorted(entries, key=lambda e: e.id)] returns is ascending by ID;
    strictly so when the IDs are pairwise distinct. *)
Lemma sorted_by_id_sorted (es es' : list BNDEntry) :
  NoDup (entry_id <$> es) → sorted_by_id es = Ok es' → StronglySorted id_lt es'.
Proof.
  intros Hnd. unfold sorted_by_id.
  destruct es as [|e1 [|e2 es]].
  - intros [= <-]. constructor.
  - intros [= <-]. repeat constructor.
  - set (l := e1 :: e2 :: es) in *. clearbody l.
    destruct (mapM _ l) as [keyed|] eqn:Hk; [|done]. intros [= <-].
    apply mapM_Some in Hk.
    assert (Forall (λ k, entry_id (snd k) = Some (fst k)) keyed) as Hkeys.
    { clear -Hk. induction Hk as [|e k l ks Hek Hall IH]; constructor; [|done].
      destruct (entry_id e) eqn:He; [|done]. by injection Hek as <-. }
    assert (entry_id <$> l = Some <$> (fst <$> keyed)) as Hids.
    { clear -Hk. induction Hk as [|e k l ks Hek Hall IH]; [done|].
      rewrite !fmap_cons, IH. f_equal.
      destruct (entry_id e) eqn:He; [|done]. by injection Hek as <-. }
    rewrite Hids in Hnd. apply (NoDup_fmap_1 Some) in Hnd.
    apply (StronglySorted_fmap_Forall (λ x y : Z * BNDEntry, fst x < fst y) id_lt
             (λ k, entry_id (snd k) = Some (fst k))).
    + intros x y Hx Hy Hlt. by exists (fst x), (fst y).
    + by apply stable_sort_Forall.
    + apply (StronglySorted_distinct (λ a b : Z * BNDEntry, (fst a <=? fst b) = true)
               _ fst).
      * intros x y Hle Hne. apply Z.leb_le in Hle. lia.
      * by rewrite stable_sort_Permutation.
      * apply stable_sort_sorted.
        -- intros a b Hab. apply Z.leb_gt in Hab. apply Z.leb_le. lia.
        -- intros a b c Hab Hbc. apply Z.leb_le in Hab, Hbc. apply Z.leb_le. lia.
Qed.

Lemma BND3_entry_struct_ok (m : Z) (bo : byte_order) :
  entry_struct_ok m (BND3_entry_header_struct m bo).
Proof.
  unfold entry_struct_ok, BND3_entry_header_struct, int_image.
  destruct (has_id m), (has_path m), (has_uncompressed_size m).
  all: split; [repeat constructor|].
  all: split; [first [by intros [=] | intros _; exists bo; cbn; set_solver]|].
  all: intros d; cbn; repeat split; by simplify_map_eq.
Qed.

Lemma BND4_entry_struct_ok (m : Z) (bo : byte_order) :
  entry_struct_ok m (BND4_entry_header_struct m bo).
Proof.
  unfold entry_struct_ok, BND4_entry_header_struct, int_image.
  destruct (has_id m), (has_path m), (has_uncompressed_size m), (m =? 32).
  all: split; [repeat constructor|].
  all: split; [first [by intros [=] | intros _; exists bo; cbn; set_solver]|].
  all: intros d; cbn; repeat split; by simplify_map_eq.
Qed.

Lemma pack_entry_headers_length (m : Z) (ehs : BinaryStruct) (pb db : Z)
    (ds : list dict) (ehb : bytes) :
  pack_entry_headers m ehs pb db ds = Ok ehb →
  len ehb = struct_size ehs * len ds.
Proof.
  intros (ds' & bss & Hreb & Hbss & ->)%pack_entry_headers_spec.
  unfold len, struct_size.
  rewrite (concat_packed_length _ _ _ Hbss), (Forall2_length _ _ _ Hreb). lia.
Qed.

Lemma value_image_str (n : nat) (s : pystr) (sb : bytes) :
  str_encode s "utf-8" = Ok sb →
  value_image (Fmt_s n) (VStr s) = VBytes (pad_to n sb).
Proof. intros Henc. unfold value_image, pack_value. by rewrite Henc. Qed.

Lemma packed_signature (st : BinaryStruct) (d : dict) (hb : bytes) (bo : byte_order)
    (s : pystr) :
  struct_pack st d = Ok hb →
  (Field "signature" (Fmt_s 8), bo) ∈ st →
  d !! "signature" = Some (VStr s) →
  ∃ sb, str_encode s "utf-8" = Ok sb.
Proof.
  intros Hpack Hin Hd.
  destruct (struct_pack_field _ _ _ _ _ _ Hpack Hin) as (v & b & Hv & Hpv).
  rewrite Hd in Hv. injection Hv as <-. unfold pack_value in Hpv.
  destruct (str_encode s "utf-8") as [sb|]; [by exists sb | done].
Qed.

(** [BND3.unpack] up to the entry table, on a buffer that starts with a
    header packed from [d]. *)
Lemma BND3_unpack_header_run (d : dict) (be unk : bool) (m count fsize : Z)
    (sigb hb rest : bytes) (sg : pystr) (s : state) :
  bytes_decode (b_ "BND3") = Ok BND3_VERSION →
  bytes_decode (rstrip_nul sigb) = Ok sg →
  (be || is_big_endian m) = be →
  struct_pack (BND3_file_header_struct be) d = Ok hb →
  struct_image (new_BinaryStruct BND3_HEADER_STRUCT_START LittleEndian) d ∅
  = <["big_endian" := VBool be]>
      (<["magic" := VInt m]>
         (<["signature" := VBytes sigb]> {["version" := VBytes (b_ "BND3")]})) →
  struct_image (new_BinaryStruct BND3_HEADER_STRUCT_ENDIAN (order_of be)) d ∅
  = <["file_size" := VInt fsize]>
      (<["entry_count" := VInt count]>
         (<["zero" := VInt 0]> {["unknown" := VBool unk]})) →
  BND3_unpack (mkBytesIO (hb ++ rest) 0) s
  = (entries ← lift (BNDEntry_unpack (mkBytesIO (hb ++ rest) 32)
                       (BND3_entry_header_struct m (order_of be)) "shift-jis" count);
     for_each add_entry entries)
      (mkState (BND3_after_header sg m be unk (self s)) (log s)).
Proof.
  intros Hver Hsig Hbe Hpack Himg1 Himg2.
  apply struct_pack_app in Hpack as (b1 & b2 & Hp1 & Hp2 & ->).
  pose proof (struct_pack_length _ _ _ Hp1) as Hl1.
  unfold BND3_unpack. rewrite bind_update, bind_lift.
  erewrite (BinaryStruct_unpack_at _ _ b1 _ [] (b2 ++ rest));
    [|apply asserted_ok_BND3_start|exact Hp1|by rewrite <- app_assoc|done].
  rewrite Himg1. set (h1 := <["big_endian" := _]> _).
  rewrite bind_lift.
  assert (getbytes h1 "version" = Ok (b_ "BND3")) as -> by done.
  cbn [mbind result_bind]. rewrite Hver.
  unfold check_version. rewrite bool_decide_eq_false_2 by (by intros []).
  rewrite bind_ret, bind_lift.
  assert (getbytes h1 "signature" = Ok sigb) as -> by done.
  cbn [mbind result_bind]. rewrite Hsig.
  rewrite bind_update, bind_lift.
  assert (getint h1 "magic" = Ok m) as -> by done.
  rewrite bind_update, bind_lift.
  assert (getitem h1 "big_endian" = Ok (VBool be)) as -> by done.
  cbn [truthy]. rewrite Hbe.
  rewrite bind_update. cbn [self log].
  rewrite bind_run. erewrite unpack_more_fields_run by reflexivity.
  erewrite (BinaryStruct_unpack_at _ _ b2 _ b1 rest);
    [|apply asserted_ok_BND3_endian|exact Hp2|by rewrite <- app_assoc|by rewrite Hl1].
  rewrite Himg2. set (h2 := <["file_size" := _]> _).
  rewrite bind_lift.
  assert (getitem (h2 ∪ h1) "unknown" = Ok (VBool unk)) as -> by done.
  rewrite bind_update, bind_update, bind_lift.
  assert (getint (h2 ∪ h1) "entry_count" = Ok count) as -> by done.
  cbn [self log truthy].
  reflexivity.
Qed.

(** Drop every hypothesis the goal does not depend on. *)
Ltac clear_context := repeat match goal with H : _ |- _ => clear H end.

Lemma BND3_round_trip (b0 : BND) (l l' : list string) (packed : bytes) :
  BND3_structs_ready b0 →
  has_id (magic b0) = true →
  NoDup (entry_id <$> _entries b0) →
  Forall (entry_round_trips (magic b0) "shift-jis") (_entries b0) →
  (big_endian b0 || is_big_endian (magic b0)) = big_endian b0 →
  bytes_decode (b_ "BND3") = Ok BND3_VERSION →
  signature_decodes (signature b0) →
  fst (BND3_pack (mkState b0 l)) = Ok packed →
  ∃ s', BND3_unpack (mkBytesIO packed 0) (mkState empty_BND l') = (Ok (), s')
        ∧ sorted_by_id (_entries b0) = Ok (_entries (self s'))
        ∧ _entries (self s') ≡ₚ _entries b0.
Proof.
  intros [Hhs Hehs] Hid Hnd Hrt Hbe Hver Hsigd Hpack.
  unfold BND3_pack in Hpack. rewrite bind_get_self, bind_lift in Hpack.
  cbn [self] in Hpack.
  destruct (BND3_pack_parts b0) as [parts|] eqn:Hparts; [|done].
  injection Hpack as <-.
  unfold BND3_pack_parts in Hparts. rewrite Hhs, Hehs in Hparts.
  destruct (sorted_by_id (_entries b0)) as [es|] eqn:Hsorted; [|done].
  cbn [mbind result_bind] in Hparts.
  destruct (pack_loop _ _ es) as [acc|] eqn:Hloop; [|done].
  cbn [mbind result_bind the_struct] in Hparts.
  set (ehs := BND3_entry_header_struct (magic b0) (order_of (big_endian b0))) in *.
  destruct (struct_pack (BND3_file_header_struct (big_endian b0)) _) as [hb|] eqn:Hhb;
    [|done].
  cbn [mbind result_bind] in Hparts.
  destruct (pack_entry_headers _ _ _ _ _) as [ehb|] eqn:Hehb; [|done].
  cbn [mbind result_bind] in Hparts. injection Hparts as <-.
  unfold join_parts. cbn [packed_header packed_entry_headers packed_paths
                          packed_hash_table packed_data].
  pose proof (sorted_by_id_Permutation _ _ Hsorted) as Hperm.
  assert (Forall2 (describes (magic b0) "shift-jis" 0 0 (packed_entry_paths acc)
                     (packed_entry_data acc)) (entry_header_dicts acc) es) as Hdesc.
  { apply (pack_loop_describes _ _ _ es [] empty_pack_acc acc
             (pack_entry_describes' _ _) Hloop). constructor. }
  pose proof (struct_pack_length _ _ _ Hhb) as Hlhb.
  change (struct_size_nat (BND3_file_header_struct (big_endian b0))) with 32%nat in Hlhb.
  pose proof (pack_entry_headers_length _ _ _ _ _ _ Hehb) as Hlehb.
  pose proof (Forall2_length _ _ _ Hdesc) as Hlds.
  pose proof (Permutation_length Hperm) as Hles.
  change (struct_size (BND3_file_header_struct (big_endian b0))) with 32 in Hehb.
  assert (32 + struct_size ehs * len (_entries b0) = len (hb ++ ehb)) as Hpb.
  { unfold len in *. rewrite length_app, Nat2Z.inj_add, Hlehb, Hlhb, Hlds, Hles. lia. }
  assert (32 + struct_size ehs * len (_entries b0) + len (packed_entry_paths acc)
          = len (hb ++ ehb ++ packed_entry_paths acc ++ [])) as Hdb.
  { rewrite Hpb. unfold len. rewrite !length_app. cbn [length]. lia. }
  rewrite Hdb, Hpb in Hehb.
  destruct (entries_read_back _ _ _ hb ehb _ [] _ _ _
              (BND3_entry_struct_ok _ _) Hid Hdesc Hehb) as [Hread _].
  { by rewrite Hperm. }
  destruct (packed_signature _ _ _ LittleEndian (signature b0) Hhb) as [sb Hsb].
  { clear_context. cbn. set_solver. }
  { clear_context. by simplify_map_eq. }
  destruct (Hsigd sb Hsb) as [sg Hsg].
  eexists. split; [|split].
  - erewrite (BND3_unpack_header_run _ (big_endian b0) (unknown b0) (magic b0)
                (len (_entries b0)) _ (pad_to 8 sb) hb _ sg _ Hver Hsg Hbe Hhb).
    + rewrite bind_lift. rewrite Hlhb in Hread.
      replace (len (_entries b0)) with (len es) by (unfold len; by rewrite Hles).
      fold ehs in Hread |- *. rewrite Hread. cbn [self log].
      rewrite for_each_add_entry_fresh; [reflexivity|].
      cbn [_entries BND3_after_header set_entry_header_struct set_unknown
           set_header_struct set_big_endian set_magic set_signature empty_BND self app].
      by rewrite Hperm.
    + cbn [struct_image new_BinaryStruct BND3_HEADER_STRUCT_START fmap list_fmap].
      simplify_map_eq. by rewrite Hsb.
    + cbn [struct_image new_BinaryStruct BND3_HEADER_STRUCT_ENDIAN fmap list_fmap].
      by simplify_map_eq.
  - done.
  - exact Hperm.
Qed.

(** The second half of [BND4.unpack], once the entry table reads back. *)
Lemma BND4_unpack_entries_run (header : dict) (buf : BytesIO) (bo : byte_order)
    (enc : string) (ehsz count doff : Z) (es : list BNDEntry) (b : BND) (l : list string) :
  getint header "entry_header_size" = Ok ehsz →
  getint header "entry_count" = Ok count →
  getint header "data_offset" = Ok doff →
  ehsz = struct_size (BND4_entry_header_struct (magic b) bo) →
  BNDEntry_unpack buf (BND4_entry_header_struct (magic b) bo) enc count = Ok es →
  NoDup (entry_id <$> (_entries b ++ es)) →
  0 ≤ hash_table_offset b →
  ∃ s', BND4_unpack_entries header buf bo enc (mkState b l) = (Ok (), s')
        ∧ _entries (self s') = _entries b ++ es.
Proof.
  intros Hsz Hcount Hdoff -> Hread Hnd Hoff.
  unfold BND4_unpack_entries.
  rewrite bind_get_self, bind_update, bind_lift, Hsz. cbn [self log].
  rewrite Z.eqb_refl. cbn [negb]. rewrite bind_ret, bind_lift, Hcount, bind_lift.
  cbn [magic set_entry_header_struct]. rewrite Hread.
  rewrite bind_run, for_each_add_entry_fresh by done.
  rewrite bind_get_self. cbn [self log hash_table_type set_entries set_entry_header_struct].
  destruct (hash_table_type b =? 4).
  - rewrite bind_run, bind_lift. unfold bio_seek.
    cbn [hash_table_offset set_entries set_entry_header_struct].
    destruct (Z.ltb_spec (hash_table_offset b) 0) as [|_]; [lia|].
    rewrite bind_lift, Hdoff. cbn [self log].
    eexists. split; [reflexivity|]. reflexivity.
  - rewrite bind_ret. eexists. split; [reflexivity|]. reflexivity.
Qed.

Lemma BND4_round_trip (b0 : BND) (l l' : list string) (packed : bytes) :
  BND4_structs_ready b0 →
  big_endian b0 = false →
  header_size (magic b0) = struct_size (BND4_entry_header_struct (magic b0) LittleEndian) →
  has_id (magic b0) = true →
  NoDup (entry_id <$> _entries b0) →
  Forall (entry_round_trips (magic b0) (BND4_path_encoding false (utf16_paths b0)))
    (_entries b0) →
  bytes_decode (b_ "BND4") = Ok BND4_VERSION →
  signature_decodes (signature b0) →
  fst (BND4_pack (mkState b0 l)) = Ok packed →
  ∃ s', BND4_unpack (mkBytesIO packed 0) (mkState empty_BND l') = (Ok (), s')
        ∧ _entries (self s') = _entries b0.
Proof.
  intros [Hhs Hehs] Hle Hsize Hid Hnd Hrt Hver Hsigd Hpack.
  unfold BND4_pack in Hpack. rewrite bind_run, BND4_pack_full_run in Hpack.
  cbn [self log] in Hpack.
  destruct (BND4_rebuild_hash_table b0) as [r|]; [|done].
  destruct (BND4_pack_parts r (take_snapshot b0)) as [p|] eqn:Hparts; [|done].
  injection Hpack as <-.
  unfold BND4_pack_parts in Hparts.
  cbn [take_snapshot big_endian utf16_paths magic _entries header_struct
       entry_header_struct hash_table_type flag1 flag2 signature
       set_most_recent_paths set_most_recent_entry_count] in Hparts.
  rewrite Hhs, Hehs, Hle in Hparts.
  set (enc := BND4_path_encoding false (utf16_paths b0)) in *.
  destruct (pack_loop _ _ (_entries b0)) as [acc|] eqn:Hloop; [|done].
  cbn [mbind result_bind the_struct order_of] in Hparts.
  set (ehs := BND4_entry_header_struct (magic b0) LittleEndian) in *.
  change (add_fields _ _ _) with (BND4_file_header_struct 0) in Hparts.
  change (struct_size (BND4_file_header_struct 0)) with 64 in Hparts.
  assert (Forall2 (describes (magic b0) enc 0 0 (packed_entry_paths acc)
                     (packed_entry_data acc)) (entry_header_dicts acc) (_entries b0))
    as Hdesc.
  { apply (pack_loop_describes _ _ _ (_entries b0) [] empty_pack_acc acc
             (BND4_pack_entry_describes _ _) Hloop). constructor. }
  pose proof (Forall2_length _ _ _ Hdesc) as Hlds.
  set (pto := 64 + struct_size ehs * len (_entries b0)) in *.
  match type of Hparts with
  | (?t ≫= _) = _ => destruct t as [[[hto pht] dto]|] eqn:Htable; [|done]
  end.
  cbn [mbind result_bind] in Hparts.
  assert (dto = pto + len (packed_entry_paths acc) + len pht ∧ 0 ≤ hto) as [Hdto Hhto].
  { destruct (hash_table_type b0 =? 4).
    - destruct (if r then _ else _) as [t|]; [|done].
      cbn [mbind result_bind] in Htable. injection Htable as <- <- <-.
      split; [done|]. unfold pto, len, struct_size. lia.
    - injection Htable as <- <- <-. unfold len. cbn [length]. split; lia. }
  destruct (struct_pack (BND4_file_header_struct 0) _) as [hb|] eqn:Hhb; [|done].
  cbn [mbind result_bind] in Hparts.
  destruct (pack_entry_headers _ _ _ _ _) as [ehb|] eqn:Hehb; [|done].
  injection Hparts as <-.
  cbn [parts]. unfold join_parts.
  cbn [packed_header packed_entry_headers packed_paths packed_hash_table packed_data].
  pose proof (struct_pack_length _ _ _ Hhb) as Hlhb.
  change (struct_size_nat (BND4_file_header_struct 0)) with 64%nat in Hlhb.
  pose proof (pack_entry_headers_length _ _ _ _ _ _ Hehb) as Hlehb.
  assert (pto = len (hb ++ ehb)) as Hpb.
  { unfold pto, len in *. rewrite length_app, Nat2Z.inj_add, Hlehb, Hlhb, Hlds. lia. }
  assert (dto = len (hb ++ ehb ++ packed_entry_paths acc ++ pht)) as Hdb.
  { rewrite Hdto, Hpb. unfold len. rewrite !length_app. lia. }
  rewrite Hdb, Hpb in Hehb.
  destruct (entries_read_back _ _ _ hb ehb _ pht _ _ _
              (BND4_entry_struct_ok _ _) Hid Hdesc Hehb Hrt) as [Hread _].
  destruct (packed_signature _ _ _ LittleEndian (signature b0) Hhb) as [sb Hsb].
  { clear_context. cbn. set_solver. }
  { clear_context. by simplify_map_eq. }
  destruct (Hsigd sb Hsb) as [sg Hsg].
  destruct (BND4_unpack_header_run_gen _ (flag1 b0) (flag2 b0) (utf16_paths b0) 0
              (len (_entries b0)) (struct_size ehs) dto (magic b0) (hash_table_type b0)
              hto (pad_to 8 sb) hb
              (ehb ++ packed_entry_paths acc ++ pht ++ packed_entry_data acc) sg
              (mkState empty_BND l') Hver Hsg Hhb)
    as (header & Hh1 & Hh2 & Hh3 & Hrun).
  { clear_context.
    cbn [struct_image new_BinaryStruct BND4_HEADER_STRUCT_START fmap list_fmap].
    by simplify_map_eq. }
  { revert Hsb. clear_context. intros Hsb.
    cbn [struct_image new_BinaryStruct BND4_HEADER_STRUCT_ENDIAN fmap list_fmap order_of
         Z.eqb].
    simplify_map_eq. by rewrite Hsb. }
  rewrite Hrun. fold ehs in Hsize. rewrite <- Hsize, Z.eqb_refl. cbn [negb].
  rewrite bind_ret.
  assert (negb (hash_table_type b0 =? 4) && negb (hto =? 0) = false) as ->.
  { destruct (hash_table_type b0 =? 4); [done|].
    injection Htable as <- _ _. done. }
  rewrite bind_ret. cbn [self log].
  rewrite Hlhb in Hread.
  destruct (BND4_unpack_entries_run header
              (mkBytesIO (hb ++ ehb ++ packed_entry_paths acc ++ pht
                            ++ packed_entry_data acc) 64)
              LittleEndian enc (header_size (magic b0)) (len (_entries b0)) dto
              (_entries b0)
              (BND4_after_header (flag1 b0) (flag2 b0) 0 sg (utf16_paths b0) (magic b0)
                 (hash_table_type b0) hto empty_BND) l')
    as (s' & Hs' & Hes); try done.
  - by rewrite Hsize.
  - eexists. split; [exact Hs'|]. exact Hes.
Qed.

(** C1 (as amended): take an archive whose magic sets the has-id flag, with
    unique entry IDs, in which every entry has a path exactly when the
    has-path flag is set, and on which [pack] returns; let [zlib] undo its
    own compression and the text codec read back every path from its
    Shift-JIS encoding followed by a NUL byte, and the signature.  For V3,
    with [big_endian] agreeing with [big_endian or is_big_endian(magic)],
    [unpack(pack(archive))] returns and holds the original entries in
    ascending order of ID, a permutation of the original list.  For V4 in
    little-endian byte order with Shift-JIS paths ([utf16_paths] false), and
    with [header_size(magic)] equal to the size of the entry header struct,
    [unpack(pack(archive))] returns and holds the original entries in their
    original order.  Entries are compared on ID, path, magic and data. *)
Theorem C1_round_trip (b0 : BND) (l l' : list string) (packed : bytes) :
  has_id (magic b0) = true →
  NoDup (entry_id <$> _entries b0) →
  signature_decodes (signature b0) →
  Forall (entry_round_trips (magic b0) "shift-jis") (_entries b0) →
  (BND3_structs_ready b0 →
   (big_endian b0 || is_big_endian (magic b0)) = big_endian b0 →
   bytes_decode (b_ "BND3") = Ok BND3_VERSION →
   fst (BND3_pack (mkState b0 l)) = Ok packed →
   ∃ s', BND3_unpack (mkBytesIO packed 0) (mkState empty_BND l') = (Ok (), s')
         ∧ _entries (self s') ≡ₚ _entries b0
         ∧ StronglySorted id_lt (_entries (self s')))
  ∧ (BND4_structs_ready b0 →
     big_endian b0 = false →
     utf16_paths b0 = false →
     header_size (magic b0)
     = struct_size (BND4_entry_header_struct (magic b0) LittleEndian) →
     bytes_decode (b_ "BND4") = Ok BND4_VERSION →
     fst (BND4_pack (mkState b0 l)) = Ok packed →
     ∃ s', BND4_unpack (mkBytesIO packed 0) (mkState empty_BND l') = (Ok (), s')
           ∧ _entries (self s') = _entries b0).
Proof.
  intros Hid Hnd Hsig Hrt. split.
  - intros Hready Hbe Hver Hpack.
    destruct (BND3_round_trip b0 l l' packed Hready Hid Hnd Hrt Hbe Hver Hsig Hpack)
      as (s' & Hrun & Hsorted & Hperm).
    exists s'. split; [done|]. split; [done|].
    by apply (sorted_by_id_sorted (_entries b0)).
  - intros Hready Hle Hutf Hsize Hver Hpack.
    eapply BND4_round_trip; try done. by rewrite Hutf.
Qed.

End round_trip.

(** * The code on sample archives *)

(** ** The sample configuration meets the round trip's conditions *)

Lemma read_to_nul_cons (c : byte) (rest : bytes) :
  c ≠ x00 →
  Sample.read_to_nul (c :: rest) = (s ← Sample.read_to_nul rest; Ok (Z_of_byte c :: s)).
Proof. by destruct c. Qed.

Lemma read_to_nul_encoded (p : pystr) (enc post : bytes) :
  Forall (λ c, c ≠ 0) p →
  Sample.encode_chars p = Ok enc →
  Sample.read_to_nul (enc ++ [x00] ++ post) = Ok p.
Proof.
  intros Hp. revert enc. induction Hp as [|c p Hc _ IH]; intros enc.
  - by intros [= <-].
  - cbn [Sample.encode_chars]. case_bool_decide as Hr; [|done].
    destruct (Sample.encode_chars p) as [enc'|]; [|done].
    intros [= <-]. cbn [app].
    assert (Z_of_byte (byte_of_Z c) = c) as Hz.
    { rewrite Z_of_byte_of_Z. apply Z.mod_small. lia. }
    rewrite read_to_nul_cons.
    + change (enc' ++ x00 :: post) with (enc' ++ [x00] ++ post).
      rewrite (IH enc' eq_refl). cbn. by rewrite Hz.
    + intros Hb. rewrite Hb in Hz. by apply Hc.
Qed.

Lemma sample_path_round_trips (encoding : string) (p : pystr) :
  Forall (λ c, c ≠ 0) p → @path_round_trips Sample.codec encoding p.
Proof.
  intros Hp enc pre post Henc.
  cbn [read_chars_from_buffer Sample.codec].
  destruct (Z.ltb_spec (len pre) 0) as [Hn|_]; [unfold len in Hn; lia|].
  unfold len. rewrite Nat2Z.id, drop_app_length.
  by apply read_to_nul_encoded.
Qed.

Lemma sample_entry_round_trips (bnd_magic : Z) (encoding : string) (e : BNDEntry) :
  (if has_path (MagicRules := Sample.rules) bnd_magic
   then ∃ p, path e = Some p ∧ Forall (λ c, c ≠ 0) p
   else path e = None) →
  @entry_round_trips Sample.rules Sample.zlib Sample.codec bnd_magic encoding e.
Proof.
  intros Hp. split; [done|].
  destruct (has_path bnd_magic).
  - destruct Hp as (p & -> & Hp). split; [done|]. by apply sample_path_round_trips.
  - by rewrite Hp.
Qed.

Lemma sample_signature_decodes (signature : pystr) :
  @signature_decodes Sample.codec signature.
Proof. intros sb _. by eexists. Qed.


(** * Further properties of the code *)

(** ** [BND4.is_prime] and [BND4.path_hash] *)

(** [BND4.is_prime(p)] returns [True] exactly when [p] is a prime number:
    the trial divisions by the odd numbers below [p // 2], with the early
    exit once [i ** 2 > p], miss no divisor. *)
Theorem is_prime_decides_primality (p : Z) : is_prime p = true ↔ Prime p.
Proof. apply is_prime_correct. Qed.

Lemma hash_fold_closed_form (l : pystr) (k : Z) :
  2 * fold_left (λ h '(i, s), h + (i * 37 + ord s)) (enumerate_from k l) 0
  = 37 * (2 * k * len l + len l * (len l - 1)) + 2 * foldr Z.add 0 l.
Proof.
  revert k. induction l as [|c l IH]; intros k.
  - unfold len. cbn [enumerate_from fold_left foldr length]. lia.
  - cbn [enumerate_from fold_left foldr]. rewrite fold_left_hash_acc.
    specialize (IH (k + 1)). unfold len, ord in *. cbn [length].
    rewrite Nat2Z.inj_succ. nia.
Qed.

Lemma path_hash_doubled (p : pystr) :
  2 * path_hash p
  = 37 * (len (spec_normalize p) * (len (spec_normalize p) - 1))
    + 2 * foldr Z.add 0 (spec_normalize p).
Proof.
  rewrite path_hash_of_normalized. unfold enumerate.
  rewrite hash_fold_closed_form. lia.
Qed.

(** [path_hash] in closed form: for a normalised string of [n] characters
    it is [37 * n * (n - 1) / 2] plus the sum of the code points, so it
    depends on the length and on the sum of the characters only. *)
Theorem path_hash_closed_form (p : pystr) :
  let s := spec_normalize p in
  2 * path_hash p = 37 * (len s * (len s - 1)) + 2 * foldr Z.add 0 s.
Proof. apply path_hash_doubled. Qed.

(** Two paths whose normalised forms hold the same characters in any order
    have the same hash. *)
Theorem path_hash_anagrams (p q : pystr) :
  spec_normalize p ≡ₚ spec_normalize q → path_hash p = path_hash q.
Proof.
  intros Hperm.
  pose proof (path_hash_doubled p) as Hp.
  pose proof (path_hash_doubled q) as Hq.
  assert (foldr Z.add 0 (spec_normalize p) = foldr Z.add 0 (spec_normalize q)) as Hsum.
  { apply (foldr_permutation (=) Z.add 0); [|done]. intros; lia. }
  assert (len (spec_normalize p) = len (spec_normalize q)) as Hlen.
  { unfold len. by rewrite Hperm. }
  rewrite Hsum, Hlen, <- Hq in Hp. lia.
Qed.

(** ** [entries_by_id] and [add_entry] *)

Lemma entries_by_id_loop_spec (es : list BNDEntry) (acc : gmap (option Z) BNDEntry) :
  match entries_by_id_loop es acc with
  | Ok m =>
      NoDup (entry_id <$> es)
      ∧ (∀ e, e ∈ es → acc !! entry_id e = None)
      ∧ ∀ k e, m !! k = Some e ↔ acc !! k = Some e ∨ (e ∈ es ∧ entry_id e = k)
  | Raise x =>
      x = BNDError "There are multiple entries with the same ID."
      ∧ ¬ (NoDup (entry_id <$> es) ∧ ∀ e, e ∈ es → acc !! entry_id e = None)
  end.
Proof.
  revert acc. induction es as [|e0 es IH]; intros acc.
  - cbn. split; [constructor|]. split; [intros e He; by apply elem_of_nil in He|].
    intros k e. split; [by left|]. intros [|[He _]]; [done|by apply elem_of_nil in He].
  - cbn [entries_by_id_loop]. case_bool_decide as Hin.
    + split; [done|]. intros [_ Hfresh].
      rewrite (Hfresh e0) in Hin; [by destruct Hin|by left].
    + apply eq_None_not_Some in Hin. specialize (IH (<[entry_id e0 := e0]> acc)).
      destruct (entries_by_id_loop es _) as [m|x].
      * destruct IH as (Hnd & Hfresh & Hm). split; [|split].
        -- rewrite fmap_cons. constructor; [|done].
           intros (e & Heq & He)%list_elem_of_fmap.
           specialize (Hfresh e He). rewrite <- Heq in Hfresh.
           by rewrite lookup_insert_eq in Hfresh.
        -- intros e [->|He]%elem_of_cons; [done|].
           specialize (Hfresh e He). by apply lookup_insert_None in Hfresh as [? _].
        -- intros k e. rewrite Hm. split.
           ++ intros [Hl|[He Hk]].
              ** apply lookup_insert_Some in Hl as [[<- <-]|[_ Hl]].
                 --- right. split; [by left|done].
                 --- by left.
              ** right. split; [by right|done].
           ++ intros [Hl|[[->|He]%elem_of_cons Hk]].
              ** left. apply lookup_insert_Some. right. split; [|done].
                 intros <-. by rewrite Hin in Hl.
              ** left. rewrite <- Hk. apply lookup_insert_eq.
              ** right. done.
      * destruct IH as [-> Hnot]. split; [done|]. intros [Hnd Hfresh]. apply Hnot.
        rewrite fmap_cons in Hnd. apply NoDup_cons in Hnd as [Hn0 Hnd]. split; [done|].
        intros e He. apply lookup_insert_None. split.
        -- apply Hfresh. by right.
        -- intros Heq. apply Hn0. rewrite Heq. apply list_elem_of_fmap. by exists e.
Qed.

Lemma entries_by_id_characterised (b : BND) :
  (NoDup (entry_id <$> _entries b) →
   ∃ m, entries_by_id b = Ok m
        ∧ ∀ k e, m !! k = Some e ↔ e ∈ _entries b ∧ entry_id e = k)
  ∧ (¬ NoDup (entry_id <$> _entries b) →
     entries_by_id b = Raise (BNDError "There are multiple entries with the same ID.")).
Proof.
  unfold entries_by_id. pose proof (entries_by_id_loop_spec (_entries b) ∅) as Hspec.
  destruct (entries_by_id_loop (_entries b) ∅) as [m|x].
  - destruct Hspec as (Hnd & _ & Hm). split; [|done].
    intros _. exists m. split; [done|]. intros k e. rewrite Hm.
    rewrite lookup_empty. split; [by intros [|]|by right].
  - destruct Hspec as [-> Hnot]. split; [|done].
    intros Hnd. exfalso. apply Hnot. split; [done|]. intros e _. apply lookup_empty.
Qed.

(** [entries_by_id] returns a dict exactly when the entry IDs are pairwise
    distinct; the dict then maps each ID to the one entry that has it, and
    holds nothing else.  As soon as two entries share an ID (two entries
    without an ID included) it raises [BNDError]. *)
Theorem entries_by_id_unique_ids (b : BND) :
  (NoDup (entry_id <$> _entries b) →
   ∃ m, entries_by_id b = Ok m
        ∧ ∀ k e, m !! k = Some e ↔ e ∈ _entries b ∧ entry_id e = k)
  ∧ (¬ NoDup (entry_id <$> _entries b) →
     entries_by_id b = Raise (BNDError "There are multiple entries with the same ID.")).
Proof. apply entries_by_id_characterised. Qed.

(** What [add_entry] does on an archive whose IDs are pairwise distinct: an
    entry equal to one of the archive raises [BNDError] and changes nothing;
    an entry with an ID that is in use is appended and a warning is logged;
    any other entry is appended and nothing is logged. *)
Theorem add_entry_outcome (entry : BNDEntry) (s : state) :
  NoDup (entry_id <$> _entries (self s)) →
  add_entry entry s
  = if bool_decide (entry ∈ _entries (self s))
    then (Raise (BNDError "Given BNDEntry instance is already in this BND."), s)
    else (Ok (),
          mkState (set_entries (_entries (self s) ++ [entry]) (self s))
            (if bool_decide (entry_id entry ∈ entry_id <$> _entries (self s))
             then log s ++ ["Entry ID appears more than once in this BND. Fix this as soon as you can."]
             else log s)).
Proof.
  intros Hnd. unfold add_entry. rewrite bind_get_self.
  case_bool_decide as Hin; [reflexivity|].
  destruct (proj1 (entries_by_id_characterised (self s)) Hnd) as (m & Hm & Hlook).
  rewrite bind_lift, Hm.
  assert (is_Some (m !! entry_id entry)
          ↔ entry_id entry ∈ entry_id <$> _entries (self s)) as Hiff.
  { split.
    - intros [e He]. apply Hlook in He as [He <-]. apply list_elem_of_fmap. by exists e.
    - intros (e & Heq & He)%list_elem_of_fmap. exists e. apply Hlook. done. }
  destruct s as [b l]. cbn [self log] in *.
  case_bool_decide as H1; case_bool_decide as H2; try tauto; reflexivity.
Qed.

(** Once two entries of the archive share an ID, [add_entry] raises
    [BNDError] for every entry that is not already in the archive, and
    leaves the archive as it was. *)
Theorem add_entry_after_shared_id (entry : BNDEntry) (s : state) :
  ¬ NoDup (entry_id <$> _entries (self s)) →
  entry ∉ _entries (self s) →
  add_entry entry s = (Raise (BNDError "There are multiple entries with the same ID."), s).
Proof.
  intros Hdup Hin. unfold add_entry. rewrite bind_get_self.
  rewrite bool_decide_eq_false_2 by done.
  by rewrite bind_lift, (proj2 (entries_by_id_characterised (self s)) Hdup).
Qed.

(** [unpack] never drops or reorders what the archive holds: whether it
    returns or raises, the entries that were there come first and in their
    order, followed by what was read. *)
Theorem unpack_keeps_entries `{!MagicRules, !Zlib, !TextCodec} (buffer : BytesIO) (s : state) :
  (∃ added, _entries (self (snd (BND3_unpack buffer s))) = _entries (self s) ++ added)
  ∧ (∃ added, _entries (self (snd (BND4_unpack buffer s))) = _entries (self s) ++ added).
Proof.
  split.
  - apply (BND3_unpack_early_or_late buffer s).
  - apply (BND4_unpack_early_or_late buffer s).
Qed.

(** ** The hash table lists every entry *)

Lemma build_hash_table_as_buckets `{!TextCodec} (b : BND) (table : bytes) :
  build_hash_table b = Ok table →
  ∃ g, hash_group_count (len (_entries b)) = Ok g
       ∧ table = hash_table_layout g (entry_hashes (_entries b)).
Proof.
  unfold build_hash_table.
  destruct (hash_group_count _) as [g|] eqn:Hg; [|done]. cbn [mbind result_bind].
  pose proof (hash_group_count_positive _ _ Hg) as Hpos.
  destruct (fill_hash_lists _ _ _) as [R|] eqn:Hfill; [|done]. cbn [mbind result_bind].
  apply fill_hash_lists_buckets in Hfill as [Hpaths Hbuckets]; [|lia].
  rewrite Hbuckets.
  destruct (flatten_hash_lists _ 0) as [groups phs] eqn:Hflat.
  destruct (struct_pack_multiple HASH_GROUP_STRUCT groups) as [pg|] eqn:Hpg; [|done].
  cbn [mbind result_bind].
  destruct (struct_pack HASH_TABLE_HEADER _) as [hb|] eqn:Hhb; [|done].
  cbn [mbind result_bind].
  destruct (struct_pack_multiple PATH_HASH_STRUCT phs) as [ph|] eqn:Hph; [|done].
  cbn [mbind result_bind]. intros [= <-].
  exists g. split; [done|].
  pose proof (flatten_hash_lists_groups _ _ _ _ _ Hflat Hpg) as ->.
  pose proof (flatten_hash_lists_hashes _ _ _ _ Hflat) as ->.
  apply pack_path_hashes in Hph as ->.
  apply pack_hash_table_header in Hhb as ->.
  rewrite length_group_records.
  unfold hash_table_layout, hash_table_header.
  rewrite <- !app_assoc. do 2 f_equal.
  unfold len, buckets. rewrite length_fmap, length_seq.
  change (struct_size HASH_TABLE_HEADER) with 24. by rewrite Z2Nat.id by lia.
Qed.

Lemma concat_fmap_Permutation {A} (F G : nat → list A) (ks : list nat) :
  (∀ k, F k ≡ₚ G k) → concat (F <$> ks) ≡ₚ concat (G <$> ks).
Proof.
  intros HFG. induction ks as [|k ks IH]; [done|].
  rewrite !fmap_cons. cbn [concat]. by rewrite IH, HFG.
Qed.

Lemma concat_fmap_ext_in {A} (F G : nat → list A) (ks : list nat) :
  (∀ k, k ∈ ks → F k = G k) → concat (F <$> ks) = concat (G <$> ks).
Proof.
  intros HFG. induction ks as [|k ks IH]; [done|].
  rewrite !fmap_cons. cbn [concat]. rewrite HFG by (by left).
  rewrite IH; [done|]. intros k' Hk'. apply HFG. by right.
Qed.

(** One element more in the class [r]: one element more in the whole. *)
Lemma concat_classes_cons {A} (F G : nat → list A) (x : A) (r s n : nat) :
  (s ≤ r < s + n)%nat →
  F r = x :: G r → (∀ k, k ≠ r → F k = G k) →
  concat (F <$> seq s n) ≡ₚ x :: concat (G <$> seq s n).
Proof.
  revert s. induction n as [|n IH]; intros s Hr HFr HF; [lia|].
  cbn [seq fmap list_fmap concat].
  destruct (decide (s = r)) as [->|Hs].
  - rewrite HFr. cbn [app]. constructor.
    rewrite (concat_fmap_ext_in F G); [done|].
    intros k Hk. apply HF. apply elem_of_seq in Hk. lia.
  - rewrite (HF s Hs), (IH (S s)) by (done || lia).
    by rewrite Permutation_middle.
Qed.

Lemma concat_residue_classes (g : Z) (l : list (Z * Z)) :
  0 < g →
  concat ((λ k : nat, filter (λ ph : Z * Z, fst ph `mod` g = Z.of_nat k) l)
            <$> seq 0 (Z.to_nat g))
  ≡ₚ l.
Proof.
  intros Hg. induction l as [|x l IH].
  - induction (seq 0 (Z.to_nat g)) as [|k ks IHk]; [done|].
    rewrite fmap_cons. cbn [concat]. by rewrite IHk.
  - etrans; [|apply perm_skip, IH].
    apply (concat_classes_cons _ _ x (Z.to_nat (fst x `mod` g))).
    + pose proof (Z.mod_pos_bound (fst x) g Hg). lia.
    + rewrite filter_cons. rewrite decide_True; [done|].
      pose proof (Z.mod_pos_bound (fst x) g Hg). lia.
    + intros k Hk. rewrite filter_cons. rewrite decide_False; [done|].
      intros Heq. apply Hk. rewrite Heq. by rewrite Nat2Z.id.
Qed.

Lemma length_hash_records (l : list (Z * Z)) : len (hash_records l) = 8 * len l.
Proof.
  unfold hash_records, len. induction l as [|ph l IH]; [done|].
  rewrite fmap_cons. cbn [concat]. rewrite !length_app, !length_u32, length_cons. lia.
Qed.

Lemma length_enumerate_from {A} (k : Z) (l : list A) :
  length (enumerate_from k l) = length l.
Proof. revert k. induction l as [|x l IH]; intros k; cbn; [done|]. by rewrite IH. Qed.

(** The table that [build_hash_table] returns ends with one
    [(hashed_value, entry_index)] record for every entry of the archive, each
    exactly once, after [24 + 8 * group_count] bytes of header and group
    records; it is [24 + 8 * group_count + 8 * entry_count] bytes long. *)
Theorem hash_table_lists_every_entry `{!TextCodec} (b : BND) (table : bytes) :
  build_hash_table b = Ok table →
  ∃ (g : Z) (head : bytes) (flat : list (Z * Z)),
    hash_group_count (len (_entries b)) = Ok g
    ∧ table = head ++ hash_records flat
    ∧ len head = 24 + 8 * g
    ∧ flat ≡ₚ entry_hashes (_entries b)
    ∧ len table = 24 + 8 * g + 8 * len (_entries b).
Proof.
  intros Hbuild.
  apply build_hash_table_as_buckets in Hbuild as (g & Hg & ->).
  pose proof (hash_group_count_positive _ _ Hg) as Hpos.
  set (hashes := entry_hashes (_entries b)).
  assert (concat (buckets g hashes) ≡ₚ hashes) as Hperm.
  { unfold buckets.
    rewrite (concat_fmap_Permutation _
               (λ k : nat, filter (λ ph : Z * Z, fst ph `mod` g = Z.of_nat k) hashes)).
    - apply concat_residue_classes. lia.
    - intros k. apply stable_sort_Permutation. }
  assert (len (hash_table_header g ++ group_records 0 (buckets g hashes)) = 24 + 8 * g)
    as Hhead.
  { unfold len. rewrite length_app. unfold hash_table_header.
    rewrite !length_app, length_replicate, !length_u32.
    unfold u64. rewrite length_int_to_bytes.
    pose proof (length_group_records 0 (buckets g hashes)) as Hgr. unfold len in Hgr.
    unfold buckets in Hgr at 2. rewrite length_fmap, length_seq in Hgr. lia. }
  exists g, (hash_table_header g ++ group_records 0 (buckets g hashes)),
    (concat (buckets g hashes)).
  split; [done|]. split; [unfold hash_table_layout; by rewrite <- app_assoc|].
  split; [done|]. split; [done|].
  unfold hash_table_layout. rewrite app_assoc.
  unfold len in *. rewrite length_app, Nat2Z.inj_add, Hhead.
  pose proof (length_hash_records (concat (buckets g hashes))) as Hrec.
  unfold len in Hrec. rewrite Hrec, Hperm.
  unfold hashes, entry_hashes, enumerate. by rewrite length_fmap, length_enumerate_from.
Qed.

(** ** The first [pack] after [create_header_structs] *)

(** [BND4.create_header_structs] empties the hash table cache, so the next
    [pack] of an archive with [hash_table_type == 4] never reuses a table:
    when it returns, the table it emitted is the one [build_hash_table]
    computes from the entries. *)
Theorem first_pack_builds_hash_table `{!MagicRules, !Zlib, !TextCodec}
    (s s' : state) (p : BND4_packed) :
  hash_table_type (self s) = 4 →
  BND4_pack_full (snd (BND4_create_header_structs s)) = (Ok p, s') →
  rebuilt p = true
  ∧ build_hash_table (self s) = Ok (packed_hash_table (parts p))
  ∧ _entries (self s') = _entries (self s).
Proof.
  intros Ht Hrun. rewrite BND4_pack_full_run in Hrun.
  set (b1 := self (snd (BND4_create_header_structs s))) in *.
  assert (_most_recent_hash_table b1 = []) as Hcache by reflexivity.
  assert (_entries b1 = _entries (self s)) as Hentries by reflexivity.
  assert (hash_table_type b1 = 4) as Ht1 by exact Ht.
  destruct (BND4_rebuild_hash_table b1) as [r|] eqn:Hr; [|done].
  injection Hrun as Hparts <-.
  assert (r = true) as ->.
  { destruct r; [done|]. apply BND4_rebuild_hash_table_spec in Hr.
    destruct (proj1 Hr eq_refl) as [Hne _]. by rewrite Hcache in Hne. }
  apply BND4_pack_parts_table in Hparts as [Hreb Htable]; [|exact Ht1].
  split; [done|]. split; [|exact Hentries].
  rewrite <- Htable. unfold build_hash_table. cbn [take_snapshot _entries
    set_most_recent_paths set_most_recent_entry_count]. by rewrite Hentries.
Qed.

(** ** What the packed headers declare *)

Section packed_headers.
Context `{!MagicRules, !Zlib, !TextCodec}.

Lemma pack_loop_dicts_length (step : pack_acc → BNDEntry → result pack_acc)
    (m : Z) (enc : string) (es : list BNDEntry) (acc : pack_acc) :
  (∀ acc acc' e, step acc e = Ok acc' →
     ∃ d paths' data',
       entry_header_dicts acc' = entry_header_dicts acc ++ [d]
       ∧ packed_entry_paths acc' = packed_entry_paths acc ++ paths'
       ∧ packed_entry_data acc' = packed_entry_data acc ++ data'
       ∧ describes m enc 0 0 (packed_entry_paths acc') (packed_entry_data acc') d e) →
  pack_loop step empty_pack_acc es = Ok acc →
  length (entry_header_dicts acc) = length es.
Proof.
  intros Hstep Hloop.
  apply (Forall2_length (describes m enc 0 0 (packed_entry_paths acc)
                           (packed_entry_data acc))).
  apply (pack_loop_describes step m enc es [] empty_pack_acc acc Hstep Hloop).
  constructor.
Qed.

(** The header of a packed V3 file, decoded with the archive's header
    struct, declares the number of entries and, as [file_size], the length of
    the whole file; the file is the 32-byte header, one entry header per
    entry, the path table and the data table. *)
Theorem BND3_header_declares_file_size (b : BND) (p : packed_parts) :
  BND3_structs_ready b →
  BND3_pack_parts b = Ok p →
  len (packed_header p) = 32
  ∧ len (packed_entry_headers p)
    = struct_size (BND3_entry_header_struct (magic b) (order_of (big_endian b)))
      * len (_entries b)
  ∧ packed_hash_table p = []
  ∧ ∃ header : dict,
      struct_unpack (BND3_file_header_struct (big_endian b)) (packed_header p) = Ok header
      ∧ getint header "entry_count" = Ok (len (_entries b))
      ∧ getint header "file_size" = Ok (len (join_parts p)).
Proof.
  intros [Hhs Hehs] Hparts.
  unfold BND3_pack_parts in Hparts. rewrite Hhs, Hehs in Hparts.
  destruct (sorted_by_id (_entries b)) as [es|] eqn:Hsorted; [|done].
  cbn [mbind result_bind] in Hparts.
  destruct (pack_loop _ _ es) as [acc|] eqn:Hloop; [|done].
  cbn [mbind result_bind the_struct] in Hparts.
  set (ehs := BND3_entry_header_struct (magic b) (order_of (big_endian b))) in *.
  destruct (struct_pack (BND3_file_header_struct (big_endian b)) _) as [hb|] eqn:Hhb;
    [|done].
  cbn [mbind result_bind] in Hparts.
  destruct (pack_entry_headers _ _ _ _ _) as [ehb|] eqn:Hehb; [|done].
  cbn [mbind result_bind] in Hparts. injection Hparts as <-.
  cbn [packed_header packed_entry_headers packed_hash_table].
  pose proof (struct_pack_length _ _ _ Hhb) as Hlhb.
  change (struct_size_nat (BND3_file_header_struct (big_endian b))) with 32%nat in Hlhb.
  pose proof (pack_entry_headers_length _ _ _ _ _ _ Hehb) as Hlehb.
  pose proof (pack_loop_dicts_length _ _ _ _ _ (pack_entry_describes' _ _) Hloop) as Hlds.
  pose proof (Permutation_length (sorted_by_id_Permutation _ _ Hsorted)) as Hles.
  assert (len ehb = struct_size ehs * len (_entries b)) as Hehb_len.
  { rewrite Hlehb. unfold len. by rewrite Hlds, Hles. }
  split; [unfold len; by rewrite Hlhb|]. split; [done|]. split; [done|].
  eexists. split.
  - apply struct_unpack_pack; [|exact Hhb].
    apply Forall_app. split; [apply asserted_ok_BND3_start|apply asserted_ok_BND3_endian].
  - unfold join_parts.
    cbn [packed_header packed_entry_headers packed_paths packed_hash_table packed_data].
    change (struct_size (BND3_file_header_struct (big_endian b))) with 32.
    assert (len (hb ++ ehb ++ packed_entry_paths acc ++ [] ++ packed_entry_data acc)
            = 32 + struct_size ehs * len (_entries b) + len (packed_entry_paths acc)
              + len (packed_entry_data acc)) as ->.
    { rewrite <- Hehb_len. unfold len. rewrite !length_app, Hlhb. cbn [length]. lia. }
    clear. unfold BND3_file_header_struct, add_fields, getint, getitem.
    cbn [struct_image new_BinaryStruct BND3_HEADER_STRUCT_START BND3_HEADER_STRUCT_ENDIAN
         fmap list_fmap app].
    split; by simplify_map_eq.
Qed.

(** The header of a packed V4 file, decoded with the archive's header
    struct, declares the number of entries, the size of an entry header, the
    offset of the hash table (the end of the path table when
    [hash_table_type == 4], otherwise 0) and, as [data_offset], the offset at
    which the data table starts in the file. *)
Theorem BND4_header_declares_offsets (r : bool) (b : BND) (p : BND4_packed) :
  BND4_structs_ready b →
  BND4_pack_parts r b = Ok p →
  let ehs := BND4_entry_header_struct (magic b) (order_of (big_endian b)) in
  let file := join_parts (parts p) in
  len (packed_header (parts p)) = 64
  ∧ len (packed_entry_headers (parts p)) = struct_size ehs * len (_entries b)
  ∧ (hash_table_type b ≠ 4 → packed_hash_table (parts p) = [])
  ∧ drop (Z.to_nat (data_start p)) file = packed_data (parts p)
  ∧ ∃ header : dict,
      struct_unpack
        (add_fields (new_BinaryStruct BND4_HEADER_STRUCT_START LittleEndian)
           BND4_HEADER_STRUCT_ENDIAN (order_of (big_endian b)))
        (packed_header (parts p)) = Ok header
      ∧ getint header "entry_count" = Ok (len (_entries b))
      ∧ getint header "entry_header_size" = Ok (struct_size ehs)
      ∧ getint header "data_offset" = Ok (data_start p)
      ∧ getint header "hash_table_offset"
        = Ok (if hash_table_type b =? 4
              then 64 + struct_size ehs * len (_entries b) + len (packed_paths (parts p))
              else 0).
Proof.
  intros [Hhs Hehs] Hparts ehs file. subst file.
  unfold BND4_pack_parts in Hparts. rewrite Hhs, Hehs in Hparts.
  destruct (pack_loop _ _ (_entries b)) as [acc|] eqn:Hloop; [|done].
  cbn [mbind result_bind the_struct] in Hparts. fold ehs in Hparts.
  set (hst := add_fields _ _ _) in *.
  assert (struct_size hst = 64) as Hsz by (by destruct (big_endian b)).
  rewrite Hsz in Hparts.
  set (pto := 64 + struct_size ehs * len (_entries b)) in *.
  match type of Hparts with
  | (?t ≫= _) = _ => destruct t as [[[hto pht] dto]|] eqn:Htable; [|done]
  end.
  cbn [mbind result_bind] in Hparts.
  assert (dto = pto + len (packed_entry_paths acc) + len pht
          ∧ hto = (if hash_table_type b =? 4 then pto + len (packed_entry_paths acc) else 0)
          ∧ (hash_table_type b ≠ 4 → pht = [])) as (Hdto & Hhto & Hpht).
  { destruct (hash_table_type b =? 4) eqn:Ht.
    - destruct (if r then _ else _) as [t|]; [|done].
      cbn [mbind result_bind] in Htable. injection Htable as <- <- <-.
      split; [done|]. split; [done|]. apply Z.eqb_eq in Ht. done.
    - injection Htable as <- <- <-. unfold len. cbn [length].
      split; [lia|]. done. }
  destruct (struct_pack hst _) as [hb|] eqn:Hhb; [|done].
  cbn [mbind result_bind] in Hparts.
  destruct (pack_entry_headers _ _ _ _ _) as [ehb|] eqn:Hehb; [|done].
  injection Hparts as <-.
  cbn [parts data_start packed_header packed_entry_headers packed_paths
       packed_hash_table packed_data].
  pose proof (struct_pack_length _ _ _ Hhb) as Hlhb.
  assert (length hb = 64%nat) as Hlhb64.
  { rewrite Hlhb. unfold struct_size in Hsz. lia. }
  pose proof (pack_entry_headers_length _ _ _ _ _ _ Hehb) as Hlehb.
  pose proof (pack_loop_dicts_length _ _ _ _ _ (BND4_pack_entry_describes _ _) Hloop)
    as Hlds.
  assert (len ehb = struct_size ehs * len (_entries b)) as Hehb_len.
  { rewrite Hlehb. unfold len. by rewrite Hlds. }
  split; [unfold len; by rewrite Hlhb64|]. split; [done|]. split; [done|].
  split.
  - unfold join_parts.
    cbn [packed_header packed_entry_headers packed_paths packed_hash_table packed_data].
    rewrite !app_assoc. apply drop_app_length'.
    rewrite Hdto. unfold pto. rewrite <- Hehb_len. unfold len.
    rewrite !length_app, Hlhb64. lia.
  - eexists. split.
    + apply struct_unpack_pack; [|exact Hhb].
      apply Forall_app. split; [apply asserted_ok_BND4_start|apply asserted_ok_BND4_endian].
    + rewrite Hhto. clear. unfold hst, add_fields, getint, getitem.
      cbn [struct_image new_BinaryStruct BND4_HEADER_STRUCT_START BND4_HEADER_STRUCT_ENDIAN
           fmap list_fmap app].
      repeat split; by simplify_map_eq.
Qed.

End packed_headers.

(** ** Looking entries up and removing them *)

Lemma entries_by_path_loop_spec (es : list BNDEntry) (acc : gmap (option pystr) BNDEntry) :
  match entries_by_path_loop es acc with
  | Ok m =>
      NoDup (path <$> es)
      ∧ (∀ e, e ∈ es → acc !! path e = None)
      ∧ ∀ k e, m !! k = Some e ↔ acc !! k = Some e ∨ (e ∈ es ∧ path e = k)
  | Raise x =>
      x = ValueError "Path appears in multiple BNDEntry paths."
      ∧ ¬ (NoDup (path <$> es) ∧ ∀ e, e ∈ es → acc !! path e = None)
  end.
Proof.
  revert acc. induction es as [|e0 es IH]; intros acc.
  - cbn. split; [constructor|]. split; [intros e He; by apply elem_of_nil in He|].
    intros k e. split; [by left|]. intros [|[He _]]; [done|by apply elem_of_nil in He].
  - cbn [entries_by_path_loop]. case_bool_decide as Hin.
    + split; [done|]. intros [_ Hfresh].
      rewrite (Hfresh e0) in Hin; [by destruct Hin|by left].
    + apply eq_None_not_Some in Hin. specialize (IH (<[path e0 := e0]> acc)).
      destruct (entries_by_path_loop es _) as [m|x].
      * destruct IH as (Hnd & Hfresh & Hm). split; [|split].
        -- rewrite fmap_cons. constructor; [|done].
           intros (e & Heq & He)%list_elem_of_fmap.
           specialize (Hfresh e He). rewrite <- Heq in Hfresh.
           by rewrite lookup_insert_eq in Hfresh.
        -- intros e [->|He]%elem_of_cons; [done|].
           specialize (Hfresh e He). by apply lookup_insert_None in Hfresh as [? _].
        -- intros k e. rewrite Hm. split.
           ++ intros [Hl|[He Hk]].
              ** apply lookup_insert_Some in Hl as [[<- <-]|[_ Hl]].
                 --- right. split; [by left|done].
                 --- by left.
              ** right. split; [by right|done].
           ++ intros [Hl|[[->|He]%elem_of_cons Hk]].
              ** left. apply lookup_insert_Some. right. split; [|done].
                 intros <-. by rewrite Hin in Hl.
              ** left. rewrite <- Hk. apply lookup_insert_eq.
              ** right. done.
      * destruct IH as [-> Hnot]. split; [done|]. intros [Hnd Hfresh]. apply Hnot.
        rewrite fmap_cons in Hnd. apply NoDup_cons in Hnd as [Hn0 Hnd]. split; [done|].
        intros e He. apply lookup_insert_None. split.
        -- apply Hfresh. by right.
        -- intros Heq. apply Hn0. rewrite Heq. apply list_elem_of_fmap. by exists e.
Qed.

Lemma entries_by_path_characterised (b : BND) :
  (NoDup (path <$> _entries b) →
   ∃ m, entries_by_path b = Ok m
        ∧ ∀ k e, m !! k = Some e ↔ e ∈ _entries b ∧ path e = k)
  ∧ (¬ NoDup (path <$> _entries b) →
     entries_by_path b = Raise (ValueError "Path appears in multiple BNDEntry paths.")).
Proof.
  unfold entries_by_path. pose proof (entries_by_path_loop_spec (_entries b) ∅) as Hspec.
  destruct (entries_by_path_loop (_entries b) ∅) as [m|x].
  - destruct Hspec as (Hnd & _ & Hm). split; [|done].
    intros _. exists m. split; [done|]. intros k e. rewrite Hm.
    rewrite lookup_empty. split; [by intros [|]|by right].
  - destruct Hspec as [-> Hnot]. split; [|done].
    intros Hnd. exfalso. apply Hnot. split; [done|]. intros e _. apply lookup_empty.
Qed.

(** [entries_by_path] returns a dict exactly when the entry paths are
    pairwise distinct (two entries without a path count as equal); the dict
    then maps each path to the one entry that has it.  Otherwise it raises
    [ValueError]. *)
Theorem entries_by_path_unique_paths (b : BND) :
  (NoDup (path <$> _entries b) →
   ∃ m, entries_by_path b = Ok m
        ∧ ∀ k e, m !! k = Some e ↔ e ∈ _entries b ∧ path e = k)
  ∧ (¬ NoDup (path <$> _entries b) →
     entries_by_path b = Raise (ValueError "Path appears in multiple BNDEntry paths.")).
Proof. apply entries_by_path_characterised. Qed.

Section lookups.
Context `{!PathLib}.

Lemma find_entry_by_id (msg : string) (b : BND) (i : Z) :
  (NoDup (entry_id <$> _entries b) →
   (∀ e, e ∈ _entries b → entry_id e = Some i → find_entry msg (VInt i) b = Ok e)
   ∧ ((∀ e, e ∈ _entries b → entry_id e ≠ Some i) →
      find_entry msg (VInt i) b = Raise KeyError))
  ∧ (¬ NoDup (entry_id <$> _entries b) →
     find_entry msg (VInt i) b
     = Raise (BNDError "There are multiple entries with the same ID.")).
Proof.
  unfold find_entry. cbn [as_index]. split.
  - intros Hnd.
    destruct (proj1 (entries_by_id_characterised b) Hnd) as (m & -> & Hm).
    cbn [mbind result_bind]. unfold subscript. split.
    + intros e He Hid. by rewrite (proj2 (Hm (Some i) e) (conj He Hid)).
    + intros Hnone. destruct (m !! Some i) as [e|] eqn:Hl; [|done].
      apply Hm in Hl as [He Hid]. by destruct (Hnone e He).
  - intros Hdup. by rewrite (proj2 (entries_by_id_characterised b) Hdup).
Qed.

(** [bnd[i]] for an integer [i], on an archive whose IDs are pairwise
    distinct: the entry with ID [i] when there is one, [KeyError] when there
    is none.  When two entries share an ID, every integer key raises
    [BNDError]. *)
Theorem getitem_by_id (b : BND) (i : Z) :
  (NoDup (entry_id <$> _entries b) →
   (∀ e, e ∈ _entries b → entry_id e = Some i → BND_getitem (VInt i) b = Ok e)
   ∧ ((∀ e, e ∈ _entries b → entry_id e ≠ Some i) →
      BND_getitem (VInt i) b = Raise KeyError))
  ∧ (¬ NoDup (entry_id <$> _entries b) →
     BND_getitem (VInt i) b
     = Raise (BNDError "There are multiple entries with the same ID.")).
Proof. apply find_entry_by_id. Qed.

(** [bnd[s]] for a string [s] that is the path of an entry, on an archive
    whose paths are pairwise distinct: that entry, whatever the basenames of
    the entries are.  When two entries share a path, every string key raises
    [ValueError]. *)
Theorem getitem_by_path (b : BND) (s : pystr) :
  (NoDup (path <$> _entries b) →
   ∀ e, e ∈ _entries b → path e = Some s → BND_getitem (VStr s) b = Ok e)
  ∧ (¬ NoDup (path <$> _entries b) →
     BND_getitem (VStr s) b = Raise (ValueError "Path appears in multiple BNDEntry paths.")).
Proof.
  unfold BND_getitem, find_entry. split.
  - intros Hnd e He Hp.
    destruct (proj1 (entries_by_path_characterised b) Hnd) as (m & -> & Hm).
    cbn [mbind result_bind]. unfold subscript.
    by rewrite (proj2 (Hm (Some s) e) (conj He Hp)).
  - intros Hdup. by rewrite (proj2 (entries_by_path_characterised b) Hdup).
Qed.

Lemma filter_other_id (x : BNDEntry) (l : list BNDEntry) :
  x ∉ l → filter (λ y, y ≠ x) l = l.
Proof.
  induction l as [|y l IH]; [done|].
  intros Hx. apply not_elem_of_cons in Hx as [Hxy Hx].
  rewrite filter_cons_True by done. by rewrite IH.
Qed.

Lemma list_remove_first_NoDup (x : BNDEntry) (l : list BNDEntry) :
  NoDup l → x ∈ l → list_remove_first x l = Ok (filter (λ y, y ≠ x) l).
Proof.
  induction 1 as [|y l Hy Hnd IH]; [by intros ?%elem_of_nil|].
  intros Hx. cbn [list_remove_first].
  case_bool_decide as Hyx.
  - subst y. rewrite filter_cons_False by (by intros []).
    by rewrite filter_other_id.
  - rewrite filter_cons_True by done.
    apply elem_of_cons in Hx as [->|Hx]; [done|]. by rewrite IH.
Qed.

(** [remove_entry(i)] for an integer [i], on an archive whose IDs are
    pairwise distinct: when an entry has ID [i] it is taken out and the other
    entries stay in their order; when none has, [KeyError] is raised and the
    archive is unchanged. *)
Theorem remove_entry_by_id (s : state) (i : Z) :
  NoDup (entry_id <$> _entries (self s)) →
  (∀ e, e ∈ _entries (self s) → entry_id e = Some i →
     remove_entry (VInt i) s
     = (Ok (), mkState (set_entries (filter (λ y, y ≠ e) (_entries (self s))) (self s))
                 (log s)))
  ∧ ((∀ e, e ∈ _entries (self s) → entry_id e ≠ Some i) →
     remove_entry (VInt i) s = (Raise KeyError, s)).
Proof.
  intros Hnd. destruct (proj1 (find_entry_by_id
    "Entry to be removed should be a BND ID (int) or path/basename (str)."
    (self s) i) Hnd) as [Hfound Hmissing].
  unfold remove_entry. rewrite bind_get_self, bind_lift. split.
  - intros e He Hid. rewrite (Hfound e He Hid), bind_lift.
    rewrite list_remove_first_NoDup; [reflexivity| |done].
    by apply NoDup_fmap_1 in Hnd.
  - intros Hnone. by rewrite (Hmissing Hnone).
Qed.

(** Adding an entry with a fresh ID and removing it by that ID leaves the
    entries and the log as they were, and in between [bnd[i]] is the entry. *)
Theorem add_then_remove_entry (s : state) (e : BNDEntry) (i : Z) :
  NoDup (entry_id <$> (_entries (self s) ++ [e])) →
  entry_id e = Some i →
  ∃ s1 s2,
    add_entry e s = (Ok (), s1)
    ∧ BND_getitem (VInt i) (self s1) = Ok e
    ∧ remove_entry (VInt i) s1 = (Ok (), s2)
    ∧ _entries (self s2) = _entries (self s)
    ∧ log s2 = log s.
Proof.
  intros Hnd Hid. destruct s as [b l]. cbn [self log] in *.
  pose proof (add_entry_fresh b l e Hnd) as Hadd.
  eexists. eexists. split; [exact Hadd|].
  assert (e ∈ _entries b ++ [e]) as He by (apply elem_of_app; right; by left).
  split; [|split].
  - apply (proj1 (find_entry_by_id _ _ i)); done.
  - apply (proj1 (remove_entry_by_id (mkState (set_entries (_entries b ++ [e]) b) l) i Hnd)
             e He Hid).
  - cbn [self log _entries set_entries]. split; [|done].
    rewrite filter_app, filter_cons_False, filter_nil, app_nil_r by (by intros []).
    apply filter_other_id.
    rewrite fmap_app in Hnd. apply NoDup_app in Hnd as (_ & Hdisj & _).
    intros Hin. apply (Hdisj (entry_id e)).
    + apply list_elem_of_fmap. by exists e.
    + cbn. by left.
Qed.

End lookups.
#[local] Existing Instances Sample.rules Sample.zlib Sample.codec.

(** ** C1 on sample archives *)

Ltac sample_entry :=
  apply sample_entry_round_trips; cbn; eexists; (split; [reflexivity|]);
  apply Forall_forall; intros c Hc Hz; subst c; revert Hc;
  apply (bool_decide_unpack _); vm_compute; reflexivity.

Ltac by_evaluation := vm_compute; reflexivity.

Lemma sample_entries_round_trip (bnd_magic : Z) (encoding : string) :
  has_path bnd_magic = true →
  Forall (entry_round_trips bnd_magic encoding) [Sample.entry_c; Sample.entry_a].
Proof.
  intros Hp.
  apply Forall_cons; split; [|apply Forall_cons; split; [|constructor]].
  all: apply sample_entry_round_trips; rewrite Hp; eexists; (split; [reflexivity|]).
  all: apply Forall_forall; intros c Hc Hz; subst c; revert Hc.
  all: apply (bool_decide_unpack _); vm_compute; reflexivity.
Qed.

Lemma C1_round_trip_witness :
  let b3 := Sample.bnd3 [Sample.entry_c; Sample.entry_a] 0x06 true in
  let b4 := Sample.bnd4 [Sample.entry_c; Sample.entry_a] 0x06 false 4 in
  (∃ s', BND3_unpack (mkBytesIO (Sample.returned (Sample.pack3 b3)) 0) (mkState empty_BND [])
         = (Ok (), s')
         ∧ _entries (self s') ≡ₚ _entries b3
         ∧ StronglySorted id_lt (_entries (self s')))
  ∧ (∃ s', BND4_unpack (mkBytesIO (Sample.returned (Sample.pack4 b4)) 0) (mkState empty_BND [])
           = (Ok (), s')
           ∧ _entries (self s') = _entries b4).
Proof.
  intros b3 b4. split.
  - assert (has_id (magic b3) = true) as Hid by by_evaluation.
    assert (NoDup (entry_id <$> _entries b3)) as Hnd
      by (apply (bool_decide_unpack _); by_evaluation).
    assert (BND3_structs_ready b3) as Hready by (split; by_evaluation).
    assert ((big_endian b3 || is_big_endian (magic b3)) = big_endian b3) as Hbe
      by by_evaluation.
    assert (Forall (entry_round_trips (magic b3) "shift-jis") (_entries b3)) as Hrt
      by (apply sample_entries_round_trip; by_evaluation).
    assert (bytes_decode (b_ "BND3") = Ok BND3_VERSION) as Hver by by_evaluation.
    assert (fst (BND3_pack (mkState b3 [])) = Ok (Sample.returned (Sample.pack3 b3)))
      as Hpack by by_evaluation.
    exact (proj1 (C1_round_trip b3 [] [] (Sample.returned (Sample.pack3 b3))
                    Hid Hnd (sample_signature_decodes _) Hrt)
             Hready Hbe Hver Hpack).
  - assert (has_id (magic b4) = true) as Hid by by_evaluation.
    assert (NoDup (entry_id <$> _entries b4)) as Hnd
      by (apply (bool_decide_unpack _); by_evaluation).
    assert (BND4_structs_ready b4) as Hready by (split; by_evaluation).
    assert (big_endian b4 = false) as Hle by by_evaluation.
    assert (utf16_paths b4 = false) as Hutf by by_evaluation.
    assert (header_size (magic b4)
            = struct_size (BND4_entry_header_struct (magic b4) LittleEndian)) as Hsize
      by by_evaluation.
    assert (Forall (entry_round_trips (magic b4) "shift-jis") (_entries b4)) as Hrt
      by (apply sample_entries_round_trip; by_evaluation).
    assert (bytes_decode (b_ "BND4") = Ok BND4_VERSION) as Hver by by_evaluation.
    assert (fst (BND4_pack (mkState b4 [])) = Ok (Sample.returned (Sample.pack4 b4)))
      as Hpack by by_evaluation.
    exact (proj2 (C1_round_trip b4 [] [] (Sample.returned (Sample.pack4 b4))
                    Hid Hnd (sample_signature_decodes _) Hrt)
             Hready Hle Hutf Hsize Hver Hpack).
Defined.

(** C1 as stated fails: with the has-id flag off ([magic = 0x04]) [pack]
    writes no IDs, and the entry that comes back has ID [None]. *)
Lemma C1_counterexample :
  let b := Sample.bnd3 [Sample.entry_a] 0x04 false in
  NoDup (entry_id <$> _entries b)
  ∧ ∃ packed s',
      fst (Sample.pack3 b) = Ok packed
      ∧ Sample.unpack3 packed = (Ok (), s')
      ∧ entry_id <$> _entries (self s') = [None]
      ∧ entry_id <$> _entries b = [Some 1]
      ∧ ¬ (_entries (self s') ≡ₚ _entries b).
Proof.
  cbv zeta. split.
  - apply (bool_decide_unpack _). by_evaluation.
  - exists (Sample.returned (Sample.pack3 (Sample.bnd3 [Sample.entry_a] 0x04 false))).
    eexists. split; [by_evaluation|].
    split; [by_evaluation|].
    split; [by_evaluation|].
    split; [by_evaluation|].
    intros Hp. apply (fmap_Permutation entry_id) in Hp.
    apply Permutation_singleton_r in Hp. revert Hp. vm_compute. discriminate.
Qed.


(** With UTF-16 paths a two-byte reader does not get the paths back:
    [get_packed_path] ends a path with one NUL byte, so the reader runs on
    into the next path until it meets an aligned NUL unit.  Here the first
    path comes back with nine more code units. *)
Lemma utf16_paths_not_read_back :
  let r := Sample16.reread16 [Sample.entry_d; Sample.entry_a] in
  fst r = Ok ()
  ∧ path <$> _entries (self (snd r))
    = [Some (str "a\four.bin"
             ++ [24832; 23552; 28416; 28160; 25856; 11776; 25088; 26880; 28160]);
       Some (str "a\one.bin")]
  ∧ ¬ @path_round_trips Sample16.codec "utf-16le" (str "a").
Proof.
  intros r. split; [by_evaluation|]. split; [by_evaluation|].
  intros Hrt. specialize (Hrt [x61; x00] [] [x62; x00; x00] eq_refl).
  revert Hrt. vm_compute. discriminate.
Qed.

(** ** C10 on a sample archive *)

Lemma C10_pack_frame_witness :
  let s := mkState (Sample.bnd4 [Sample.entry_c; Sample.entry_a] 0x06 false 4) [] in
  _entries (self (snd (BND4_pack s))) = _entries (self s)
  ∧ get_data_for_pack Sample.entry_c = (zlib_compress (data Sample.entry_c), true)
  ∧ data Sample.entry_c = b_ "gamma".
Proof.
  intros s.
  destruct (C10_pack_frame s) as (_ & H4 & He).
  split; [exact H4|]. split; [|reflexivity].
  apply (He Sample.entry_c); [|reflexivity].
  apply list_elem_of_here.
Defined.

(** ** C9 on a sample archive *)

Lemma C9_data_padding_witness :
  let b := Sample.bnd4 [Sample.entry_c; Sample.entry_a] 0x06 false 0 in
  let p := Sample.packed4 true b in
  BND4_pack_parts true b = Ok p
  ∧ relative_entry_data_offsets (loop_result p) = [10; 26]
  ∧ packed_data (parts p)
    = replicate 10 x00 ++ (x78 :: b_ "gamma") ++ replicate 10 x00 ++ b_ "alpha"
  ∧ ∃ o1 o2,
      relative_entry_data_offsets (loop_result p) !! 0%nat = Some o1
      ∧ relative_entry_data_offsets (loop_result p) !! 1%nat = Some o2
      ∧ o2 = o1 + len (packed_data_of Sample.entry_c) + 10.
Proof.
  intros b p.
  assert (BND4_pack_parts true b = Ok p) as Hp by by_evaluation.
  assert (_entries b !! 0%nat = Some Sample.entry_c) as H0 by by_evaluation.
  assert (_entries b !! 1%nat = Some Sample.entry_a) as H1 by by_evaluation.
  split; [exact Hp|].
  split; [by_evaluation|]. split; [by_evaluation|].
  destruct (C9_data_padding true b p 0 Sample.entry_c Sample.entry_a Hp H0 H1)
    as (o1 & o2 & d1 & d2 & Ho1 & Ho2 & _ & _ & _ & _ & _ & Ho & _).
  exists o1, o2. split; [exact Ho1|]. split; [exact Ho2|]. exact Ho.
Defined.

(** ** C4 on sample archives *)

Lemma C4_hash_table_reuse_witness :
  let s := sample_reread4 in
  let p := Sample.packed4 false (take_snapshot (self s)) in
  BND4_pack_full s = (Ok p, snd (BND4_pack_full s))
  ∧ rebuilt p = false
  ∧ packed_hash_table (parts p) = _most_recent_hash_table (self s)
  ∧ _most_recent_hash_table (self s) ≠ []
  ∧ snapshot_current (self s).
Proof.
  intros s p.
  assert (hash_table_type (self s) = 4) as Ht by by_evaluation.
  assert (BND4_pack_full s = (Ok p, snd (BND4_pack_full s))) as Hrun by by_evaluation.
  assert (rebuilt p = false) as Hr by by_evaluation.
  destruct (C4_hash_table_reuse s (snd (BND4_pack_full s)) p Ht Hrun)
    as (Hiff & Hsame & _ & _).
  split; [exact Hrun|]. split; [exact Hr|]. split; [exact (Hsame Hr)|].
  exact (proj1 Hiff Hr).
Defined.

(** C4 as stated fails: an archive fresh from [create_header_structs] has a
    snapshot that agrees with its entries and an empty cache; [pack] does not
    emit the cache, it builds the table. *)
Lemma C4_counterexample :
  let b := Sample.bnd4 [Sample.entry_c; Sample.entry_a] 0x06 false 4 in
  let p := Sample.packed4 true (take_snapshot b) in
  hash_table_type b = 4
  ∧ snapshot_current b
  ∧ fst (BND4_pack_full (mkState b [])) = Ok p
  ∧ rebuilt p = true
  ∧ _most_recent_hash_table b = []
  ∧ packed_hash_table (parts p) ≠ _most_recent_hash_table b.
Proof.
  intros b p. split; [by_evaluation|]. split; [|split; [|split; [|split]]].
  - split; [by_evaluation|].
    intros [|[|i]] e; vm_compute; intros He; by inversion He.
  - by_evaluation.
  - by_evaluation.
  - by_evaluation.
  - vm_compute. discriminate.
Qed.

(** The cache is not refreshed by a rebuild: once a path of the re-read
    sample has changed, the first [pack] builds a new table and the second,
    with nothing changed in between, emits the table read from the file. *)
Lemma hash_table_cache_stale_after_rebuild :
  let renamed := mkBNDEntry (b_ "alpha") (Some 1) (Some (str "zz\renamed.bin")) 0x40 in
  let s := mkState (set_entries [Sample.entry_c; renamed] (self sample_reread4)) [] in
  let s1 := snd (BND4_pack_full s) in
  let p1 := Sample.packed4 true (self s1) in
  let p2 := Sample.packed4 false (self s1) in
  fst (BND4_pack_full s) = Ok p1
  ∧ fst (BND4_pack_full s1) = Ok p2
  ∧ _entries (self s1) = _entries (self s)
  ∧ build_hash_table (self s1) = Ok (packed_hash_table (parts p1))
  ∧ packed_hash_table (parts p2) = _most_recent_hash_table (self sample_reread4)
  ∧ packed_hash_table (parts p2) ≠ packed_hash_table (parts p1).
Proof.
  intros renamed s s1 p1 p2.
  split; [by_evaluation|]. split; [by_evaluation|]. split; [by_evaluation|].
  split; [by_evaluation|]. split; [by_evaluation|].
  vm_compute. discriminate.
Qed.

(** ** C5 on a sample buffer *)



(** ** C7 on sample headers *)

Lemma C7_unpack_checks_witness :
  let s := mkState empty_BND [] in
  let after t o :=
    BND4_after_header false false 0x00010000 (str "07D7R6") false 0x06 t o (self s) in
  BND4_unpack (mkBytesIO (sample_header4 24 0 0 ++ []) 0) s
  = (Raise (ValueError "Expected BND entry header size based on magic, but BND header says otherwise."),
     mkState (after 0 0) (log s))
  ∧ ∃ header : dict,
      getint header "entry_header_size" = Ok 28
      ∧ getint header "entry_count" = Ok 0
      ∧ BND4_unpack (mkBytesIO (sample_header4 28 0 5 ++ []) 0) s
        = BND4_unpack_entries header (mkBytesIO (sample_header4 28 0 5 ++ []) 64)
            (order_of (0x00010000 =? 0x00000100))
            (BND4_path_encoding (0x00010000 =? 0x00000100) false)
            (mkState (after 0 5)
               (log s ++ ["Found non-zero hash table offset, but header says this BND has no hash table."])).
Proof.
  intros s after.
  assert (bytes_decode (b_ "BND4") = Ok BND4_VERSION) as Hver by by_evaluation.
  assert (bytes_decode (rstrip_nul (pad_to 8 (b_ "07D7R6"))) = Ok (str "07D7R6")) as Hsig
    by by_evaluation.
  assert (struct_pack (BND4_file_header_struct 0x00010000)
            (BND4_file_header_dict false false 0x00010000 0 (b_ "07D7R6") 24 64 false
               0x06 0 0) = Ok (sample_header4 24 0 0)) as Hp1 by by_evaluation.
  assert (struct_pack (BND4_file_header_struct 0x00010000)
            (BND4_file_header_dict false false 0x00010000 0 (b_ "07D7R6") 28 64 false
               0x06 0 5) = Ok (sample_header4 28 0 5)) as Hp2 by by_evaluation.
  assert (24 ≠ header_size 0x06) as Hne by (vm_compute; discriminate).
  assert (28 = header_size 0x06) as Heq by by_evaluation.
  split.
  - exact (proj1 (proj2 (C7_unpack_checks false false false 0x00010000 0 24 64 0x06 0 0
                           (b_ "07D7R6") (sample_header4 24 0 0) [] (str "07D7R6") s
                           Hver Hsig Hp1)) Hne).
  - exact (proj2 (proj2 (C7_unpack_checks false false false 0x00010000 0 28 64 0x06 0 5
                           (b_ "07D7R6") (sample_header4 28 0 5) [] (str "07D7R6") s
                           Hver Hsig Hp2)) Heq ltac:(lia) ltac:(lia)).
Defined.

(** ** C8 on a sample archive *)

Lemma C8_hash_table_layout_witness :
  let b := Sample.bnd4 [Sample.entry_d; Sample.entry_c; Sample.entry_a] 0x06 false 4 in
  let table := hash_table_layout 2 (entry_hashes (_entries b)) in
  entry_hashes (_entries b) = [(3029, 0); (3528, 1); (2537, 2)]
  ∧ table
    = hash_table_header 2
        ++ group_records 0 [[(3528, 1)]; [(2537, 2); (3029, 0)]]
        ++ hash_records [(3528, 1); (2537, 2); (3029, 0)]
  ∧ ∃ (g : Z) (bs : list (list (Z * Z))),
      hash_group_count (len (_entries b)) = Ok g
      ∧ Forall (λ e, is_Some (path e)) (_entries b)
      ∧ length bs = Z.to_nat g
      ∧ (∀ k bk, bs !! k = Some bk →
           bk ≡ₚ filter (λ ph, fst ph `mod` g = Z.of_nat k) (entry_hashes (_entries b))
           ∧ StronglySorted hash_order bk)
      ∧ table = hash_table_header g ++ group_records 0 bs ++ hash_records (concat bs).
Proof.
  intros b table.
  assert (build_hash_table b = Ok table) as Hb by by_evaluation.
  split; [by_evaluation|]. split; [by_evaluation|].
  exact (C8_hash_table_layout b table Hb).
Defined.

(** C8 as stated fails: each group record holds the length first and the
    start index second. *)
Lemma C8_counterexample :
  let b := Sample.bnd4 [Sample.entry_c; Sample.entry_a] 0x06 false 4 in
  hash_group_count (len (_entries b)) = Ok 2
  ∧ build_hash_table b = Ok (hash_table_layout 2 (entry_hashes (_entries b)))
  ∧ group_records 0 (buckets 2 (entry_hashes (_entries b)))
    = u32 1 ++ u32 0 ++ u32 1 ++ u32 1
  ∧ group_records_as_claimed 0 (buckets 2 (entry_hashes (_entries b)))
    = u32 0 ++ u32 1 ++ u32 1 ++ u32 1
  ∧ build_hash_table b ≠ Ok (hash_table_layout_as_claimed 2 (entry_hashes (_entries b))).
Proof.
  intros b. split; [by_evaluation|]. split; [by_evaluation|].
  split; [by_evaluation|]. split; [by_evaluation|].
  vm_compute. discriminate.
Qed.

(** ** The further properties on sample inputs *)

Lemma path_hash_anagrams_witness : path_hash (str "ab") = path_hash (str "ba").
Proof.
  apply (path_hash_anagrams (str "ab") (str "ba")).
  apply perm_skip, perm_swap.
Defined.

Lemma entries_by_id_unique_ids_witness :
  (∃ m, entries_by_id (Sample.bnd3 [Sample.entry_c; Sample.entry_a] 0x06 false) = Ok m
        ∧ ∀ k e, m !! k = Some e
                 ↔ e ∈ [Sample.entry_c; Sample.entry_a] ∧ entry_id e = k)
  ∧ entries_by_id (Sample.bnd3 [Sample.entry_a; Sample.entry_b] 0x06 false)
    = Raise (BNDError "There are multiple entries with the same ID.").
Proof.
  split.
  - apply (proj1 (entries_by_id_unique_ids
                    (Sample.bnd3 [Sample.entry_c; Sample.entry_a] 0x06 false))).
    apply (bool_decide_unpack _). by_evaluation.
  - apply (proj2 (entries_by_id_unique_ids
                    (Sample.bnd3 [Sample.entry_a; Sample.entry_b] 0x06 false))).
    apply (bool_decide_unpack _). by_evaluation.
Defined.

Lemma add_entry_outcome_witness :
  let s := mkState (Sample.bnd3 [Sample.entry_a] 0x06 false) [] in
  add_entry Sample.entry_b s
  = (Ok (),
     mkState (set_entries [Sample.entry_a; Sample.entry_b] (self s))
       ["Entry ID appears more than once in this BND. Fix this as soon as you can."]).
Proof.
  intros s.
  assert (NoDup (entry_id <$> _entries (self s))) as Hnd
    by (apply (bool_decide_unpack _); by_evaluation).
  rewrite (add_entry_outcome Sample.entry_b s Hnd). reflexivity.
Defined.

Lemma add_entry_after_shared_id_witness :
  let s := mkState (Sample.bnd3 [Sample.entry_a; Sample.entry_b] 0x06 false) [] in
  add_entry Sample.entry_c s
  = (Raise (BNDError "There are multiple entries with the same ID."), s).
Proof.
  intros s.
  apply (add_entry_after_shared_id Sample.entry_c s).
  - apply (bool_decide_unpack _). by_evaluation.
  - apply (bool_decide_unpack _). by_evaluation.
Defined.

Lemma hash_table_lists_every_entry_witness :
  let b := Sample.bnd4 [Sample.entry_d; Sample.entry_c; Sample.entry_a] 0x06 false 4 in
  let table := hash_table_layout 2 (entry_hashes (_entries b)) in
  len table = 64
  ∧ ∃ (g : Z) (head : bytes) (flat : list (Z * Z)),
      hash_group_count (len (_entries b)) = Ok g
      ∧ table = head ++ hash_records flat
      ∧ len head = 24 + 8 * g
      ∧ flat ≡ₚ entry_hashes (_entries b)
      ∧ len table = 24 + 8 * g + 8 * len (_entries b).
Proof.
  intros b table.
  assert (build_hash_table b = Ok table) as Hb by by_evaluation.
  split; [by_evaluation|].
  exact (hash_table_lists_every_entry b table Hb).
Defined.

Lemma first_pack_builds_hash_table_witness :
  let s := mkState (Sample.archive [Sample.entry_c; Sample.entry_a] 0x06 false 4) [] in
  let s1 := snd (BND4_create_header_structs s) in
  let p := Sample.packed4 true (take_snapshot (self s1)) in
  rebuilt p = true
  ∧ build_hash_table (self s) = Ok (packed_hash_table (parts p))
  ∧ _entries (self (snd (BND4_pack_full s1))) = _entries (self s).
Proof.
  intros s s1 p.
  assert (hash_table_type (self s) = 4) as Ht by by_evaluation.
  assert (BND4_pack_full (snd (BND4_create_header_structs s))
          = (Ok p, snd (BND4_pack_full s1))) as Hrun by by_evaluation.
  exact (first_pack_builds_hash_table s (snd (BND4_pack_full s1)) p Ht Hrun).
Defined.

Lemma BND3_header_declares_file_size_witness :
  let b := Sample.bnd3 [Sample.entry_c; Sample.entry_a] 0x06 false in
  let p := match BND3_pack_parts b with
           | Ok p => p
           | Raise _ => mkParts [] [] [] [] []
           end in
  len (join_parts p) = 105
  ∧ ∃ header : dict,
      struct_unpack (BND3_file_header_struct (big_endian b)) (packed_header p) = Ok header
      ∧ getint header "entry_count" = Ok (len (_entries b))
      ∧ getint header "file_size" = Ok (len (join_parts p)).
Proof.
  intros b p.
  assert (BND3_structs_ready b) as Hready by (split; by_evaluation).
  assert (BND3_pack_parts b = Ok p) as Hp by by_evaluation.
  split; [by_evaluation|].
  exact (proj2 (proj2 (proj2 (BND3_header_declares_file_size b p Hready Hp)))).
Defined.

Lemma BND4_header_declares_offsets_witness :
  let b := Sample.bnd4 [Sample.entry_c; Sample.entry_a] 0x06 false 4 in
  let p := Sample.packed4 true b in
  data_start p = 198
  ∧ drop (Z.to_nat (data_start p)) (join_parts (parts p)) = packed_data (parts p).
Proof.
  intros b p.
  assert (BND4_structs_ready b) as Hready by (split; by_evaluation).
  assert (BND4_pack_parts true b = Ok p) as Hp by by_evaluation.
  split; [by_evaluation|].
  exact (proj1 (proj2 (proj2 (proj2 (BND4_header_declares_offsets true b p Hready Hp))))).
Defined.

Lemma entries_by_path_unique_paths_witness :
  (∃ m, entries_by_path (Sample.bnd3 [Sample.entry_c; Sample.entry_a] 0x06 false) = Ok m
        ∧ ∀ k e, m !! k = Some e
                 ↔ e ∈ [Sample.entry_c; Sample.entry_a] ∧ path e = k)
  ∧ entries_by_path (Sample.bnd3 [Sample.entry_a; Sample.entry_a] 0x06 false)
    = Raise (ValueError "Path appears in multiple BNDEntry paths.").
Proof.
  split.
  - apply (proj1 (entries_by_path_unique_paths
                    (Sample.bnd3 [Sample.entry_c; Sample.entry_a] 0x06 false))).
    apply (bool_decide_unpack _). by_evaluation.
  - apply (proj2 (entries_by_path_unique_paths
                    (Sample.bnd3 [Sample.entry_a; Sample.entry_a] 0x06 false))).
    apply (bool_decide_unpack _). by_evaluation.
Defined.

Lemma getitem_by_id_witness :
  let b := Sample.bnd3 [Sample.entry_c; Sample.entry_a] 0x06 false in
  BND_getitem (H := sample_pathlib) (VInt 1) b = Ok Sample.entry_a
  ∧ BND_getitem (H := sample_pathlib) (VInt 5) b = Raise KeyError.
Proof.
  intros b.
  assert (NoDup (entry_id <$> _entries b)) as Hnd
    by (apply (bool_decide_unpack _); by_evaluation).
  split.
  - apply (proj1 (proj1 (getitem_by_id (H := sample_pathlib) b 1) Hnd) Sample.entry_a).
    + apply (bool_decide_unpack _). by_evaluation.
    + reflexivity.
  - apply (proj2 (proj1 (getitem_by_id (H := sample_pathlib) b 5) Hnd)).
    intros e He. revert e He. apply Forall_forall.
    repeat constructor; discriminate.
Defined.

Lemma getitem_by_path_witness :
  let b := Sample.bnd3 [Sample.entry_c; Sample.entry_a] 0x06 false in
  BND_getitem (H := sample_pathlib) (VStr (str "a\one.bin")) b = Ok Sample.entry_a.
Proof.
  intros b.
  apply (proj1 (getitem_by_path (H := sample_pathlib) b (str "a\one.bin"))).
  - apply (bool_decide_unpack _). by_evaluation.
  - apply (bool_decide_unpack _). by_evaluation.
  - reflexivity.
Defined.

Lemma remove_entry_by_id_witness :
  let s := mkState (Sample.bnd3 [Sample.entry_c; Sample.entry_a] 0x06 false) [] in
  remove_entry (H := sample_pathlib) (VInt 2) s
  = (Ok (), mkState (set_entries [Sample.entry_a] (self s)) [])
  ∧ remove_entry (H := sample_pathlib) (VInt 5) s = (Raise KeyError, s).
Proof.
  intros s.
  assert (NoDup (entry_id <$> _entries (self s))) as Hnd
    by (apply (bool_decide_unpack _); by_evaluation).
  split.
  - rewrite (proj1 (remove_entry_by_id (H := sample_pathlib) s 2 Hnd) Sample.entry_c).
    + by_evaluation.
    + apply (bool_decide_unpack _). by_evaluation.
    + reflexivity.
  - apply (proj2 (remove_entry_by_id (H := sample_pathlib) s 5 Hnd)).
    intros e He. revert e He. apply Forall_forall.
    repeat constructor; discriminate.
Defined.

Lemma add_then_remove_entry_witness :
  let s := mkState (Sample.bnd3 [Sample.entry_a] 0x06 false) [] in
  ∃ s1 s2,
    add_entry Sample.entry_c s = (Ok (), s1)
    ∧ BND_getitem (H := sample_pathlib) (VInt 2) (self s1) = Ok Sample.entry_c
    ∧ remove_entry (H := sample_pathlib) (VInt 2) s1 = (Ok (), s2)
    ∧ _entries (self s2) = _entries (self s)
    ∧ log s2 = log s.
Proof.
  intros s.
  apply (add_then_remove_entry (H := sample_pathlib) s Sample.entry_c 2).
  - apply (bool_decide_unpack _). by_evaluation.
  - reflexivity.
Defined.
